(** * Codex rate-limit monitor: the record resolution and normalization engine

    A shallow embedding of [services/ratelimitParser.ts] (the reader of
    session files, the resolver of the freshest record and the normalizer of
    the rate-limit windows) together with the properties of it that the
    specification states; and, after them, of what shows its results: the
    formatter of token counts, the tiers and the bars of [handlers/statusBar.ts]
    and [handlers/webView.ts], the refresh timer of [utils/updateStats.ts]
    and the logger of [services/logger.ts].

    Conventions of the embedding.
    - A JavaScript number is an extended rational: [NaN], the two infinities,
      or a finite value. Arithmetic on finite values is exact: the rounding of
      binary64, its overflow and the sign of zero are not represented. A
      statement whose truth could depend on them carries the bound within
      which the exact result and the rounded one agree, or a tolerance that
      covers the rounding, so that it holds of the program as it runs.
    - A value read from a log line is a [value]: the fields of a record are
      whatever [JSON.parse] produced, not what the TypeScript interfaces
      promise, which is why the code tests [typeof] before it computes.
    - A [Date] is its time value: a whole number of milliseconds, or invalid.
    - Every reading of the clock is an explicit argument; the platform
      ([JSON.parse], [Date] parsing, the file system, the local calendar) is a
      [Host] record of functions.
    - A thrown exception or a rejected promise is [None]. The calls of [log]
      write diagnostics only and are left out of the functions that make
      them; the logger is embedded on its own. *)

From Stdlib Require Import ZArith QArith Qround Qminmax Qabs Lia Lqa Ascii String.
From Stdlib Require Import DecimalString DecimalN.
From stdpp Require Import base option list sorting strings pretty gmap.

Local Open Scope Z_scope.

(** ** JavaScript numbers *)

Module Num.

Inductive number :=
| NaN
| PosInf
| NegInf
| Fin (q : Q).

Definition zero : number := Fin 0.
Definition of_Z (z : Z) : number := Fin (inject_Z z).

Definition Qlt_bool (x y : Q) : bool := negb (Qle_bool y x).

(** [Number.isNaN] *)
Definition isNaN (a : number) : bool :=
  match a with NaN => true | _ => false end.

Definition neg (a : number) : number :=
  match a with
  | NaN => NaN
  | PosInf => NegInf
  | NegInf => PosInf
  | Fin q => Fin (- q)
  end.

(** The sign of an infinite product or quotient. *)
Definition signed_inf (positive : bool) : number :=
  if positive then PosInf else NegInf.

(** [a + b] *)
Definition add (a b : number) : number :=
  match a, b with
  | NaN, _ | _, NaN => NaN
  | PosInf, NegInf | NegInf, PosInf => NaN
  | PosInf, _ | _, PosInf => PosInf
  | NegInf, _ | _, NegInf => NegInf
  | Fin x, Fin y => Fin (x + y)
  end.

(** [a - b] *)
Definition sub (a b : number) : number := add a (neg b).

(** The product of a finite value with an infinity of the given sign. *)
Definition scale_inf (x : Q) (positive : bool) : number :=
  match x ?= 0 with
  | Eq => NaN
  | Gt => signed_inf positive
  | Lt => signed_inf (negb positive)
  end%Q.

(** [a * b] *)
Definition mul (a b : number) : number :=
  match a, b with
  | NaN, _ | _, NaN => NaN
  | Fin x, Fin y => Fin (x * y)
  | Fin x, PosInf | PosInf, Fin x => scale_inf x true
  | Fin x, NegInf | NegInf, Fin x => scale_inf x false
  | PosInf, PosInf | NegInf, NegInf => PosInf
  | PosInf, NegInf | NegInf, PosInf => NegInf
  end.

(** [a / b]; a finite value over zero is an infinity of the sign of the
    numerator, zero over zero is [NaN]. *)
Definition div (a b : number) : number :=
  match a, b with
  | NaN, _ | _, NaN => NaN
  | Fin x, Fin y =>
      if Qeq_bool y 0 then scale_inf x true else Fin (x / y)
  | Fin _, (PosInf | NegInf) => zero
  | PosInf, Fin y => signed_inf (Qle_bool 0 y)
  | NegInf, Fin y => signed_inf (negb (Qle_bool 0 y))
  | (PosInf | NegInf), (PosInf | NegInf) => NaN
  end.

(** [a <= b]; every comparison with [NaN] is false. *)
Definition le (a b : number) : bool :=
  match a, b with
  | NaN, _ | _, NaN => false
  | NegInf, _ | _, PosInf => true
  | PosInf, _ | _, NegInf => false
  | Fin x, Fin y => Qle_bool x y
  end.

(** [a < b] *)
Definition lt (a b : number) : bool :=
  match a, b with
  | NaN, _ | _, NaN => false
  | PosInf, _ | _, NegInf => false
  | NegInf, _ | _, PosInf => true
  | Fin x, Fin y => Qlt_bool x y
  end.

(** [a > b] *)
Definition gt (a b : number) : bool := lt b a.

(** [Math.max(a, b)] *)
Definition max (a b : number) : number :=
  match a, b with
  | NaN, _ | _, NaN => NaN
  | _, _ => if lt a b then b else a
  end.

(** [Math.min(a, b)] *)
Definition min (a b : number) : number :=
  match a, b with
  | NaN, _ | _, NaN => NaN
  | _, _ => if lt b a then b else a
  end.

(** [Math.floor(a)] *)
Definition floor (a : number) : number :=
  match a with
  | Fin q => of_Z (Qfloor q)
  | _ => a
  end.

(** Numbers that denote the same quantity ([NaN] is no quantity). *)
Definition same (a b : number) : Prop :=
  match a, b with
  | PosInf, PosInf | NegInf, NegInf => True
  | Fin x, Fin y => (x == y)%Q
  | _, _ => False
  end.

(** [a] lies in the closed interval from [lo] to [hi]. *)
Definition between (lo hi : Q) (a : number) : Prop :=
  match a with
  | Fin q => (lo <= q /\ q <= hi)%Q
  | _ => False
  end.

End Num.

Import Num.

(** ** Values read from a log line *)

#[warnings="-register-all"]
Inductive value :=
| VUndefined
| VNull
| VBool (b : bool)
| VNumber (n : number)
| VString (s : string)
| VArray (items : list value)
| VObject (fields : gmap string value).

(** [typeof v === 'number'] *)
Definition typeof_number (v : value) : bool :=
  match v with VNumber _ => true | _ => false end.

(** The numeric content of a value that passed the [typeof] test; other
    values never reach arithmetic. *)
Definition to_number (v : value) : number :=
  match v with VNumber n => n | _ => NaN end.

(** Truthiness, as [if (v)], [!v] and [a || b] decide it. *)
Definition truthy (v : value) : bool :=
  match v with
  | VUndefined | VNull => false
  | VBool b => b
  | VNumber n =>
      match n with
      | NaN => false
      | Fin q => negb (Qeq_bool q 0)
      | _ => true
      end
  | VString s => negb (String.eqb s "")
  | VArray _ | VObject _ => true
  end.

(** [v.k]. Reading a property of [null] or [undefined] throws a
    [TypeError] ([None]). The keys the program reads are own properties of
    the parsed objects only: no array, string, number or boolean has them. *)
Definition get (v : value) (k : string) : option value :=
  match v with
  | VUndefined | VNull => None
  | VObject fields => Some (default VUndefined (fields !! k))
  | _ => Some VUndefined
  end.

(** [v?.k] *)
Definition get_opt (v : value) (k : string) : value :=
  default VUndefined (get v k).

(** [v === 'literal'] *)
Definition is_string (v : value) (literal : string) : bool :=
  match v with VString s => String.eqb s literal | _ => false end.

(** ** Dates *)

Inductive Date :=
| Instant (ms : Z)
| InvalidDate.

(** The largest time value of a [Date], in milliseconds. *)
Definition maxTimeValue : Z := 8640000000000000.

(** Rounding towards zero. *)
Definition Qtruncate (q : Q) : Z :=
  if Qle_bool 0 q then Qfloor q else Qceiling q.

(** [new Date(n)] for a number [n]: the time value is clipped. *)
Definition new_Date (n : number) : Date :=
  match n with
  | Fin q =>
      if Qle_bool (inject_Z (- maxTimeValue)) q && Qle_bool q (inject_Z maxTimeValue)
      then Instant (Qtruncate q)
      else InvalidDate
  | _ => InvalidDate
  end.

(** [d.getTime()] *)
Definition getTime (d : Date) : number :=
  match d with
  | Instant ms => of_Z ms
  | InvalidDate => NaN
  end.

(** [a < b] on dates compares the time values. *)
Definition date_lt (a b : Date) : bool := lt (getTime a) (getTime b).

(** [a > b] on dates. *)
Definition date_gt (a b : Date) : bool := gt (getTime a) (getTime b).


(** ** The rate-limit normalizer *)

(** A raw window descriptor ([RateLimit] of [interfaces/types.ts], with the
    [resets_at] field the parser also reads). An absent field is
    [VUndefined]. *)
Record RateLimit := {
  used_percent : value;
  resets_at : value;
  resets_in_seconds : value;
  window_minutes : value
}.

(** The descriptor held by a parsed value: each field is a property read. *)
Definition as_RateLimit (v : value) : RateLimit :=
  {| used_percent := get_opt v "used_percent";
     resets_at := get_opt v "resets_at";
     resets_in_seconds := get_opt v "resets_in_seconds";
     window_minutes := get_opt v "window_minutes" |}.

Record ResetInfo := {
  resetTime : Date;
  isOutdated : bool;
  secondsUntilReset : number
}.

(** [typeof v === 'number' && !Number.isNaN(v)] *)
Definition numeric (v : value) : bool :=
  typeof_number v && negb (isNaN (to_number v)).

(** Lines 18 to 24 of [calculateResetTime]: the candidate reset time, [None]
    while the variable is still [null]. *)
Definition candidateResetTime (recordTimestamp : Date) (rateLimit : RateLimit)
  : option Date :=
  if numeric (resets_at rateLimit) then
    Some (new_Date (mul (to_number (resets_at rateLimit)) (of_Z 1000)))
  else if numeric (resets_in_seconds rateLimit) then
    Some (new_Date (add (getTime recordTimestamp)
                        (mul (to_number (resets_in_seconds rateLimit)) (of_Z 1000))))
  else None.

(** What [calculateResetTime] returns when the reset time cannot be had. *)
Definition unresolved (recordTimestamp : Date) : ResetInfo :=
  {| resetTime := recordTimestamp; isOutdated := true; secondsUntilReset := zero |}.

(** [calculateResetTime]; [now] is the reading of the clock taken on entry
    ([const currentTime = new Date()]). *)
Definition calculateResetTime (now : Z) (recordTimestamp : Date)
  (rateLimit : RateLimit) : ResetInfo :=
  let currentTime := Instant now in
  match candidateResetTime recordTimestamp rateLimit with
  | None => unresolved recordTimestamp
  | Some resetTime =>
      if isNaN (getTime resetTime) then unresolved recordTimestamp
      else
        {| resetTime := resetTime;
           isOutdated := date_lt resetTime currentTime;
           secondsUntilReset :=
             max zero
               (floor (div (sub (getTime resetTime) (getTime currentTime))
                           (of_Z 1000))) |}
  end.

(** A normalized window: the value of [data.primary] and [data.secondary].
    The fields [used_percent] and [window_minutes] carry a [w_] here, the
    names being taken by the raw descriptor. *)
Record Window := {
  w_used_percent : value;
  time_percent : number;
  reset_time : Date;
  outdated : bool;
  w_window_minutes : number
}.

(** The window minutes the normalizer works with. *)
Definition resolveWindowMinutes (rawWindowMinutes : value) : number :=
  if typeof_number rawWindowMinutes && gt (to_number rawWindowMinutes) zero
  then to_number rawWindowMinutes
  else zero.

(** The time percent before the final clamp. *)
Definition rawTimePercent (windowSeconds : number) (info : ResetInfo) : number :=
  if le windowSeconds zero then zero
  else if isOutdated info then of_Z 100
  else
    let elapsedSeconds := sub windowSeconds (secondsUntilReset info) in
    let boundedElapsedSeconds := max zero (min windowSeconds elapsedSeconds) in
    mul (div boundedElapsedSeconds windowSeconds) (of_Z 100).

(** The block of [getRateLimitData] that normalizes one window; the source
    has it twice, word for word, for [primary] and for [secondary]. [now] is
    the clock reading of the call of [calculateResetTime] inside it. *)
Definition normalizeWindow (now : Z) (recordTimestamp : Date)
  (rateLimit : RateLimit) : Window :=
  let info := calculateResetTime now recordTimestamp rateLimit in
  let windowMinutes := resolveWindowMinutes (window_minutes rateLimit) in
  let windowSeconds := mul windowMinutes (of_Z 60) in
  let timePercent := rawTimePercent windowSeconds info in
  {| w_used_percent := used_percent rateLimit;
     time_percent := max zero (min (of_Z 100) timePercent);
     reset_time := resetTime info;
     outdated := isOutdated info;
     w_window_minutes := windowMinutes |}.

(** ** Strings *)

Definition LF : ascii := "010"%char.

(** [s.replace(pattern, replacement)] with a string pattern: the first
    occurrence only. The replacement is taken as it is: the [$] patterns
    that a replacement may hold are not interpreted. *)
Fixpoint String_replace (pattern replacement s : string) : string :=
  if String.prefix pattern s
  then replacement +:+ String.substring (String.length pattern)
                         (String.length s - String.length pattern) s
  else match s with
       | EmptyString => EmptyString
       | String c rest => String c (String_replace pattern replacement rest)
       end.

(** [s.replace(/\\/g, '/')] *)
Fixpoint slashes (s : string) : string :=
  match s with
  | EmptyString => EmptyString
  | String c rest => String (if Ascii.eqb c "\"%char then "/"%char else c) (slashes rest)
  end.

(** [content.split('\n')] *)
Fixpoint split_lines (content : string) : list string :=
  match content with
  | EmptyString => [EmptyString]
  | String c rest =>
      if Ascii.eqb c LF then EmptyString :: split_lines rest
      else match split_lines rest with
           | [] => [String c EmptyString]
           | line :: lines => String c line :: lines
           end
  end.

(** White space that [trim] removes, among the characters of one byte. *)
Definition is_white (c : ascii) : bool :=
  let n := Ascii.nat_of_ascii c in
  ((9 <=? n) && (n <=? 13) || (n =? 32))%nat.

(** [line.trim()] is a non-empty string. *)
Fixpoint nonblank (line : string) : bool :=
  match line with
  | EmptyString => false
  | String c rest => negb (is_white c) || nonblank rest
  end.

(** [String(n)] for a whole number. *)
Definition String_of_Z (n : Z) : string := pretty n.

(** [s.padStart(2, '0')] *)
Definition padStart2 (s : string) : string :=
  match String.length s with
  | O => "00"
  | S O => "0" +:+ s
  | _ => s
  end.

(** ** The platform

    What the program asks of its host: the parsers of the language, the file
    system, the paths, the local calendar and the configuration. A failed
    call (a thrown exception, a rejected promise) is [None]. *)
Record Host := {
  (** [JSON.parse(line)] *)
  JSON_parse : string -> option value;
  (** [new Date(text)] *)
  Date_parse : string -> Date;
  (** [fs.promises.readFile(path, 'utf-8')] *)
  readFile : string -> option string;
  (** [fs.existsSync(path)] *)
  existsSync : string -> bool;
  (** [glob(pattern, { nodir: true })] *)
  glob : string -> option (list string);
  (** [(await fs.promises.stat(file)).mtimeMs] *)
  stat_mtimeMs : string -> option Q;
  (** [os.homedir()] *)
  homedir : string;
  (** [path.join(...)] *)
  path_join : list string -> string;
  (** [path.resolve(p)] *)
  path_resolve : string -> string;
  (** [getFullYear], [getMonth] and [getDate] of the date with the given
      time value, in local time *)
  getFullYear : Z -> Z;
  getMonth : Z -> Z;
  getDate : Z -> Z;
  (** [setDate(day)] on the date with the given time value: the new time
      value *)
  setDate : Z -> Z -> Z;
  (** [config.get<string>('sessionPath', '')] *)
  config_sessionPath : string
}.

(** ** The reader of one session file *)

Section Reader.

Context (host : Host).

(** The two variables of the loop. *)
Record Latest := {
  latestRecord : option value;
  latestTimestamp : option Date
}.

Definition nothing_yet : Latest :=
  {| latestRecord := None; latestTimestamp := None |}.

(** [!latestTimestamp || timestamp > latestTimestamp] *)
Definition replaces (timestamp : Date) (latestTimestamp : option Date) : bool :=
  match latestTimestamp with
  | None => true
  | Some latest => date_gt timestamp latest
  end.

(** The body of the [try] after the line has been parsed. [None]: a
    [TypeError] was thrown, by reading a property of [null] or by calling
    [replace] on a timestamp that is no string. *)
Definition visitRecord (st : Latest) (record : value) : option Latest :=
  type ← get record "type";
  if is_string type "event_msg" then
    payload ← get record "payload";
    if is_string (get_opt payload "type") "token_count" then
      timestampField ← get record "timestamp";
      match timestampField with
      | VString text =>
          let timestamp := Date_parse host (String_replace "Z" "+00:00" text) in
          if replaces timestamp (latestTimestamp st)
          then Some {| latestRecord := Some record; latestTimestamp := Some timestamp |}
          else Some st
      | _ => None
      end
    else Some st
  else Some st.

(** One turn of the loop: a line that does not parse, or whose record
    throws, leaves the two variables as they were. *)
Definition visitLine (st : Latest) (line : string) : Latest :=
  match JSON_parse host line with
  | None => st
  | Some record => default st (visitRecord st record)
  end.

Definition scanLines (lines : list string) : Latest :=
  foldl visitLine nothing_yet lines.

(** [parseSessionFile]: the record, or [None] for [null]. *)
Definition parseSessionFile (filePath : string) : option value :=
  match readFile host filePath with
  | None => None
  | Some content =>
      latestRecord (scanLines (filter (λ line, Is_true (nonblank line)) (split_lines content)))
  end.

End Reader.

(** ** The resolver of the freshest record *)

(** An entry of [sessionFiles] and of [recentFiles]. *)
Record SessionFile := {
  file : string;
  mtimeMs : Q
}.

(** [list.sort((a, b) => b.mtimeMs - a.mtimeMs)]: the sort of the engine is
    stable, so the outcome is the one order that descends by modification
    time and keeps entries of equal time as they came. *)
Fixpoint insertByMtime (x : SessionFile) (sorted : list SessionFile)
  : list SessionFile :=
  match sorted with
  | [] => [x]
  | y :: rest =>
      if Qlt_bool (mtimeMs x) (mtimeMs y) then y :: insertByMtime x rest
      else x :: sorted
  end.

Definition sortByMtimeDesc (files : list SessionFile) : list SessionFile :=
  foldr insertByMtime [] files.

Section Resolver.

Context (host : Host).

(** [getSessionBasePath] *)
Definition getSessionBasePath (customPath : option string) : string :=
  match customPath with
  | Some custom =>
      if negb (String.eqb custom "")
      then path_resolve host (String_replace "~" (homedir host) custom)
      else path_join host [homedir host; ".codex"; "sessions"]
  | None => path_join host [homedir host; ".codex"; "sessions"]
  end.

(** The directory of the day of the date with time value [date]:
    [path.join(sessionPath, String(year), month, day)]. *)
Definition datePath (sessionPath : string) (date : Z) : string :=
  path_join host
    [sessionPath;
     String_of_Z (getFullYear host date);
     padStart2 (String_of_Z (getMonth host date + 1));
     padStart2 (String_of_Z (getDate host date))].

(** [path.join(dir, 'rollout-*.jsonl').replace(/\\/g, '/')] *)
Definition rolloutPattern (dir : string) : string :=
  slashes (path_join host [dir; "rollout-*.jsonl"]).

(** The loop over the files of one directory: a file whose [stat] fails is
    left out, and so is one that [keep] turns down. *)
Definition statFiles (keep : Q -> bool) (files : list string) : list SessionFile :=
  omap (λ f, mtime ← stat_mtimeMs host f;
             if keep mtime then Some {| file := f; mtimeMs := mtime |} else None)
       files.

(** The files of one day directory, none when the directory is missing or
    [glob] fails. *)
Definition filesOfDay (keep : Q -> bool) (dir : string) : list SessionFile :=
  if existsSync host dir then
    match glob host (rolloutPattern dir) with
    | Some files => statFiles keep files
    | None => []
    end
  else [].

(** The date [daysBack] days before [currentDate]:
    [searchDate.setDate(currentDate.getDate() - daysBack)]. *)
Definition searchDate (currentDate : Z) (daysBack : nat) : Z :=
  setDate host currentDate (getDate host currentDate - Z.of_nat daysBack).

(** What the loop of [getSessionFilesWithMtime] collects, before the sort. *)
Definition collectedFiles (sessionPath : string) (currentDate : Z)
  : list SessionFile :=
  daysBack ← seq 0 7;
  filesOfDay (λ _, true) (datePath sessionPath (searchDate currentDate daysBack)).

(** [getSessionFilesWithMtime]; [currentDate] is its reading of the clock. *)
Definition getSessionFilesWithMtime (sessionPath : string) (currentDate : Z)
  : list SessionFile :=
  sortByMtimeDesc (collectedFiles sessionPath currentDate).

(** [stats.mtimeMs >= oneHourAgoMs] *)
Definition isRecent (nowMs : Z) (mtime : Q) : bool :=
  Qle_bool (inject_Z (nowMs - 60 * 60 * 1000)) mtime.

(** [recentFiles] after its sort; [today] is the date read for the day
    directory. *)
Definition recentFiles (sessionPath : string) (nowMs today : Z) : list SessionFile :=
  sortByMtimeDesc (filesOfDay (isRecent nowMs) (datePath sessionPath today)).

(** The first loop: every file it reads joins [attemptedFiles]; the first
    record ends the search. *)
Fixpoint scanRecent (files : list SessionFile) (attemptedFiles : gset string)
  : option (string * value) * gset string :=
  match files with
  | [] => (None, attemptedFiles)
  | f :: rest =>
      let attemptedFiles := {[ file f ]} ∪ attemptedFiles in
      match parseSessionFile host (file f) with
      | Some record => (Some (file f, record), attemptedFiles)
      | None => scanRecent rest attemptedFiles
      end
  end.

(** The second loop: a file of [attemptedFiles] is passed over. *)
Fixpoint scanAll (files : list SessionFile) (attemptedFiles : gset string)
  : option (string * value) :=
  match files with
  | [] => None
  | f :: rest =>
      if decide (file f ∈ attemptedFiles) then scanAll rest attemptedFiles
      else match parseSessionFile host (file f) with
           | Some record => Some (file f, record)
           | None => scanAll rest attemptedFiles
           end
  end.

(** [findLatestTokenCountRecord]. The readings of the clock are [nowMs]
    ([Date.now()]), [today] ([new Date()]) and [currentDate] (the
    [new Date()] of [getSessionFilesWithMtime]). *)
Definition findLatestTokenCountRecord (nowMs today currentDate : Z)
  (basePath : option string) : option (string * value) :=
  let sessionPath := getSessionBasePath basePath in
  if negb (existsSync host sessionPath) then None
  else
    match scanRecent (recentFiles sessionPath nowMs today) ∅ with
    | (Some found, _) => Some found
    | (None, attemptedFiles) =>
        scanAll (getSessionFilesWithMtime sessionPath currentDate) attemptedFiles
    end.

End Resolver.

(** ** The assembly of the result *)

(** [RateLimitData]; a usage is the value the record holds. *)
Record RateLimitData := {
  file_path : string;
  record_timestamp : Date;
  current_time : Date;
  total_usage : value;
  last_usage : value;
  primary : option Window;
  secondary : option Window
}.

Record ParseResult := {
  found : bool;
  data : option RateLimitData;
  error : option string
}.

(** [createEmptyTokenUsage] *)
Definition createEmptyTokenUsage : value :=
  VObject (list_to_map
    [("input_tokens", VNumber zero); ("cached_input_tokens", VNumber zero);
     ("output_tokens", VNumber zero); ("reasoning_output_tokens", VNumber zero);
     ("total_tokens", VNumber zero)]).

(** [a ?? b] *)
Definition nullish_or (a b : value) : value :=
  match a with
  | VUndefined | VNull => b
  | _ => a
  end.

(** [a || b] *)
Definition or_else (a b : value) : value :=
  if truthy a then a else b.

Definition notFound (message : string) : ParseResult :=
  {| found := false; data := None; error := Some message |}.

(** The message of the [TypeError] of the engine, whatever its wording. *)
Definition typeErrorMessage : string := "TypeError".

(** The clock readings of one query, in the order they are taken. *)
Record Clock := {
  nowMs : Z;
  today : Z;
  currentDate : Z;
  currentTime : Z;
  primaryNow : Z;
  secondaryNow : Z
}.

Section Assembly.

Context (host : Host).

(** One of the two [if (rateLimits.primary)] blocks. *)
Definition windowOf (now : Z) (recordTimestamp : Date) (descriptor : value)
  : option Window :=
  if truthy descriptor
  then Some (normalizeWindow now recordTimestamp (as_RateLimit descriptor))
  else None.

(** The body of the [try] of [getRateLimitData] once a record is found;
    [None]: a [TypeError] was thrown. *)
Definition assemble (clock : Clock) (found_file : string) (record : value)
  : option RateLimitData :=
  payload ← get record "payload";
  rate_limits ← get payload "rate_limits";
  let rateLimits := or_else rate_limits (VObject ∅) in
  info ← get payload "info";
  timestampField ← get record "timestamp";
  match timestampField with
  | VString text =>
      let recordTimestamp := Date_parse host (String_replace "Z" "+00:00" text) in
      let totalUsage :=
        nullish_or (get_opt info "total_token_usage") createEmptyTokenUsage in
      let lastUsage :=
        nullish_or (get_opt info "last_token_usage") createEmptyTokenUsage in
      Some {| file_path := found_file;
              record_timestamp := recordTimestamp;
              current_time := Instant (currentTime clock);
              total_usage := totalUsage;
              last_usage := lastUsage;
              primary := windowOf (primaryNow clock) recordTimestamp
                           (get_opt rateLimits "primary");
              secondary := windowOf (secondaryNow clock) recordTimestamp
                             (get_opt rateLimits "secondary") |}
  | _ => None
  end.

(** [customPath || config.get<string>('sessionPath', '')], and then
    [sessionPath || undefined]: the path handed to the resolver. *)
Definition requestedPath (customPath : option string) : option string :=
  let sessionPath :=
    match customPath with
    | Some custom => if negb (String.eqb custom "") then custom
                     else config_sessionPath host
    | None => config_sessionPath host
    end in
  if String.eqb sessionPath "" then None else Some sessionPath.

(** [getRateLimitData] *)
Definition getRateLimitData (clock : Clock) (customPath : option string)
  : ParseResult :=
  match findLatestTokenCountRecord host (nowMs clock) (today clock)
          (currentDate clock) (requestedPath customPath) with
  | None => notFound "No token_count events found in session files"
  | Some (found_file, record) =>
      match assemble clock found_file record with
      | Some result => {| found := true; data := Some result; error := None |}
      | None => notFound typeErrorMessage
      end
  end.

End Assembly.

(** ** A host to run the program on

    The calendar of a host whose local time is UTC, the date-time format of
    ECMAScript, and a small file system. The general statements below hold
    for every host; this one serves to evaluate the program. *)

Module Utc.

Definition msPerDay : Z := 86400000.

(** The number of the day, counted from 1970-01-01, of a civil date. *)
Definition days_from_civil (year month day : Z) : Z :=
  let y := if month <=? 2 then year - 1 else year in
  let era := y / 400 in
  let yoe := y - era * 400 in
  let mp := if month >? 2 then month - 3 else month + 9 in
  let doy := (153 * mp + 2) / 5 + day - 1 in
  let doe := yoe * 365 + yoe / 4 - yoe / 100 + doy in
  era * 146097 + doe - 719468.

(** The civil date of a day counted from 1970-01-01. *)
Definition civil_from_days (days : Z) : Z * Z * Z :=
  let z := days + 719468 in
  let era := z / 146097 in
  let doe := z - era * 146097 in
  let yoe := (doe - doe / 1460 + doe / 36524 - doe / 146096) / 365 in
  let doy := doe - (365 * yoe + yoe / 4 - yoe / 100) in
  let mp := (5 * doy + 2) / 153 in
  let day := doy - (153 * mp + 2) / 5 + 1 in
  let month := if mp <? 10 then mp + 3 else mp - 9 in
  let year := yoe + era * 400 + (if month <=? 2 then 1 else 0) in
  (year, month, day).

Definition getFullYear (t : Z) : Z := (civil_from_days (t / msPerDay)).1.1.
Definition getMonth (t : Z) : Z := (civil_from_days (t / msPerDay)).1.2 - 1.
Definition getDate (t : Z) : Z := (civil_from_days (t / msPerDay)).2.

(** [setDate(day)]: the day of the month is set, the month, the year and
    the time of day stay; a day below 1 or beyond the month runs over into
    the neighbouring months. *)
Definition setDate (t day : Z) : Z :=
  let '(year, month, _) := civil_from_days (t / msPerDay) in
  (days_from_civil year month 1 + day - 1) * msPerDay + t mod msPerDay.

Definition digit (c : ascii) : option Z :=
  let n := Z.of_nat (nat_of_ascii c) in
  if (48 <=? n) && (n <=? 57) then Some (n - 48) else None.

(** Exactly [count] digits at the head of the text. *)
Fixpoint digits (count : nat) (acc : Z) (text : string) : option (Z * string) :=
  match count with
  | O => Some (acc, text)
  | S count' =>
      match text with
      | String c rest => d ← digit c; digits count' (10 * acc + d) rest
      | EmptyString => None
      end
  end.

Definition expect (c : ascii) (text : string) : option string :=
  match text with
  | String c' rest => if Ascii.eqb c c' then Some rest else None
  | EmptyString => None
  end.

(** The digits after the decimal point: the first three count. *)
Fixpoint fraction (place : nat) (acc : Z) (text : string) : Z * string :=
  match text with
  | String c rest =>
      match digit c with
      | Some d =>
          match place with
          | O => fraction O acc rest
          | S place' => fraction place' (acc + d * 10 ^ Z.of_nat place') rest
          end
      | None => (acc, text)
      end
  | EmptyString => (acc, text)
  end.

Definition milliseconds (text : string) : option (Z * string) :=
  match text with
  | String "." (String c rest) =>
      match digit c with
      | Some _ => Some (fraction 3 0 (String c rest))
      | None => None
      end
  | _ => Some (0, text)
  end.

(** The offset from UTC in minutes: [Z], a signed [HH:mm], or none, which
    means local time, here UTC. Nothing may follow. *)
Definition zone (text : string) : option Z :=
  match text with
  | EmptyString => Some 0
  | String "Z" EmptyString => Some 0
  | String sign rest =>
      if Ascii.eqb sign "+" || Ascii.eqb sign "-" then
        '(hours, rest) ← digits 2 0 rest;
        rest ← expect ":" rest;
        '(minutes, rest) ← digits 2 0 rest;
        if String.eqb rest "" && (hours <=? 23) && (minutes <=? 59)
        then Some ((if Ascii.eqb sign "-" then -1 else 1) * (hours * 60 + minutes))
        else None
      else None
  end.

(** The time value of [YYYY-MM-DDTHH:mm:ss], with an optional fraction of
    the second and an optional offset. *)
Definition timeValue (text : string) : option Z :=
  '(year, text) ← digits 4 0 text;
  text ← expect "-" text;
  '(month, text) ← digits 2 0 text;
  text ← expect "-" text;
  '(day, text) ← digits 2 0 text;
  text ← expect "T" text;
  '(hours, text) ← digits 2 0 text;
  text ← expect ":" text;
  '(minutes, text) ← digits 2 0 text;
  text ← expect ":" text;
  '(seconds, text) ← digits 2 0 text;
  '(millis, text) ← milliseconds text;
  offset ← zone text;
  let days := days_from_civil year month day in
  let '(year', month', day') := civil_from_days days in
  if (year' =? year) && (month' =? month) && (day' =? day)
     && (hours <=? 23) && (minutes <=? 59) && (seconds <=? 59)
  then Some (days * msPerDay + hours * 3600000 + minutes * 60000
             + seconds * 1000 + millis - offset * 60000)
  else None.

(** [new Date(text)]: a text outside the format is an invalid date (the
    standard leaves such texts to the engine). *)
Definition Date_parse (text : string) : Date :=
  match timeValue text with
  | Some t => Instant t
  | None => InvalidDate
  end.

End Utc.

(** *** Vocabulary of the statements about windows *)

(** The raw [window_minutes] is absent, not a number, zero or negative. *)
Inductive invalid_window_minutes : value -> Prop :=
| wm_absent : invalid_window_minutes VUndefined
| wm_not_a_number v : typeof_number v = false -> invalid_window_minutes v
| wm_NaN : invalid_window_minutes (VNumber NaN)
| wm_zero q : (q == 0)%Q -> invalid_window_minutes (VNumber (Fin q))
| wm_negative n : lt n zero = true -> invalid_window_minutes (VNumber n).

(** The raw [window_minutes] is the positive number [n]. *)
Definition positive_window_minutes (v : value) (n : number) : Prop :=
  v = VNumber n /\ gt n zero = true.


(** The time value lies in the range a [Date] can hold. *)
Definition in_range (q : Q) : Prop :=
  (inject_Z (- maxTimeValue) <= q /\ q <= inject_Z maxTimeValue)%Q.

(** *** Vocabulary of the statements about the reader *)

(** The record is a [token_count] event: the two discriminators match. *)
Definition is_token_count (record : value) : bool :=
  is_string (get_opt record "type") "event_msg" &&
  is_string (get_opt (get_opt record "payload") "type") "token_count".

(** The record and the date that a line brings to the comparison of the
    loop: the line parses, the record is a [token_count] event and its
    timestamp is a string. *)
Definition timestamped (host : Host) (line : string) : option (value * Date) :=
  record ← JSON_parse host line;
  if is_token_count record then
    match get_opt record "timestamp" with
    | VString text =>
        Some (record, Date_parse host (String_replace "Z" "+00:00" text))
    | _ => None
    end
  else None.

(** The lines that [parseSessionFile] visits. *)
Definition visited (content : string) : list string :=
  filter (λ line, Is_true (nonblank line)) (split_lines content).

(** Line [i] holds [record] with the valid timestamp [t]; no line holds a
    later valid timestamp and no line before [i] holds one as late. *)
Definition first_latest (host : Host) (lines : list string) (i : nat)
  (record : value) (t : Z) : Prop :=
  (exists line, lines !! i = Some line /\
                timestamped host line = Some (record, Instant t)) /\
  forall j line' record' t',
    lines !! j = Some line' ->
    timestamped host line' = Some (record', Instant t') ->
    t' <= t /\ ((j < i)%nat -> t' < t).

(** Line [i] is the first line that takes part in the comparison; it holds
    [record] with the date [d], valid or not. *)
Definition first_participant (host : Host) (lines : list string) (i : nat)
  (record : value) (d : Date) : Prop :=
  (exists line, lines !! i = Some line /\ timestamped host line = Some (record, d)) /\
  forall j line', (j < i)%nat -> lines !! j = Some line' ->
    timestamped host line' = None.

(** The three states of the loop after [lines]: nothing is held when no
    line takes part; when the first line that takes part is dated, the first
    record of greatest timestamp is held; when it is not, its record is. *)
Inductive scanned (host : Host) (lines : list string) : Latest -> Prop :=
| scanned_nothing :
    (forall line, line ∈ lines -> timestamped host line = None) ->
    scanned host lines nothing_yet
| scanned_latest k first t0 i record t :
    first_participant host lines k first (Instant t0) ->
    first_latest host lines i record t ->
    scanned host lines
      {| latestRecord := Some record; latestTimestamp := Some (Instant t) |}
| scanned_undated i record :
    first_participant host lines i record InvalidDate ->
    scanned host lines
      {| latestRecord := Some record; latestTimestamp := Some InvalidDate |}.

(** *** Vocabulary of the statements about the resolver *)



(** The entry is a rollout file of the directory [dir], with its
    modification time, and [keep] lets it through. *)
Definition listed (host : Host) (keep : Q -> bool) (dir : string)
  (entry : SessionFile) : Prop :=
  existsSync host dir = true /\
  exists files, glob host (rolloutPattern host dir) = Some files /\
    file entry ∈ files /\
    stat_mtimeMs host (file entry) = Some (mtimeMs entry) /\
    keep (mtimeMs entry) = true.

(** [f] is the first file of the list, in its order, that yields a record,
    and [record] is what it yields. *)
Definition first_yielding (host : Host) (files : list SessionFile)
  (f : string) (record : value) : Prop :=
  exists i entry, files !! i = Some entry /\ file entry = f /\
    parseSessionFile host f = Some record /\
    forall j entry', (j < i)%nat -> files !! j = Some entry' ->
      parseSessionFile host (file entry') = None.

(** No file of the list yields a record. *)
Definition none_yields (host : Host) (files : list SessionFile) : Prop :=
  forall entry, entry ∈ files -> parseSessionFile host (file entry) = None.


(** The time value of the timestamp of a record, as the host reads it. *)
Definition timestamp_of (host : Host) (record : value) : Date :=
  match get_opt record "timestamp" with
  | VString text => Date_parse host (String_replace "Z" "+00:00" text)
  | _ => InvalidDate
  end.

(** The text occurs in the message. *)
Fixpoint mentions (message text : string) : bool :=
  String.prefix text message ||
  match message with
  | EmptyString => false
  | String _ rest => mentions rest text
  end.

(** *** Sample inputs *)

Definition num (z : Z) : value := VNumber (of_Z z).

(** 2025-01-01T00:00:00Z, and the instants 30 minutes and 2 hours later. *)
Definition new_year : Z := 1735689600000.
Definition half_hour_later : Z := 1735691400000.
Definition two_hours_later : Z := 1735696800000.

(** No reset field at all, a window of 300 minutes. *)
Definition descriptor_without_reset : RateLimit :=
  {| used_percent := num 12; resets_at := VUndefined;
     resets_in_seconds := VUndefined; window_minutes := num 300 |}.

(** A reset at 2025-01-01T01:00:00Z, no window length. *)
Definition descriptor_without_window : RateLimit :=
  {| used_percent := num 12; resets_at := num 1735693200;
     resets_in_seconds := VUndefined; window_minutes := VUndefined |}.

(** A reset given as ten to the thirteen epoch seconds, beyond the range of
    [Date], next to a usable relative offset. *)
Definition descriptor_far_future : RateLimit :=
  {| used_percent := num 12; resets_at := num 10000000000000;
     resets_in_seconds := num 3600; window_minutes := num 60 |}.

(** A reset at 2025-01-01T01:00:00Z and [window_minutes] read from the JSON
    number [1e999], which [JSON.parse] turns into [Infinity]. *)
Definition descriptor_infinite_window : RateLimit :=
  {| used_percent := num 12; resets_at := num 1735693200;
     resets_in_seconds := VUndefined; window_minutes := VNumber PosInf |}.

(** The example of the specification, in its two encodings. *)
Definition descriptor_relative : RateLimit :=
  {| used_percent := num 12; resets_at := VUndefined;
     resets_in_seconds := num 3600; window_minutes := num 60 |}.

Definition descriptor_absolute : RateLimit :=
  {| used_percent := num 12; resets_at := num 1735693200;
     resets_in_seconds := VUndefined; window_minutes := num 60 |}.

(** *** Sample log lines *)

Module Sample.

Definition quoted (text : string) : string :=
  String "034"%char text +:+ String "034"%char EmptyString.

(** A [token_count] event with the given timestamp; [used] tells the
    records apart. *)
Definition event (timestamp : string) (used : Z) : value :=
  VObject (list_to_map
    [("timestamp", VString timestamp);
     ("type", VString "event_msg");
     ("payload", VObject (list_to_map
        [("type", VString "token_count");
         ("rate_limits", VObject (list_to_map
            [("primary", VObject (list_to_map
               [("used_percent", num used)]))]))]))]).

(** The line of the log that holds [event timestamp used]. *)
Definition event_line (timestamp : string) (used : Z) : string :=
  "{" +:+ quoted "timestamp" +:+ ":" +:+ quoted timestamp +:+ ","
      +:+ quoted "type" +:+ ":" +:+ quoted "event_msg" +:+ ","
      +:+ quoted "payload" +:+ ":{" +:+ quoted "type" +:+ ":"
      +:+ quoted "token_count" +:+ "," +:+ quoted "rate_limits" +:+ ":{"
      +:+ quoted "primary" +:+ ":{" +:+ quoted "used_percent" +:+ ":"
      +:+ String_of_Z used +:+ "}}}}".

(** A line that is no JSON. *)
Definition broken_line : string := "{" +:+ quoted "type" +:+ ":".

Definition T1 : string := "2025-01-01T00:10:00Z".
Definition T2 : string := "2025-01-01T00:20:00Z".
Definition T3 : string := "2025-01-01T00:25:00Z".

(** The events of the sample files. *)
Definition events : list (string * Z) :=
  [(T1, 1); (T2, 2); (T3, 3); (T3, 4); ("garbage", 5)].

(** [JSON.parse] on the lines of the sample files: the lines of [events]
    parse to their events, every other line is a syntax error. *)
Definition parse_line (line : string) : option value :=
  (λ e, event e.1 e.2) <$>
    head (filter (λ e, event_line e.1 e.2 = line) events).

Definition lines (l : list string) : string :=
  foldr (λ line rest, line +:+ String LF rest) EmptyString l.

Definition root : string := "/home/u/.codex/sessions".
Definition day : string := "/home/u/.codex/sessions/2025/01/01".

(** Three events in the order of their timestamps, a broken line among
    them. *)
Definition file_ascending : string := day +:+ "/rollout-ascending.jsonl".
(** The first event has a timestamp that is no date. *)
Definition file_garbage_first : string := day +:+ "/rollout-garbage.jsonl".
(** The same, followed by two events of equal timestamp. *)
Definition file_garbage_tie : string := day +:+ "/rollout-tie.jsonl".
(** Modified last, holding the older event. *)
Definition file_a : string := day +:+ "/rollout-a.jsonl".
(** Modified before [file_a], holding the newer event. *)
Definition file_b : string := day +:+ "/rollout-b.jsonl".

Definition contents : list (string * string) :=
  [(file_ascending, lines [event_line T1 1; broken_line; event_line T2 2; event_line T3 3]);
   (file_garbage_first, lines [event_line "garbage" 5; event_line T1 1]);
   (file_garbage_tie, lines [event_line "garbage" 5; event_line T3 3; event_line T3 4]);
   (file_a, lines [event_line T1 1]);
   (file_b, lines [event_line T2 2])].

Definition lookup_file {A} (table : list (string * A)) (path : string) : option A :=
  snd <$> head (filter (λ entry, entry.1 = path) table).

Definition join (segments : list string) : string :=
  match segments with
  | [] => "."
  | first :: rest => foldl (λ acc segment, acc +:+ "/" +:+ segment) first rest
  end.

(** A host in UTC whose session root holds, in the directory of
    2025-01-01, the files [listed] with the given modification times. *)
Definition host (root_exists : bool) (listed : list (string * Q)) : Host :=
  {| JSON_parse := parse_line;
     Date_parse := Utc.Date_parse;
     readFile := lookup_file contents;
     existsSync := λ path,
       root_exists && (String.eqb path root || String.eqb path day);
     glob := λ pattern,
       if String.eqb pattern (day +:+ "/rollout-*.jsonl")
       then Some (fst <$> listed) else Some [];
     stat_mtimeMs := lookup_file listed;
     homedir := "/home/u";
     path_join := join;
     path_resolve := id;
     getFullYear := Utc.getFullYear;
     getMonth := Utc.getMonth;
     getDate := Utc.getDate;
     setDate := Utc.setDate;
     config_sessionPath := "" |}.

(** [file_a] was modified one minute before the query, [file_b] two. *)
Definition two_files : list (string * Q) :=
  [(file_b, inject_Z (half_hour_later - 120000));
   (file_a, inject_Z (half_hour_later - 60000))].

(** A query at 2025-01-01T00:30:00Z. *)
Definition clock : Clock :=
  {| nowMs := half_hour_later; today := half_hour_later;
     currentDate := half_hour_later; currentTime := half_hour_later;
     primaryNow := half_hour_later; secondaryNow := half_hour_later |}.

End Sample.


(** *** Vocabulary of the statements about the snapshot *)

(** [record.payload.info.<key>], [undefined] where a step is missing. *)
Definition usage_field (record : value) (key : string) : value :=
  get_opt (get_opt (get_opt record "payload") "info") key.

(** [record.payload.rate_limits.<key>], [undefined] where a step is
    missing. *)
Definition window_field (record : value) (key : string) : value :=
  get_opt (get_opt (get_opt record "payload") "rate_limits") key.

(** The value is [null] or [undefined]. *)
Definition nullish (v : value) : bool :=
  match v with VUndefined | VNull => true | _ => false end.

(** The window of a descriptor that says nothing. *)
Definition empty_window (recordTimestamp : Date) : Window :=
  {| w_used_percent := VUndefined; time_percent := zero;
     reset_time := recordTimestamp; outdated := true; w_window_minutes := zero |}.

(** ** The formatters of token counts *)

(** [Math.round(a)]: the nearest whole number, a half going upward. *)
Definition Math_round (a : number) : number :=
  match a with
  | Fin q => of_Z (Qfloor (q + (1 # 2)))
  | _ => a
  end.

(** [Math.round(a)] is the negative zero: [a] lies below zero and rounds to
    zero. (The negative zero itself is no [number] here.) *)
Definition rounds_to_negative_zero (a : number) : bool :=
  match a with
  | Fin q => Qlt_bool q 0 && (Qfloor (q + (1 # 2)) =? 0)
  | _ => false
  end.

(** The decimal digits of a natural number. *)
Definition digits_of (n : N) : string :=
  NilEmpty.string_of_uint (N.to_uint n).

(** The digits, last first, with a comma after every third that is not the
    last. *)
Fixpoint commas (reversed : list ascii) (seen : nat) : list ascii :=
  match reversed with
  | [] => []
  | [c] => [c]
  | c :: rest =>
      if (S seen mod 3 =? 0)%nat then c :: ","%char :: commas rest (S seen)
      else c :: commas rest (S seen)
  end.

(** Groups of three digits, counted from the right. *)
Definition group (digits : string) : string :=
  string_of_list_ascii (rev (commas (rev (list_ascii_of_string digits)) 0)).

(** [z.toLocaleString('en-US')] for a whole number. *)
Definition whole_enUS (z : Z) : string :=
  if z <? 0 then "-" +:+ group (digits_of (Z.to_N (- z)))
  else group (digits_of (Z.to_N z)).

(** [formatTokenNumber], of [ratelimitParser.ts] and, word for word, of the
    tooltip of [statusBar.ts]. *)
Definition formatTokenNumber (num : number) : string :=
  let numInK := Math_round (div num (of_Z 1000)) in
  match numInK with
  | NaN => "NaN"
  | PosInf => "∞"
  | NegInf => "-∞"
  | Fin q =>
      if rounds_to_negative_zero (div num (of_Z 1000)) then "-0"
      else whole_enUS (Qfloor q)
  end +:+ " K".

(** The argument of [formatTokenUsage]. *)
Record TokenUsage := {
  input_tokens : number;
  cached_input_tokens : number;
  output_tokens : number;
  reasoning_output_tokens : number;
  total_tokens : number
}.

(** [formatTokenUsage] *)
Definition formatTokenUsage (usage : TokenUsage) : string :=
  "input " +:+ formatTokenNumber (input_tokens usage)
  +:+ ", cached " +:+ formatTokenNumber (cached_input_tokens usage)
  +:+ ", output " +:+ formatTokenNumber (output_tokens usage)
  +:+ ", reasoning " +:+ formatTokenNumber (reasoning_output_tokens usage).

(** *** Vocabulary of the statements about the formatters *)

(** The text without its commas. *)
Definition without_commas (text : string) : string :=
  string_of_list_ascii
    (filter (λ c, c <> ","%char) (list_ascii_of_string text)).

(** The natural number that a text of digits denotes. *)
Definition read_digits (text : string) : option N :=
  N.of_uint <$> NilEmpty.uint_of_string text.

(** ** The colours of the status bar, of the tooltip and of the panel *)

(** [a >= b] *)
Definition ge (a b : number) : bool := le b a.

(** The settings under [codexRatelimit.color], as [config.get] returns them:
    a setting that is absent has its default. *)
Record ColorConfig := {
  colorsEnabled : bool;
  warningThreshold : number;
  warningColor : string;
  criticalThreshold : number;
  criticalColor : string
}.

(** The defaults of the settings. *)
Definition defaultColors : ColorConfig :=
  {| colorsEnabled := true;
     warningThreshold := of_Z 70;
     warningColor := "#f3d898";
     criticalThreshold := of_Z 90;
     criticalColor := "#eca7a7" |}.

(** [string | vscode.ThemeColor] *)
Inductive Color :=
| Css (code : string)
| ThemeColor (id : string).

(** [getStatusBarColor] *)
Definition getStatusBarColor (config : ColorConfig) (percentage : number) : Color :=
  if negb (colorsEnabled config) then ThemeColor "statusBarItem.foreground"
  else if ge percentage (criticalThreshold config) then Css (criticalColor config)
  else if ge percentage (warningThreshold config) then Css (warningColor config)
  else ThemeColor "statusBarItem.foreground".

(** The [type] of a progress bar: ['usage' | 'time']. *)
Inductive BarType := UsageBar | TimeBar.

(** [filledWidth] of [createProgressBar]:
    [Math.round((percentage / 100) * width)] with a [width] of 200. *)
Definition filledWidth (percentage : number) : number :=
  Math_round (mul (div percentage (of_Z 100)) (of_Z 200)).

(** [fillColor] of [createProgressBar]. *)
Definition fillColor (config : ColorConfig) (percentage : number)
  (type : BarType) (outdated : bool) : string :=
  if outdated then "#666"
  else match type with
       | TimeBar => "#9C27B0"
       | UsageBar =>
           if ge percentage (criticalThreshold config) then criticalColor config
           else if ge percentage (warningThreshold config) then warningColor config
           else "#4CAF50"
       end.

(** [_getProgressClass] of the panel *)
Definition _getProgressClass (percentage : number) (outdated : bool) : string :=
  if outdated then "outdated" else "".

(** [_getUsageClass] of the panel *)
Definition _getUsageClass (config : ColorConfig) (percentage : number)
  (outdated : bool) : string :=
  if outdated then "outdated"
  else if ge percentage (criticalThreshold config) then "high"
  else if ge percentage (warningThreshold config) then "medium"
  else "low".

(** [const timePercent = primary.outdated ? 0 : primary.time_percent], of
    the tooltip and of the panel: the percentage of the time bar. *)
Definition timePercent (w : Window) : number :=
  if outdated w then zero else time_percent w.

(** ** The two views of a query *)

(** [result.error || fallback] *)
Definition error_or (message : option string) (fallback : string) : string :=
  match message with
  | Some text => if String.eqb text "" then fallback else text
  | None => fallback
  end.

(** The call on the status bar that [updateStats] ends with. *)
Inductive StatusBarCall :=
| showErrorState (message : string)
| updateStatusBar (shown : RateLimitData).

(** [updateStats] of [utils/updateStats.ts], at the readings [clock] of its
    query. Its [catch] is for a rejection of [getRateLimitData], which
    catches its own exceptions. *)
Definition updateStats (host : Host) (clock : Clock) : StatusBarCall :=
  let result := getRateLimitData host clock None in
  if negb (found result)
  then showErrorState (error_or (error result) "Unknown error occurred")
  else match data result with
       | None => showErrorState "Rate limit data is undefined"
       | Some shown => updateStatusBar shown
       end.

(** The page that [_update] of the panel sets. *)
Inductive PanelHtml :=
| _getErrorHtml (errorMessage : string)
| _getHtml (shown : RateLimitData).

(** Whether [_renderProgressSection] gets through the block of one window.
    For a window that is not outdated the block calls
    [used_percent.toFixed(1)], which throws a [TypeError] unless
    [used_percent] is a number; [time_percent] always is one. Nothing else
    that [_getHtml] evaluates can throw. *)
Definition renders (w : option Window) : bool :=
  match w with
  | Some w => outdated w || typeof_number (w_used_percent w)
  | None => true
  end.

(** [_update] of [handlers/webView.ts], with its [catch]: when [_getHtml]
    throws, the page is the error page with the message of the
    exception. *)
Definition _update (host : Host) (clock : Clock) : PanelHtml :=
  let result := getRateLimitData host clock None in
  if negb (found result)
  then _getErrorHtml (error_or (error result) "No rate limit data found")
  else match data result with
       | None => _getErrorHtml "Rate limit data is undefined"
       | Some shown =>
           if renders (primary shown) && renders (secondary shown)
           then _getHtml shown
           else _getErrorHtml typeErrorMessage
       end.

(** ** The refresh timer *)

(** [getRefreshIntervalMs]; [refreshInterval] is
    [config.get('refreshInterval', 10)]. *)
Definition getRefreshIntervalMs (refreshInterval : number) : number :=
  mul (max refreshInterval (of_Z 5)) (of_Z 1000).

(** The delay that [setInterval] of Node keeps for its timer
    ([_idleTimeout]), given the delay it is handed: one that is not from 1
    to [2 ^ 31 - 1] is replaced by 1. *)
Definition idleTimeout (after : number) : number :=
  if ge after (of_Z 1) && le after (of_Z 2147483647) then after else of_Z 1.

(** The two variables of [utils/updateStats.ts], with what they act on: the
    setting, the intervals that the engine holds (each handle with its
    delay), the handles given out so far, and the calls of [updateStats]
    made so far. *)
Record Timers := {
  refreshTimer : option nat;
  isWindowFocused : bool;
  refreshInterval : number;
  intervals : gmap nat number;
  handles : nat;
  updates : nat
}.

(** The module as it is loaded. *)
Definition loaded (setting : number) : Timers :=
  {| refreshTimer := None; isWindowFocused := true; refreshInterval := setting;
     intervals := ∅; handles := 0; updates := 0 |}.

(** A call of [updateStats]. *)
Definition updated (s : Timers) : Timers :=
  {| refreshTimer := refreshTimer s; isWindowFocused := isWindowFocused s;
     refreshInterval := refreshInterval s; intervals := intervals s;
     handles := handles s; updates := S (updates s) |}.

(** [stopRefreshTimer] *)
Definition stopRefreshTimer (s : Timers) : Timers :=
  match refreshTimer s with
  | Some handle =>
      {| refreshTimer := None; isWindowFocused := isWindowFocused s;
         refreshInterval := refreshInterval s;
         intervals := delete handle (intervals s);
         handles := handles s; updates := updates s |}
  | None => s
  end.

(** [startRefreshTimer] *)
Definition startRefreshTimer (s : Timers) : Timers :=
  let s := stopRefreshTimer s in
  if negb (isWindowFocused s) then s
  else
    let intervalMs := getRefreshIntervalMs (refreshInterval s) in
    let s := updated s in
    {| refreshTimer := Some (handles s); isWindowFocused := isWindowFocused s;
       refreshInterval := refreshInterval s;
       intervals := <[handles s := intervalMs]> (intervals s);
       handles := S (handles s); updates := updates s |}.

(** [setWindowFocused] *)
Definition setWindowFocused (focused : bool) (s : Timers) : Timers :=
  let s :=
    {| refreshTimer := refreshTimer s; isWindowFocused := focused;
       refreshInterval := refreshInterval s; intervals := intervals s;
       handles := handles s; updates := updates s |} in
  if focused then startRefreshTimer s else stopRefreshTimer s.

(** [cleanup] *)
Definition cleanup (s : Timers) : Timers := stopRefreshTimer s.

(** The callback handed to [setInterval], run when the interval [handle]
    elapses; an interval that was cleared never runs it. *)
Definition elapsed (handle : nat) (s : Timers) : Timers :=
  match intervals s !! handle with
  | Some _ => if isWindowFocused s then updated s else s
  | None => s
  end.

(** What reaches the module once the extension is active, as
    [extension.ts] wires it. *)
Inductive Event :=
| WindowStateChanged (focused : bool)
| RefreshIntervalChanged (setting : number)
| OtherSettingChanged
| ManualRefresh
| IntervalElapsed (handle : nat)
| Deactivated.

Definition handle_event (s : Timers) (e : Event) : Timers :=
  match e with
  | WindowStateChanged focused => setWindowFocused focused s
  | RefreshIntervalChanged setting =>
      startRefreshTimer
        {| refreshTimer := refreshTimer s; isWindowFocused := isWindowFocused s;
           refreshInterval := setting; intervals := intervals s;
           handles := handles s; updates := updates s |}
  | OtherSettingChanged | ManualRefresh => updated s
  | IntervalElapsed handle => elapsed handle s
  | Deactivated => cleanup s
  end.

(** The state after [activate], which ends with [startRefreshTimer()], and
    the events that followed. *)
Definition session (setting : number) (events : list Event) : Timers :=
  foldl handle_event (startRefreshTimer (loaded setting)) events.

(** *** Vocabulary of the statements about the timer *)

(** At most one interval is alive, and it is the one [refreshTimer]
    holds. *)
Definition one_interval (s : Timers) : Prop :=
  exists delay,
    intervals s = match refreshTimer s with
                  | Some handle => {[ handle := delay ]}
                  | None => ∅
                  end.

(** The invariant of the module. *)
Definition timers_invariant (s : Timers) : Prop :=
  intervals s = match refreshTimer s with
                | Some handle =>
                    {[ handle := getRefreshIntervalMs (refreshInterval s) ]}
                | None => ∅
                end
  /\ (isWindowFocused s = false -> refreshTimer s = None).

(** ** The logger *)

(** The output channel: its lines, and whether [show] was called on it. *)
Record Channel := {
  channel_lines : list string;
  channel_shown : bool
}.

(** The variable [outputChannel] of [services/logger.ts] and the lines of
    the console, each with whether [console.error] wrote it. *)
Record Logger := {
  outputChannel : option Channel;
  console : list (bool * string)
}.

(** [initializeLogging] *)
Definition initializeLogging (s : Logger) : Logger :=
  match outputChannel s with
  | None => {| outputChannel := Some {| channel_lines := []; channel_shown := false |};
               console := console s |}
  | Some _ => s
  end.

(** [log]; [enableLogging] is the setting as read by the call and
    [timestamp] is [new Date().toISOString()]. *)
Definition log (enableLogging : bool) (timestamp message : string)
  (isError : bool) (s : Logger) : Logger :=
  if negb enableLogging && negb isError
     && negb (mentions message "Manual refresh")
     && negb (mentions message "Extension activation")
  then s
  else
    let logMessage := "[" +:+ timestamp +:+ "] " +:+ message in
    {| outputChannel :=
         (λ channel,
            {| channel_lines := channel_lines channel ++ [logMessage];
               channel_shown := isError || channel_shown channel |})
         <$> outputChannel s;
       console := console s ++ [(isError, logMessage)] |}.

(** [dispose] *)
Definition dispose (s : Logger) : Logger :=
  {| outputChannel := None; console := console s |}.

(** A call of one of the three functions of the logger. *)
Inductive LoggerCall :=
| call_initializeLogging
| call_log (enableLogging : bool) (timestamp message : string) (isError : bool)
| call_dispose.

Definition logger_call (s : Logger) (c : LoggerCall) : Logger :=
  match c with
  | call_initializeLogging => initializeLogging s
  | call_log enableLogging timestamp message isError =>
      log enableLogging timestamp message isError s
  | call_dispose => dispose s
  end.

(** The logger after the calls, from the module as it is loaded. *)
Definition logged (calls : list LoggerCall) : Logger :=
  foldl logger_call {| outputChannel := None; console := [] |} calls.

(** ** The files a search reads *)

Section Reads.

Context (host : Host).




End Reads.

(** *** Vocabulary of the statements about the two phases *)




(** *** A host with the directories of two days *)

Module TwoDays.

Definition yesterday : string := "/home/u/.codex/sessions/2024/12/31".

(** A session begun on 2024-12-31 and written to one minute before the
    query; it holds the event of 00:20. *)
Definition file_late : string := yesterday +:+ "/rollout-late.jsonl".

(** [Sample.file_a], of 2025-01-01, was modified ten minutes before the
    query; it holds the event of 00:10. *)
Definition listed : list (string * Q) :=
  [(Sample.file_a, inject_Z (half_hour_later - 600000));
   (file_late, inject_Z (half_hour_later - 60000))].

Definition host : Host :=
  {| JSON_parse := Sample.parse_line;
     Date_parse := Utc.Date_parse;
     readFile :=
       Sample.lookup_file
         ((file_late, Sample.lines [Sample.event_line Sample.T2 2])
          :: Sample.contents);
     existsSync := λ path,
       String.eqb path Sample.root || String.eqb path Sample.day
       || String.eqb path yesterday;
     glob := λ pattern,
       if String.eqb pattern (Sample.day +:+ "/rollout-*.jsonl")
       then Some [Sample.file_a]
       else if String.eqb pattern (yesterday +:+ "/rollout-*.jsonl")
       then Some [file_late]
       else Some [];
     stat_mtimeMs := Sample.lookup_file listed;
     homedir := "/home/u";
     path_join := Sample.join;
     path_resolve := id;
     getFullYear := Utc.getFullYear;
     getMonth := Utc.getMonth;
     getDate := Utc.getDate;
     setDate := Utc.setDate;
     config_sessionPath := "" |}.

End TwoDays.

(** *** A host whose record has a window without usage *)

Module NoUsage.

(** A [token_count] event of 00:10 whose primary window resets an hour
    later and has no [used_percent]. *)
Definition record : value :=
  VObject (list_to_map
    [("timestamp", VString Sample.T1);
     ("type", VString "event_msg");
     ("payload", VObject (list_to_map
        [("type", VString "token_count");
         ("rate_limits", VObject (list_to_map
            [("primary", VObject (list_to_map
               [("resets_in_seconds", num 3600);
                ("window_minutes", num 60)]))]))]))]).

(** The line of the log that holds [record]. *)
Definition line : string :=
  "{" +:+ Sample.quoted "timestamp" +:+ ":" +:+ Sample.quoted Sample.T1 +:+ ","
      +:+ Sample.quoted "type" +:+ ":" +:+ Sample.quoted "event_msg" +:+ ","
      +:+ Sample.quoted "payload" +:+ ":{" +:+ Sample.quoted "type" +:+ ":"
      +:+ Sample.quoted "token_count" +:+ "," +:+ Sample.quoted "rate_limits"
      +:+ ":{" +:+ Sample.quoted "primary" +:+ ":{"
      +:+ Sample.quoted "resets_in_seconds" +:+ ":3600,"
      +:+ Sample.quoted "window_minutes" +:+ ":60}}}}".

(** The host of the samples with [Sample.file_a] alone, modified one minute
    before the query and holding that line. *)
Definition host : Host :=
  {| JSON_parse := λ text, if String.eqb text line then Some record else None;
     Date_parse := Utc.Date_parse;
     readFile := λ path,
       if String.eqb path Sample.file_a then Some (Sample.lines [line]) else None;
     existsSync := λ path,
       String.eqb path Sample.root || String.eqb path Sample.day;
     glob := λ pattern,
       if String.eqb pattern (Sample.day +:+ "/rollout-*.jsonl")
       then Some [Sample.file_a] else Some [];
     stat_mtimeMs := λ path,
       if String.eqb path Sample.file_a
       then Some (inject_Z (half_hour_later - 60000)) else None;
     homedir := "/home/u";
     path_join := Sample.join;
     path_resolve := id;
     getFullYear := Utc.getFullYear;
     getMonth := Utc.getMonth;
     getDate := Utc.getDate;
     setDate := Utc.setDate;
     config_sessionPath := "" |}.

End NoUsage.

(** *** Vocabulary of the bounds of binary64 *)

(** [Number.MAX_VALUE]: the greatest finite number of binary64. *)
Definition MAX_VALUE : Q := inject_Z ((2 ^ 53 - 1) * 2 ^ 971).

(** [Number.MAX_SAFE_INTEGER], that is [2 ^ 53 - 1]: up to it the whole
    numbers are numbers of binary64, each of them. *)
Definition MAX_SAFE_INTEGER : Z := 9007199254740991.

(** The window seconds, sixty times the raw [window_minutes], do not
    overflow: the product is at most [MAX_VALUE] where the field is a finite
    number. The arithmetic of the embedding has no overflow of its own. *)
Definition windowSeconds_finite (rawWindowMinutes : value) : Prop :=
  match rawWindowMinutes with
  | VNumber (Fin q) => (q * 60 <= MAX_VALUE)%Q
  | VNumber PosInf => False
  | _ => True
  end.

(** The time value [r] is within [tolerance] milliseconds of [q]. *)
Definition near (tolerance : Q) (r : Z) (q : Q) : Prop :=
  (Qabs (inject_Z r - q) <= tolerance)%Q.

(** *** Vocabulary of the statements about the views *)


(** * Properties *)

(** ** Numbers *)

Module NumFacts.

Lemma Qlt_bool_iff (x y : Q) : Qlt_bool x y = true <-> (x < y)%Q.
Proof.
  unfold Qlt_bool. rewrite negb_true_iff, <- not_true_iff_false, Qle_bool_iff.
  split; [apply Qnot_le_lt | apply Qlt_not_le].
Qed.

Lemma Qlt_bool_false (x y : Q) : Qlt_bool x y = false <-> (y <= x)%Q.
Proof.
  unfold Qlt_bool. rewrite negb_false_iff. apply Qle_bool_iff.
Qed.

Lemma Qle_bool_false (x y : Q) : Qle_bool x y = false <-> (y < x)%Q.
Proof.
  rewrite <- not_true_iff_false, Qle_bool_iff.
  split; [apply Qnot_le_lt | apply Qlt_not_le].
Qed.

(** A number above zero is not [NaN], and sixty times it is above zero. *)
Lemma gt_zero_scale (n : number) (k : Z) :
  0 < k -> gt n zero = true -> le (mul n (of_Z k)) zero = false.
Proof.
  intros Hk. destruct n as [| | |q]; simpl; try discriminate.
  - intros _. unfold scale_inf.
    assert (Hc : (inject_Z k ?= 0)%Q = Gt).
    { apply Qgt_alt. change 0%Q with (inject_Z 0). rewrite <- Zlt_Qlt. exact Hk. }
    now rewrite Hc.
  - unfold gt, lt, zero. rewrite Qlt_bool_iff, Qle_bool_false. intros Hq.
    apply Qmult_lt_0_compat; [exact Hq|].
    change 0%Q with (inject_Z 0). rewrite <- Zlt_Qlt. exact Hk.
Qed.

(** The clamp [Math.max(0, Math.min(100, x))] of a number that is not [NaN]
    lies between 0 and 100. *)
Lemma clamp_between (x : number) :
  isNaN x = false -> between 0 100 (max zero (min (of_Z 100) x)).
Proof.
  destruct x as [| | |q]; simpl; try discriminate; intros _.
  - split; [discriminate | apply Qle_refl].
  - split; [apply Qle_refl | discriminate].
  - unfold min, of_Z, lt.
    destruct (Qlt_bool q (inject_Z 100)) eqn:Hhi.
    + apply Qlt_bool_iff in Hhi. unfold max, zero, lt.
      destruct (Qlt_bool 0 q) eqn:Hlo; simpl.
      * apply Qlt_bool_iff in Hlo. split; [now apply Qlt_le_weak | now apply Qlt_le_weak].
      * split; [apply Qle_refl | discriminate].
    + simpl. split; [discriminate | apply Qle_refl].
Qed.

Lemma clamp_NaN : max zero (min (of_Z 100) NaN) = NaN.
Proof. reflexivity. Qed.

End NumFacts.

(** ** The normalizer *)

Section Normalizer.

Variable now : Z.
Variable recordTimestamp : Date.

Lemma resolveWindowMinutes_invalid (v : value) :
  invalid_window_minutes v -> resolveWindowMinutes v = zero.
Proof.
  unfold resolveWindowMinutes. intros Hi.
  destruct Hi as [ |w Hw| |q Hq|n Hn]; simpl; try reflexivity.
  - now rewrite Hw.
  - unfold gt, lt, zero. replace (Qlt_bool 0 q) with false; [reflexivity|].
    symmetry. apply NumFacts.Qlt_bool_false. rewrite Hq. apply Qle_refl.
  - destruct n as [| | |q]; simpl in *; try reflexivity; try discriminate.
    unfold gt, lt, zero. replace (Qlt_bool 0 q) with false; [reflexivity|].
    symmetry. apply NumFacts.Qlt_bool_false. apply NumFacts.Qlt_bool_iff in Hn.
    now apply Qlt_le_weak.
Qed.

Lemma resolveWindowMinutes_positive (v : value) (n : number) :
  positive_window_minutes v n -> resolveWindowMinutes v = n.
Proof.
  intros [-> Hn]. unfold resolveWindowMinutes.
  cbn [typeof_number to_number andb]. now rewrite Hn.
Qed.

(** Every raw value is of exactly one of the two kinds. *)
Lemma window_minutes_cases (v : value) :
  invalid_window_minutes v \/ exists n, positive_window_minutes v n.
Proof.
  destruct v as [| | |n| | |]; try (left; apply wm_not_a_number; reflexivity).
  destruct (gt n zero) eqn:Hgt.
  - right. exists n. now split.
  - left. destruct n as [| | |q]; try discriminate.
    + apply wm_NaN.
    + apply wm_negative. reflexivity.
    + unfold gt, lt, zero in Hgt. apply NumFacts.Qlt_bool_false in Hgt.
      destruct (Qeq_bool q 0) eqn:He.
      * apply wm_zero. now apply Qeq_bool_iff.
      * apply wm_negative. simpl. apply NumFacts.Qlt_bool_iff.
        apply Qeq_bool_neq in He. apply Qle_lteq in Hgt. tauto.
Qed.

Lemma invalid_not_positive (v : value) (n : number) :
  invalid_window_minutes v -> positive_window_minutes v n -> False.
Proof.
  intros Hi Hp. pose proof (resolveWindowMinutes_invalid _ Hi) as E.
  rewrite (resolveWindowMinutes_positive _ _ Hp) in E. subst n.
  destruct Hp as [_ Hp]. discriminate Hp.
Qed.

Lemma time_percent_invalid_window (rl : RateLimit) :
  invalid_window_minutes (window_minutes rl) ->
  time_percent (normalizeWindow now recordTimestamp rl) = zero.
Proof.
  intros Hi. unfold normalizeWindow. simpl.
  rewrite (resolveWindowMinutes_invalid _ Hi). reflexivity.
Qed.

Lemma time_percent_outdated (rl : RateLimit) (n : number) :
  positive_window_minutes (window_minutes rl) n ->
  outdated (normalizeWindow now recordTimestamp rl) = true ->
  time_percent (normalizeWindow now recordTimestamp rl) = of_Z 100.
Proof.
  intros Hp Ho. pose proof Hp as [_ Hn]. unfold normalizeWindow in *. simpl in *.
  rewrite (resolveWindowMinutes_positive _ _ Hp).
  unfold rawTimePercent. rewrite (NumFacts.gt_zero_scale n 60), Ho by (lia || assumption).
  reflexivity.
Qed.

(** When neither reset field is numeric there is no candidate. *)
Lemma calculateResetTime_no_field (rl : RateLimit) :
  numeric (resets_at rl) = false ->
  numeric (resets_in_seconds rl) = false ->
  calculateResetTime now recordTimestamp rl = unresolved recordTimestamp.
Proof.
  intros Ha Hs. unfold calculateResetTime, candidateResetTime.
  now rewrite Ha, Hs.
Qed.

(** A candidate that is a valid date is the reset time, and the window is
    outdated exactly when it lies before the reading of the clock. *)
Lemma calculateResetTime_resolved (rl : RateLimit) (r : Z) :
  candidateResetTime recordTimestamp rl = Some (Instant r) ->
  resetTime (calculateResetTime now recordTimestamp rl) = Instant r /\
  (isOutdated (calculateResetTime now recordTimestamp rl) = true <-> r < now).
Proof.
  intros Hc. unfold calculateResetTime. rewrite Hc. simpl. split; [reflexivity|].
  unfold date_lt, getTime, lt, of_Z. rewrite NumFacts.Qlt_bool_iff.
  now rewrite <- Zlt_Qlt.
Qed.

(** A candidate that is an invalid date is a failure. *)
Lemma calculateResetTime_invalid (rl : RateLimit) :
  candidateResetTime recordTimestamp rl = Some InvalidDate ->
  calculateResetTime now recordTimestamp rl = unresolved recordTimestamp.
Proof.
  intros Hc. unfold calculateResetTime. now rewrite Hc.
Qed.

End Normalizer.

(** ** Claims about the normalizer *)

(** C1, as the code has it. When neither [resets_at] nor
    [resets_in_seconds] is a number, the normalized window has the record's
    own timestamp as reset instant and is outdated; its window minutes are
    the raw [window_minutes] when that is a positive number, with time
    percent 100, and 0 otherwise, with time percent 0. *)
Theorem unresolved_reset_window (now : Z) (recordTimestamp : Date) (rl : RateLimit) :
  numeric (resets_at rl) = false ->
  numeric (resets_in_seconds rl) = false ->
  reset_time (normalizeWindow now recordTimestamp rl) = recordTimestamp /\
  outdated (normalizeWindow now recordTimestamp rl) = true /\
  (forall n, positive_window_minutes (window_minutes rl) n ->
     w_window_minutes (normalizeWindow now recordTimestamp rl) = n /\
     time_percent (normalizeWindow now recordTimestamp rl) = of_Z 100) /\
  (invalid_window_minutes (window_minutes rl) ->
     w_window_minutes (normalizeWindow now recordTimestamp rl) = zero /\
     time_percent (normalizeWindow now recordTimestamp rl) = zero).
Proof.
  intros Ha Hs.
  assert (Ho : outdated (normalizeWindow now recordTimestamp rl) = true).
  { unfold normalizeWindow. simpl. now rewrite calculateResetTime_no_field. }
  repeat split.
  - unfold normalizeWindow. simpl. now rewrite calculateResetTime_no_field.
  - exact Ho.
  - unfold normalizeWindow. simpl. now apply resolveWindowMinutes_positive.
  - now apply time_percent_outdated with (n := n).
  - unfold normalizeWindow. simpl. now apply resolveWindowMinutes_invalid.
  - now apply time_percent_invalid_window.
Qed.

Lemma unresolved_reset_window_witness :
  numeric (resets_at descriptor_without_reset) = false /\
  numeric (resets_in_seconds descriptor_without_reset) = false /\
  positive_window_minutes (window_minutes descriptor_without_reset) (of_Z 300) /\
  reset_time (normalizeWindow half_hour_later (Instant new_year) descriptor_without_reset)
    = Instant new_year /\
  outdated (normalizeWindow half_hour_later (Instant new_year) descriptor_without_reset)
    = true /\
  time_percent (normalizeWindow half_hour_later (Instant new_year) descriptor_without_reset)
    = of_Z 100.
Proof.
  assert (Hp : positive_window_minutes (window_minutes descriptor_without_reset) (of_Z 300))
    by (split; reflexivity).
  destruct (unresolved_reset_window half_hour_later (Instant new_year)
              descriptor_without_reset eq_refl eq_refl) as (Hr & Ho & Hpos & _).
  split; [reflexivity|]. split; [reflexivity|]. split; [exact Hp|].
  split; [exact Hr|]. split; [exact Ho|].
  exact (proj2 (Hpos (of_Z 300) Hp)).
Defined.

(** C1 fails as stated: without reset data and with [window_minutes] 300 the
    window keeps its 300 minutes and has time percent 100, not 0 and 0. *)
Lemma unresolved_reset_window_counterexample :
  numeric (resets_at descriptor_without_reset) = false /\
  numeric (resets_in_seconds descriptor_without_reset) = false /\
  time_percent (normalizeWindow half_hour_later (Instant new_year) descriptor_without_reset)
    = of_Z 100 /\
  w_window_minutes (normalizeWindow half_hour_later (Instant new_year) descriptor_without_reset)
    = of_Z 300 /\
  ~ same (time_percent (normalizeWindow half_hour_later (Instant new_year)
            descriptor_without_reset)) zero /\
  ~ same (w_window_minutes (normalizeWindow half_hour_later (Instant new_year)
            descriptor_without_reset)) zero.
Proof.
  repeat split; try reflexivity; vm_compute; discriminate.
Qed.

(** C2, as the code has it. When the reset instant resolves and lies
    strictly before the evaluation instant, the window is outdated; its time
    percent is 100 when [window_minutes] is a positive number and 0 when it
    is absent, not a number, zero or negative. *)
Theorem past_reset_is_outdated (now : Z) (recordTimestamp : Date) (rl : RateLimit)
  (r : Z) :
  candidateResetTime recordTimestamp rl = Some (Instant r) ->
  r < now ->
  reset_time (normalizeWindow now recordTimestamp rl) = Instant r /\
  outdated (normalizeWindow now recordTimestamp rl) = true /\
  (forall n, positive_window_minutes (window_minutes rl) n ->
     time_percent (normalizeWindow now recordTimestamp rl) = of_Z 100) /\
  (invalid_window_minutes (window_minutes rl) ->
     time_percent (normalizeWindow now recordTimestamp rl) = zero).
Proof.
  intros Hc Hlt.
  destruct (calculateResetTime_resolved now recordTimestamp rl r Hc) as [Hr Ho].
  apply Ho in Hlt.
  repeat split.
  - exact Hr.
  - exact Hlt.
  - intros n Hn. now apply time_percent_outdated with (n := n).
  - now apply time_percent_invalid_window.
Qed.

Lemma past_reset_is_outdated_witness :
  candidateResetTime (Instant new_year) descriptor_relative
    = Some (Instant 1735693200000) /\
  1735693200000 < two_hours_later /\
  positive_window_minutes (window_minutes descriptor_relative) (of_Z 60) /\
  outdated (normalizeWindow two_hours_later (Instant new_year) descriptor_relative) = true /\
  time_percent (normalizeWindow two_hours_later (Instant new_year) descriptor_relative)
    = of_Z 100.
Proof.
  assert (Hp : positive_window_minutes (window_minutes descriptor_relative) (of_Z 60))
    by (split; reflexivity).
  destruct (past_reset_is_outdated two_hours_later (Instant new_year)
              descriptor_relative 1735693200000 eq_refl eq_refl) as (_ & Ho & Hpos & _).
  split; [reflexivity|]. split; [reflexivity|]. split; [exact Hp|].
  split; [exact Ho|].
  exact (Hpos (of_Z 60) Hp).
Defined.

(** C2 fails as stated: a reset instant one hour before the evaluation
    instant, without [window_minutes], gives an outdated window whose time
    percent is 0, not 100. *)
Lemma past_reset_is_outdated_counterexample :
  candidateResetTime (Instant new_year) descriptor_without_window
    = Some (Instant 1735693200000) /\
  1735693200000 < two_hours_later /\
  outdated (normalizeWindow two_hours_later (Instant new_year) descriptor_without_window)
    = true /\
  time_percent (normalizeWindow two_hours_later (Instant new_year) descriptor_without_window)
    = zero /\
  ~ same (time_percent (normalizeWindow two_hours_later (Instant new_year)
            descriptor_without_window)) (of_Z 100).
Proof.
  repeat split; try reflexivity; vm_compute; discriminate.
Qed.

(** *** The reset instant *)

Lemma new_Date_in_range (q : Q) :
  in_range q -> new_Date (Fin q) = Instant (Qtruncate q).
Proof.
  intros [Hlo Hhi]. unfold new_Date.
  apply Qle_bool_iff in Hlo. apply Qle_bool_iff in Hhi. now rewrite Hlo, Hhi.
Qed.

Lemma new_Date_out_of_range (q : Q) :
  ~ in_range q -> new_Date (Fin q) = InvalidDate.
Proof.
  intros Hn. unfold new_Date.
  destruct (Qle_bool (inject_Z (- maxTimeValue)) q) eqn:Hlo; [|reflexivity].
  destruct (Qle_bool q (inject_Z maxTimeValue)) eqn:Hhi; [|reflexivity].
  exfalso. apply Hn. split; now apply Qle_bool_iff.
Qed.


Lemma numeric_number (a : number) : isNaN a = false -> numeric (VNumber a) = true.
Proof. intros H. unfold numeric. simpl. now rewrite H. Qed.

(** Rounding towards zero moves a number by less than one. *)
Lemma Qtruncate_near (q : Q) : near 1 (Qtruncate q) q.
Proof.
  unfold near, Qtruncate. apply Qabs_Qle_condition.
  destruct (Qle_bool 0 q).
  - pose proof (Qfloor_le q). pose proof (Qlt_floor q) as Hlt.
    rewrite inject_Z_plus in Hlt. change (inject_Z 1) with 1%Q in Hlt.
    split; lra.
  - pose proof (Qle_ceiling q). pose proof (Qceiling_lt q) as Hlt.
    unfold Z.sub in Hlt. rewrite inject_Z_plus, inject_Z_opp in Hlt.
    change (inject_Z 1) with 1%Q in Hlt. split; lra.
Qed.

Lemma near_weaken (tolerance tolerance' : Q) (r : Z) (q : Q) :
  (tolerance <= tolerance')%Q -> near tolerance r q -> near tolerance' r q.
Proof. unfold near. intros Hle H. now apply Qle_trans with tolerance. Qed.

(** A number within the bound is in the range of [Date]. *)
Lemma in_range_within (q : Q) (slack : Z) :
  0 <= slack -> (Qabs q <= inject_Z (maxTimeValue - slack))%Q -> in_range q.
Proof.
  intros Hslack H. apply Qabs_Qle_condition in H as [Hlo Hhi].
  assert (Hb : (inject_Z (maxTimeValue - slack) <= inject_Z maxTimeValue)%Q)
    by (rewrite <- Zle_Qle; lia).
  unfold in_range. rewrite inject_Z_opp. split; lra.
Qed.

(** A number beyond the bound is not. *)
Lemma out_of_range_beyond (q : Q) (excess : Z) :
  0 < excess -> (inject_Z (maxTimeValue + excess) <= Qabs q)%Q -> ~ in_range q.
Proof.
  intros Hexcess H [Hlo Hhi].
  assert (Hq : (Qabs q <= inject_Z maxTimeValue)%Q).
  { apply Qabs_Qle_condition. rewrite inject_Z_opp in Hlo. split; lra. }
  assert (Hb : (inject_Z maxTimeValue < inject_Z (maxTimeValue + excess))%Q)
    by (rewrite <- Zlt_Qlt; lia).
  lra.
Qed.

(** C5, as the code has it. The field is chosen in a fixed order of
    preference: [resets_at] whenever it is a number, else
    [resets_in_seconds] when that is a number, else resolution fails. The
    chosen field gives the reset instant when the instant lies in the range
    of [Date] (and, for the relative field, the record timestamp is a valid
    date): a whole number of milliseconds within 2 ms of [resets_at * 1000],
    or within 3 ms of the record time plus [resets_in_seconds * 1000] when
    that sum stays 2 ms within the range; the tolerance covers the rounding
    of the product and of the sum in binary64 and the truncation of [Date].
    When the instant is infinite or lies beyond the range (by 1 ms for
    [resets_at], by 3 ms for [resets_in_seconds]), resolution fails, and the
    other field is not tried. *)
Theorem reset_resolution_order (now : Z) (recordTimestamp : Date) (rl : RateLimit) :
  (forall a, resets_at rl = VNumber (Fin a) -> in_range (a * 1000) ->
     exists r,
       resetTime (calculateResetTime now recordTimestamp rl) = Instant r
       /\ near 2 r (a * 1000)) /\
  (forall a, resets_at rl = VNumber a -> isNaN a = false ->
     (forall q, a = Fin q ->
        (inject_Z (maxTimeValue + 1) <= Qabs (q * 1000))%Q) ->
     calculateResetTime now recordTimestamp rl = unresolved recordTimestamp) /\
  (forall t s, numeric (resets_at rl) = false -> recordTimestamp = Instant t ->
     in_range (inject_Z t) ->
     resets_in_seconds rl = VNumber (Fin s) ->
     (Qabs (inject_Z t + s * 1000) <= inject_Z (maxTimeValue - 2))%Q ->
     exists r,
       resetTime (calculateResetTime now recordTimestamp rl) = Instant r
       /\ near 3 r (inject_Z t + s * 1000)) /\
  (forall s, numeric (resets_at rl) = false ->
     resets_in_seconds rl = VNumber s -> isNaN s = false ->
     (forall t q, recordTimestamp = Instant t -> s = Fin q ->
        (inject_Z (maxTimeValue + 3) <= Qabs (inject_Z t + q * 1000))%Q) ->
     calculateResetTime now recordTimestamp rl = unresolved recordTimestamp) /\
  (numeric (resets_at rl) = false -> numeric (resets_in_seconds rl) = false ->
     calculateResetTime now recordTimestamp rl = unresolved recordTimestamp).
Proof.
  repeat apply conj.
  - intros a Ha Hr. exists (Qtruncate (a * 1000)). split.
    + unfold calculateResetTime, candidateResetTime.
      rewrite Ha. cbn [numeric typeof_number to_number isNaN negb andb mul of_Z].
      change (inject_Z 1000) with 1000%Q.
      now rewrite (new_Date_in_range _ Hr).
    + apply (near_weaken 1); [discriminate | apply Qtruncate_near].
  - intros a Ha Hn Hfar. apply calculateResetTime_invalid.
    unfold candidateResetTime. rewrite Ha, (numeric_number a Hn). f_equal.
    destruct a as [| | |q]; try reflexivity; try discriminate.
    apply new_Date_out_of_range.
    apply (out_of_range_beyond _ 1); [lia | now apply Hfar].
  - intros t s Ha -> _ Hs Hr.
    pose proof (in_range_within _ 2 ltac:(lia) Hr) as Hin.
    exists (Qtruncate (inject_Z t + s * 1000)). split.
    + unfold calculateResetTime, candidateResetTime.
      rewrite Ha, Hs.
      cbn [numeric typeof_number to_number isNaN negb andb mul add getTime of_Z].
      change (inject_Z 1000) with 1000%Q.
      now rewrite (new_Date_in_range _ Hin).
    + apply (near_weaken 1); [discriminate | apply Qtruncate_near].
  - intros s Ha Hs Hn Hfar. apply calculateResetTime_invalid.
    unfold candidateResetTime. rewrite Ha, Hs, (numeric_number s Hn). f_equal.
    destruct recordTimestamp as [t|]; [|now destruct s].
    destruct s as [| | |q]; try reflexivity; try discriminate.
    apply new_Date_out_of_range.
    apply (out_of_range_beyond _ 3); [lia | now apply Hfar].
  - apply calculateResetTime_no_field.
Qed.

Lemma reset_resolution_order_witness :
  in_range (1735693200 * 1000) /\
  (exists r,
     resetTime (calculateResetTime half_hour_later (Instant new_year)
                  descriptor_absolute) = Instant r
     /\ near 2 r (1735693200 * 1000)) /\
  (forall q, of_Z 10000000000000 = Fin q ->
     (inject_Z (maxTimeValue + 1) <= Qabs (q * 1000))%Q) /\
  calculateResetTime half_hour_later (Instant new_year) descriptor_far_future
    = unresolved (Instant new_year) /\
  numeric (resets_at descriptor_relative) = false /\
  in_range (inject_Z new_year) /\
  (Qabs (inject_Z new_year + 3600 * 1000) <= inject_Z (maxTimeValue - 2))%Q /\
  (exists r,
     resetTime (calculateResetTime half_hour_later (Instant new_year)
                  descriptor_relative) = Instant r
     /\ near 3 r (inject_Z new_year + 3600 * 1000)) /\
  numeric (resets_in_seconds descriptor_without_reset) = false /\
  calculateResetTime half_hour_later (Instant new_year) descriptor_without_reset
    = unresolved (Instant new_year).
Proof.
  assert (Ha : in_range (1735693200 * 1000)) by (split; vm_compute; discriminate).
  assert (Hf : forall q, of_Z 10000000000000 = Fin q ->
                 (inject_Z (maxTimeValue + 1) <= Qabs (q * 1000))%Q).
  { intros q [= <-]. vm_compute. discriminate. }
  assert (Ht : in_range (inject_Z new_year)) by (split; vm_compute; discriminate).
  assert (Hs : (Qabs (inject_Z new_year + 3600 * 1000)
                <= inject_Z (maxTimeValue - 2))%Q) by (vm_compute; discriminate).
  split; [exact Ha|]. split.
  { exact (proj1 (reset_resolution_order half_hour_later (Instant new_year)
                    descriptor_absolute) 1735693200%Q eq_refl Ha). }
  split; [exact Hf|]. split.
  { exact (proj1 (proj2 (reset_resolution_order half_hour_later (Instant new_year)
                    descriptor_far_future)) (of_Z 10000000000000) eq_refl eq_refl Hf). }
  split; [reflexivity|]. split; [exact Ht|]. split; [exact Hs|]. split.
  { exact (proj1 (proj2 (proj2 (reset_resolution_order half_hour_later
                    (Instant new_year) descriptor_relative)))
                 new_year 3600%Q eq_refl eq_refl Ht eq_refl Hs). }
  split; [reflexivity|].
  exact (proj2 (proj2 (proj2 (proj2 (reset_resolution_order half_hour_later
                    (Instant new_year) descriptor_without_reset)))) eq_refl eq_refl).
Defined.

(** C5 fails as stated: [resets_at] is a number, ten to the thirteen epoch
    seconds, and yet it is not the reset instant: the date is out of range,
    resolution fails and the record timestamp is returned, although
    [resets_in_seconds] is there. *)
Lemma reset_resolution_order_counterexample :
  numeric (resets_at descriptor_far_future) = true /\
  numeric (resets_in_seconds descriptor_far_future) = true /\
  calculateResetTime half_hour_later (Instant new_year) descriptor_far_future
    = unresolved (Instant new_year) /\
  ~ same (getTime (resetTime (calculateResetTime half_hour_later (Instant new_year)
                                descriptor_far_future)))
         (mul (to_number (resets_at descriptor_far_future)) (of_Z 1000)).
Proof.
  repeat split; try reflexivity. vm_compute. discriminate.
Qed.

(** C6. A [window_minutes] that is absent, not a number, zero or negative
    gives time percent 0 and window minutes 0, whatever the reset data; a
    positive number is the window minutes as it is. *)
Theorem window_minutes_validation (now : Z) (recordTimestamp : Date) (rl : RateLimit) :
  (invalid_window_minutes (window_minutes rl) ->
     time_percent (normalizeWindow now recordTimestamp rl) = zero /\
     w_window_minutes (normalizeWindow now recordTimestamp rl) = zero) /\
  (forall n, positive_window_minutes (window_minutes rl) n ->
     w_window_minutes (normalizeWindow now recordTimestamp rl) = n).
Proof.
  split.
  - intros Hi. split; [now apply time_percent_invalid_window|].
    unfold normalizeWindow. simpl. now apply resolveWindowMinutes_invalid.
  - intros n Hn. unfold normalizeWindow. simpl.
    now apply resolveWindowMinutes_positive.
Qed.

Lemma window_minutes_validation_witness :
  invalid_window_minutes (window_minutes descriptor_without_window) /\
  time_percent (normalizeWindow half_hour_later (Instant new_year) descriptor_without_window)
    = zero /\
  w_window_minutes (normalizeWindow half_hour_later (Instant new_year)
                      descriptor_without_window) = zero /\
  positive_window_minutes (window_minutes descriptor_relative) (of_Z 60) /\
  w_window_minutes (normalizeWindow half_hour_later (Instant new_year) descriptor_relative)
    = of_Z 60.
Proof.
  assert (Hp : positive_window_minutes (window_minutes descriptor_relative) (of_Z 60))
    by (split; reflexivity).
  destruct (proj1 (window_minutes_validation half_hour_later (Instant new_year)
                     descriptor_without_window) wm_absent) as [Ht Hw].
  split; [apply wm_absent|]. split; [exact Ht|]. split; [exact Hw|].
  split; [exact Hp|].
  exact (proj2 (window_minutes_validation half_hour_later (Instant new_year)
                  descriptor_relative) (of_Z 60) Hp).
Defined.

(** *** The range of the time percent *)

(** The used percent is the raw field, whatever it holds. *)
Lemma used_percent_unmodified (now : Z) (recordTimestamp : Date) (rl : RateLimit) :
  w_used_percent (normalizeWindow now recordTimestamp rl) = used_percent rl.
Proof. reflexivity. Qed.

(** The seconds until the reset are a finite number, never negative. *)
Lemma secondsUntilReset_finite (now : Z) (recordTimestamp : Date) (rl : RateLimit) :
  exists q, secondsUntilReset (calculateResetTime now recordTimestamp rl) = Fin q /\
            (0 <= q)%Q.
Proof.
  unfold calculateResetTime.
  destruct (candidateResetTime recordTimestamp rl) as [[r|]|]; simpl;
    try (exists 0%Q; split; [reflexivity | apply Qle_refl]).
  unfold max, zero, of_Z, lt.
  match goal with |- context [Qlt_bool 0 ?x] => destruct (Qlt_bool 0 x) eqn:Hx end.
  - eexists. split; [reflexivity|]. apply NumFacts.Qlt_bool_iff in Hx.
    now apply Qlt_le_weak.
  - exists 0%Q. split; [reflexivity | apply Qle_refl].
Qed.

(** The window minutes are 0, a positive finite number, or infinite. *)
Lemma resolveWindowMinutes_shape (v : value) :
  resolveWindowMinutes v = zero \/ resolveWindowMinutes v = PosInf \/
  exists q, resolveWindowMinutes v = Fin q /\ (0 < q)%Q.
Proof.
  destruct (window_minutes_cases v) as [Hi|[n Hn]].
  - left. now apply resolveWindowMinutes_invalid.
  - rewrite (resolveWindowMinutes_positive _ _ Hn). destruct Hn as [_ Hn].
    destruct n as [| | |q]; try discriminate.
    + right. now left.
    + right. right. exists q. split; [reflexivity|]. now apply NumFacts.Qlt_bool_iff.
Qed.

(** Unless the window is infinite, the time percent lies in [0,100], in
    the exact arithmetic of the embedding. *)
Lemma time_percent_between (now : Z) (recordTimestamp : Date) (rl : RateLimit) :
  w_window_minutes (normalizeWindow now recordTimestamp rl) <> PosInf ->
  between 0 100 (time_percent (normalizeWindow now recordTimestamp rl)).
Proof.
  unfold normalizeWindow. simpl. intros Hfin.
  apply NumFacts.clamp_between. unfold rawTimePercent.
  destruct (resolveWindowMinutes_shape (window_minutes rl)) as [E|[E|(q & E & Hq)]];
    [now rewrite E | contradiction | rewrite E].
  assert (Hws : (0 < q * inject_Z 60)%Q).
  { apply Qmult_lt_0_compat; [exact Hq | reflexivity]. }
  cbn [mul of_Z le zero].
  replace (Qle_bool (q * inject_Z 60) 0) with false
    by (symmetry; now apply NumFacts.Qle_bool_false).
  destruct (isOutdated _); [reflexivity|].
  destruct (secondsUntilReset_finite now recordTimestamp rl) as (u & -> & _).
  cbn [sub neg add]. unfold min, lt.
  assert (Hnz : Qeq_bool (q * inject_Z 60) 0 = false).
  { destruct (Qeq_bool (q * inject_Z 60) 0) eqn:He; [|reflexivity].
    apply Qeq_bool_iff in He. rewrite He in Hws. discriminate Hws. }
  destruct (Qlt_bool _ _); unfold max, zero, lt;
    destruct (Qlt_bool _ _); cbn [div mul of_Z isNaN]; now rewrite Hnz.
Qed.

(** ** Claims about the normalizer, continued *)

(** C7 at an input on which the code leaves the interval: the record gives
    [window_minutes] as [1e999], which [JSON.parse] reads as [Infinity]; the
    reset lies half an hour ahead. The elapsed fraction is then infinity
    over infinity, and [Math.max(0, Math.min(100, NaN))] is [NaN]: the time
    percent of the normalized window is no number between 0 and 100. *)
Theorem time_percent_infinite_window :
  outdated (normalizeWindow half_hour_later (Instant new_year)
              descriptor_infinite_window) = false /\
  time_percent (normalizeWindow half_hour_later (Instant new_year)
                  descriptor_infinite_window) = NaN /\
  ~ between 0 100 (time_percent (normalizeWindow half_hour_later (Instant new_year)
                                   descriptor_infinite_window)).
Proof.
  repeat split. intros H. exact H.
Qed.



(** ** The reader *)

Section ReaderFacts.

Context (host : Host).

(** One turn of the loop in terms of what the line brings. *)
Lemma visitLine_timestamped (st : Latest) (line : string) :
  visitLine host st line =
  match timestamped host line with
  | Some (record, timestamp) =>
      if replaces timestamp (latestTimestamp st)
      then {| latestRecord := Some record; latestTimestamp := Some timestamp |}
      else st
  | None => st
  end.
Proof.
  unfold visitLine, timestamped. destruct (JSON_parse host line) as [record|]; [|reflexivity].
  unfold visitRecord, is_token_count, get_opt.
  destruct record; simpl; try reflexivity.
  destruct (is_string _ "event_msg"); simpl; [|reflexivity].
  destruct (is_string _ "token_count"); simpl; [|reflexivity].
  destruct (default VUndefined (fields !! "timestamp")); simpl; try reflexivity.
  now destruct (replaces _ _).
Qed.

(** A line that does not parse leaves the loop where it was. *)
Lemma visitLine_unparsed (st : Latest) (line : string) :
  JSON_parse host line = None -> visitLine host st line = st.
Proof. intros H. unfold visitLine. now rewrite H. Qed.

Lemma scanLines_snoc (lines : list string) (line : string) :
  scanLines host (lines ++ [line]) = visitLine host (scanLines host lines) line.
Proof. unfold scanLines. apply foldl_snoc. Qed.

(** An undated timestamp replaces nothing, and nothing replaces it. *)
Lemma replaces_undated (d : Date) :
  replaces InvalidDate (Some d) = false /\ replaces d (Some InvalidDate) = false.
Proof.
  unfold replaces, date_gt, gt. now destruct d.
Qed.

Lemma replaces_dated (t t' : Z) :
  replaces (Instant t') (Some (Instant t)) = true <-> t < t'.
Proof.
  unfold replaces, date_gt, gt, getTime, lt, of_Z.
  rewrite NumFacts.Qlt_bool_iff. now rewrite <- Zlt_Qlt.
Qed.

(** The held record stays the first of the latest when the next line
    brings nothing later. *)
Lemma first_latest_keep (lines : list string) (line : string) (i : nat)
  (record : value) (t : Z) :
  first_latest host lines i record t ->
  (forall record' t', timestamped host line = Some (record', Instant t') -> t' <= t) ->
  first_latest host (lines ++ [line]) i record t.
Proof.
  intros [(line0 & Hl0 & Ht0) Hmax] Hline.
  pose proof (lookup_lt_Some _ _ _ Hl0) as Hlen. split.
  - exists line0. split; [now rewrite lookup_app_l | exact Ht0].
  - intros j line' record' t' Hl Ht.
    apply lookup_snoc_Some in Hl as [[Hj Hl]|[-> <-]].
    + exact (Hmax j line' record' t' Hl Ht).
    + split; [now apply (Hline record') | lia].
Qed.

(** The next line becomes the first of the latest when it is later than
    all before it. *)
Lemma first_latest_new (lines : list string) (line : string) (record : value) (t : Z) :
  timestamped host line = Some (record, Instant t) ->
  (forall j line' record' t', lines !! j = Some line' ->
     timestamped host line' = Some (record', Instant t') -> t' < t) ->
  first_latest host (lines ++ [line]) (length lines) record t.
Proof.
  intros Hline Hbefore. split.
  - exists line. split; [apply list_lookup_middle; reflexivity | exact Hline].
  - intros j line' record' t' Hl Ht.
    apply lookup_snoc_Some in Hl as [[Hj Hl]|[-> <-]].
    + specialize (Hbefore j line' record' t' Hl Ht). lia.
    + rewrite Hline in Ht. injection Ht as _ <-. lia.
Qed.

Lemma first_participant_keep (lines : list string) (line : string) (i : nat)
  (record : value) (d : Date) :
  first_participant host lines i record d ->
  first_participant host (lines ++ [line]) i record d.
Proof.
  intros [(line0 & Hl0 & Ht0) Hbefore].
  pose proof (lookup_lt_Some _ _ _ Hl0) as Hlen. split.
  - exists line0. split; [now rewrite lookup_app_l | exact Ht0].
  - intros j line' Hj Hl. rewrite lookup_app_l in Hl by lia. now apply (Hbefore j).
Qed.

Lemma first_participant_new (lines : list string) (line : string)
  (record : value) (d : Date) :
  (forall line', line' ∈ lines -> timestamped host line' = None) ->
  timestamped host line = Some (record, d) ->
  first_participant host (lines ++ [line]) (length lines) record d.
Proof.
  intros Hnone Hline. split.
  - exists line. split; [apply list_lookup_middle; reflexivity | exact Hline].
  - intros j line' Hj Hl. rewrite lookup_app_l in Hl by exact Hj.
    apply Hnone. apply list_elem_of_lookup. now exists j.
Qed.

(** The first participant is one line. *)
Lemma first_participant_unique (lines : list string) (i i' : nat)
  (record record' : value) (d d' : Date) :
  first_participant host lines i record d ->
  first_participant host lines i' record' d' ->
  i = i' /\ record = record' /\ d = d'.
Proof.
  intros [(l & Hl & Ht) Hb] [(l' & Hl' & Ht') Hb'].
  destruct (Nat.lt_trichotomy i i') as [Hlt|[<-|Hlt]].
  - rewrite (Hb' i l Hlt Hl) in Ht. discriminate.
  - rewrite Hl in Hl'. injection Hl' as <-. rewrite Ht in Ht'.
    injection Ht' as <- <-. now repeat split.
  - rewrite (Hb i' l' Hlt Hl') in Ht'. discriminate.
Qed.

(** The first of the latest is one line. *)
Lemma first_latest_unique (lines : list string) (i i' : nat)
  (record record' : value) (t t' : Z) :
  first_latest host lines i record t ->
  first_latest host lines i' record' t' ->
  i = i' /\ record = record' /\ t = t'.
Proof.
  intros [(l & Hl & Ht) Hmax] [(l' & Hl' & Ht') Hmax'].
  destruct (Hmax i' l' record' t' Hl' Ht') as [Hle Hlt].
  destruct (Hmax' i l record t Hl Ht) as [Hle' Hlt'].
  assert (i = i') as <- by lia.
  rewrite Hl in Hl'. injection Hl' as <-. rewrite Ht in Ht'.
  injection Ht' as <- <-. now repeat split.
Qed.

(** One turn of the loop keeps the description of its state. *)
Lemma scanned_snoc (lines : list string) (st : Latest) (line : string) :
  scanned host lines st -> scanned host (lines ++ [line]) (visitLine host st line).
Proof.
  intros Hst. rewrite visitLine_timestamped.
  destruct (timestamped host line) as [[record d]|] eqn:Hline.
  - destruct Hst as [Hnone|k r0 t0 i r t Hfirst Hheld|i r Hheld];
      cbn [latestTimestamp nothing_yet].
    + (* the first line that takes part *)
      pose proof (first_participant_new lines line record d Hnone Hline) as Hfirst.
      cbn [replaces]. destruct d as [t|].
      * apply scanned_latest with (k := length lines) (first := record) (t0 := t)
                                  (i := length lines); [exact Hfirst|].
        apply first_latest_new; [exact Hline|].
        intros j line' record' t' Hl Ht. rewrite Hnone in Ht; [discriminate|].
        apply list_elem_of_lookup. now exists j.
      * now apply scanned_undated with (i := length lines).
    + (* a dated record is held *)
      apply (first_participant_keep lines line) in Hfirst.
      destruct d as [t'|].
      * destruct (replaces (Instant t') (Some (Instant t))) eqn:Hrep.
        -- apply replaces_dated in Hrep.
           apply scanned_latest with (k := k) (first := r0) (t0 := t0)
                                     (i := length lines); [exact Hfirst|].
           apply first_latest_new; [exact Hline|].
           intros j line' record' t'' Hl Ht.
           destruct Hheld as [_ Hmax]. destruct (Hmax j line' record' t'' Hl Ht). lia.
        -- apply scanned_latest with (k := k) (first := r0) (t0 := t0) (i := i);
             [exact Hfirst|].
           apply first_latest_keep; [exact Hheld|].
           intros record' t'' Ht. rewrite Hline in Ht. injection Ht as _ <-.
           destruct (Z.lt_ge_cases t t') as [Hlt|Hge]; [|lia].
           apply replaces_dated in Hlt. congruence.
      * rewrite (proj1 (replaces_undated (Instant t))).
        apply scanned_latest with (k := k) (first := r0) (t0 := t0) (i := i);
          [exact Hfirst|].
        apply first_latest_keep; [exact Hheld|].
        intros record' t'' Ht. rewrite Hline in Ht. discriminate.
    + (* an undated record is held: it stays *)
      rewrite (proj2 (replaces_undated d)).
      apply scanned_undated with (i := i). now apply first_participant_keep.
  - (* the line takes no part *)
    destruct Hst as [Hnone|k r0 t0 i r t Hfirst Hheld|i r Hheld].
    + apply scanned_nothing. intros line' Hin.
      apply elem_of_app in Hin as [Hin|Hin]; [now apply Hnone|].
      apply list_elem_of_singleton in Hin. now subst.
    + apply scanned_latest with (k := k) (first := r0) (t0 := t0) (i := i);
        [now apply first_participant_keep|].
      apply first_latest_keep; [exact Hheld|].
      intros record' t' Ht. rewrite Hline in Ht. discriminate.
    + apply scanned_undated with (i := i). now apply first_participant_keep.
Qed.

(** The state of the loop at its end is one of the three. *)
Lemma scanLines_scanned (lines : list string) :
  scanned host lines (scanLines host lines).
Proof.
  induction lines as [|line lines IH] using rev_ind.
  - apply scanned_nothing. intros line Hin. inversion Hin.
  - rewrite scanLines_snoc. now apply scanned_snoc.
Qed.

(** No line takes part: the loop ends with nothing. *)
Theorem scanLines_nothing (lines : list string) :
  (forall line, line ∈ lines -> timestamped host line = None) ->
  latestRecord (scanLines host lines) = None.
Proof.
  intros Hnone.
  destruct (scanLines_scanned lines)
    as [_|k r0 t0 i r t [(l & Hl & Ht) _] _|i r [(l & Hl & Ht) _]];
    [reflexivity | |]; (rewrite Hnone in Ht; [discriminate|]);
    apply list_elem_of_lookup; eexists; eassumption.
Qed.

(** The first line that takes part is dated: the loop ends with the first
    of the records of greatest timestamp. *)
Theorem scanLines_first_latest (lines : list string) (k i : nat)
  (first record : value) (t0 t : Z) :
  first_participant host lines k first (Instant t0) ->
  first_latest host lines i record t ->
  latestRecord (scanLines host lines) = Some record.
Proof.
  intros Hfirst Hlatest.
  destruct (scanLines_scanned lines)
    as [Hnone|k' r0 t0' i' r t' _ Hheld|i' r Hheld]; cbn [latestRecord].
  - destruct Hfirst as [(l & Hl & Ht) _]. rewrite Hnone in Ht; [discriminate|].
    apply list_elem_of_lookup. now exists k.
  - now destruct (first_latest_unique _ _ _ _ _ _ _ Hheld Hlatest) as (_ & -> & _).
  - now destruct (first_participant_unique _ _ _ _ _ _ _ Hfirst Hheld) as (_ & _ & ?).
Qed.

(** The first line that takes part is not dated: the loop ends with its
    record, whatever the lines after it hold. *)
Theorem scanLines_undated_first (lines : list string) (i : nat) (record : value) :
  first_participant host lines i record InvalidDate ->
  latestRecord (scanLines host lines) = Some record.
Proof.
  intros Hfirst.
  destruct (scanLines_scanned lines)
    as [Hnone|k' r0 t0' i' r t' Hdated _|i' r Hheld]; cbn [latestRecord].
  - destruct Hfirst as [(l & Hl & Ht) _]. rewrite Hnone in Ht; [discriminate|].
    apply list_elem_of_lookup. now exists i.
  - now destruct (first_participant_unique _ _ _ _ _ _ _ Hfirst Hdated) as (_ & _ & ?).
  - now destruct (first_participant_unique _ _ _ _ _ _ _ Hfirst Hheld) as (_ & -> & _).
Qed.

(** A file yields a record exactly when one of its lines takes part in the
    comparison, and the record it yields is the record of such a line. *)
Lemma parseSessionFile_yields (filePath content : string) :
  readFile host filePath = Some content ->
  (forall record, parseSessionFile host filePath = Some record ->
     exists line d, line ∈ visited content /\ timestamped host line = Some (record, d)) /\
  (parseSessionFile host filePath = None <->
     forall line, line ∈ visited content -> timestamped host line = None).
Proof.
  intros Hread. unfold parseSessionFile. rewrite Hread. fold (visited content).
  destruct (scanLines_scanned (visited content))
    as [Hnone|k r0 t0 i r t _ [(l & Hl & Ht) _]|i r [(l & Hl & Ht) _]];
    cbn [latestRecord nothing_yet].
  - split; [discriminate | tauto].
  - split.
    + intros record [= <-]. exists l, (Instant t). split; [|exact Ht].
      apply list_elem_of_lookup. now exists i.
    + split; [discriminate|]. intros Hnone.
      rewrite Hnone in Ht; [discriminate|]. apply list_elem_of_lookup. now exists i.
  - split.
    + intros record [= <-]. exists l, InvalidDate. split; [|exact Ht].
      apply list_elem_of_lookup. now exists i.
    + split; [discriminate|]. intros Hnone.
      rewrite Hnone in Ht; [discriminate|]. apply list_elem_of_lookup. now exists i.
Qed.

(** The shape of a record that takes part in the comparison. *)
Lemma timestamped_shape (line : string) (record : value) (d : Date) :
  timestamped host line = Some (record, d) ->
  exists fields payload text,
    record = VObject fields /\
    fields !! "payload" = Some (VObject payload) /\
    fields !! "timestamp" = Some (VString text) /\
    d = Date_parse host (String_replace "Z" "+00:00" text).
Proof.
  unfold timestamped, is_token_count, get_opt.
  destruct (JSON_parse host line) as [r|]; [|discriminate]. cbn [mbind option_bind].
  destruct r as [| | | | | |fields]; try discriminate. simpl.
  destruct (is_string _ "event_msg"); [|discriminate]. cbn [andb].
  destruct (fields !! "payload") as [[| | | | | |payload]|] eqn:Hp; try discriminate.
  simpl. destruct (is_string _ "token_count"); [|discriminate].
  destruct (fields !! "timestamp") as [[| | | |text| |]|] eqn:Ht; try discriminate.
  simpl. intros [= <- <-]. now exists fields, payload, text.
Qed.


End ReaderFacts.

(** ** The resolver *)

Section SortFacts.

Lemma insertByMtime_elem (x e : SessionFile) (l : list SessionFile) :
  e ∈ insertByMtime x l <-> e = x \/ e ∈ l.
Proof.
  induction l as [|y l IH]; simpl.
  - rewrite list_elem_of_singleton, elem_of_nil. tauto.
  - destruct (Qlt_bool (mtimeMs x) (mtimeMs y)).
    + rewrite !elem_of_cons, IH. tauto.
    + rewrite !elem_of_cons. tauto.
Qed.

Lemma sortByMtimeDesc_elem (e : SessionFile) (l : list SessionFile) :
  e ∈ sortByMtimeDesc l <-> e ∈ l.
Proof.
  unfold sortByMtimeDesc. induction l as [|x l IH]; simpl; [reflexivity|].
  rewrite insertByMtime_elem, elem_of_cons, IH. tauto.
Qed.




End SortFacts.

Section ResolverFacts.

Context (host : Host).

Lemma filesOfDay_listed (keep : Q -> bool) (dir : string) (e : SessionFile) :
  e ∈ filesOfDay host keep dir <-> listed host keep dir e.
Proof.
  unfold filesOfDay, listed, statFiles.
  destruct (existsSync host dir); [|split; [intros H; inversion H | intros [? _]; discriminate]].
  destruct (glob host (rolloutPattern host dir)) as [files|];
    [|split; [intros H; inversion H | intros [_ (? & ? & _)]; discriminate]].
  rewrite list_elem_of_omap. split.
  - intros (f & Hf & Hstat). split; [reflexivity|]. exists files. split; [reflexivity|].
    destruct (stat_mtimeMs host f) as [m|] eqn:Hm; [|discriminate].
    simpl in Hstat. destruct (keep m) eqn:Hk; [|discriminate].
    injection Hstat as <-. simpl. now rewrite Hm.
  - intros [_ (files' & Hg & Hin & Hm & Hk)]. injection Hg as <-.
    exists (file e). split; [exact Hin|]. rewrite Hm. simpl. rewrite Hk.
    now destruct e.
Qed.

Lemma getSessionFilesWithMtime_listed (sessionPath : string) (currentDate : Z)
  (e : SessionFile) :
  e ∈ getSessionFilesWithMtime host sessionPath currentDate <->
  exists daysBack, (daysBack < 7)%nat /\
    listed host (λ _, true)
      (datePath host sessionPath (searchDate host currentDate daysBack)) e.
Proof.
  unfold getSessionFilesWithMtime, collectedFiles.
  rewrite sortByMtimeDesc_elem, list_elem_of_bind. split.
  - intros (d & He & Hd). apply elem_of_seq in Hd. exists d. split; [lia|].
    now apply filesOfDay_listed.
  - intros (d & Hd & He). exists d. split; [now apply filesOfDay_listed|].
    apply elem_of_seq. lia.
Qed.

(** The first loop stops at the first file that yields a record; when no
    file does, all of them have been attempted. *)
Lemma scanRecent_outcome (files : list SessionFile) (attempted : gset string) :
  match scanRecent host files attempted with
  | (Some (f, record), _) => first_yielding host files f record
  | (None, attempted') =>
      none_yields host files /\
      forall f, f ∈ attempted' <-> f ∈ attempted \/ exists e, e ∈ files /\ file e = f
  end.
Proof.
  revert attempted. induction files as [|e files IH]; intros attempted; simpl.
  - split; [intros e He; inversion He|]. intros f. split; [now left|].
    intros [H|(e & He & _)]; [exact H | inversion He].
  - destruct (parseSessionFile host (file e)) as [record|] eqn:Hparse.
    + exists 0%nat, e. repeat split; [exact Hparse|]. intros j e' Hj. lia.
    + specialize (IH ({[file e]} ∪ attempted)).
      destruct (scanRecent host files ({[file e]} ∪ attempted)) as [[[f record]|] attempted'].
      * destruct IH as (i & e0 & Hi & Hf & Hp & Hbefore).
        exists (S i), e0. repeat split; try assumption.
        intros [|j] e' Hj Hl; simpl in Hl.
        -- injection Hl as <-. exact Hparse.
        -- apply (Hbefore j); [lia | exact Hl].
      * destruct IH as [Hnone Hatt]. split.
        -- intros e' He'. apply elem_of_cons in He' as [->|He']; [exact Hparse|].
           now apply Hnone.
        -- intros f. rewrite Hatt, elem_of_union, elem_of_singleton. split.
           ++ intros [[->|H]|(e' & He' & Hf)].
              ** right. exists e. split; [left | reflexivity].
              ** now left.
              ** right. exists e'. split; [now right | exact Hf].
           ++ intros [H|(e' & He' & Hf)]; [left; now right|].
              apply elem_of_cons in He' as [->|He'].
              ** left. left. now symmetry.
              ** right. now exists e'.
Qed.

(** The second loop, when no attempted file yields a record, stops at the
    first file that yields one. *)
Lemma scanAll_outcome (files : list SessionFile) (attempted : gset string) :
  (forall f, f ∈ attempted -> parseSessionFile host f = None) ->
  match scanAll host files attempted with
  | Some (f, record) => first_yielding host files f record /\ f ∉ attempted
  | None => none_yields host files
  end.
Proof.
  intros Hatt. induction files as [|e files IH]; simpl.
  - intros e He. inversion He.
  - assert (Hstep : parseSessionFile host (file e) = None ->
      match scanAll host files attempted with
      | Some (f, record) => first_yielding host (e :: files) f record /\ f ∉ attempted
      | None => none_yields host (e :: files)
      end).
    { intros Hparse. destruct (scanAll host files attempted) as [[f record]|].
      - destruct IH as [(i & e0 & Hi & Hf & Hp & Hbefore) Hnot]. split; [|exact Hnot].
        exists (S i), e0. repeat split; try assumption.
        intros [|j] e' Hj Hl; simpl in Hl.
        + injection Hl as <-. exact Hparse.
        + apply (Hbefore j); [lia | exact Hl].
      - intros e' He'. apply elem_of_cons in He' as [->|He']; [exact Hparse|].
        now apply IH. }
    destruct (decide (file e ∈ attempted)) as [Hin|Hnot].
    + apply Hstep. now apply Hatt.
    + destruct (parseSessionFile host (file e)) as [record|] eqn:Hparse.
      * split; [|exact Hnot].
        exists 0%nat, e. repeat split; [exact Hparse|]. intros j e' Hj. lia.
      * now apply Hstep.
Qed.

(** The outcome of the two phases. *)
Lemma findLatestTokenCountRecord_outcome (nowMs today currentDate : Z)
  (basePath : option string) :
  existsSync host (getSessionBasePath host basePath) = true ->
  match findLatestTokenCountRecord host nowMs today currentDate basePath with
  | Some (f, record) =>
      first_yielding host
        (recentFiles host (getSessionBasePath host basePath) nowMs today) f record \/
      (none_yields host (recentFiles host (getSessionBasePath host basePath) nowMs today) /\
       first_yielding host
         (getSessionFilesWithMtime host (getSessionBasePath host basePath) currentDate)
         f record)
  | None =>
      none_yields host (recentFiles host (getSessionBasePath host basePath) nowMs today) /\
      none_yields host
        (getSessionFilesWithMtime host (getSessionBasePath host basePath) currentDate)
  end.
Proof.
  intros Hroot. unfold findLatestTokenCountRecord. rewrite Hroot. cbn [negb].
  pose proof (scanRecent_outcome
    (recentFiles host (getSessionBasePath host basePath) nowMs today) ∅) as H1.
  destruct (scanRecent host _ ∅) as [[[f record]|] attempted].
  - now left.
  - destruct H1 as [Hnone Hatt].
    pose proof (scanAll_outcome
      (getSessionFilesWithMtime host (getSessionBasePath host basePath) currentDate)
      attempted) as H2.
    destruct (scanAll host _ attempted) as [[f record]|].
    + right. split; [exact Hnone|]. apply H2.
      intros f' Hf'. apply Hatt in Hf' as [Hf'|(e & He & <-)]; [set_solver|].
      now apply Hnone.
    + split; [exact Hnone|]. apply H2.
      intros f' Hf'. apply Hatt in Hf' as [Hf'|(e & He & <-)]; [set_solver|].
      now apply Hnone.
Qed.


End ResolverFacts.

(** ** Claims about the reader *)

(** C3 at an input on which the code departs from it. The file holds two
    qualifying lines: the first has the timestamp [garbage], which is no
    instant, the second the timestamp 2025-01-01T00:10:00Z. The reader
    returns the record of the first line: with no record held yet the
    comparison is skipped, and afterwards nothing compares greater than a
    date that is invalid. *)
Theorem undated_first_line_is_returned :
  visited (Sample.lines [Sample.event_line "garbage" 5; Sample.event_line Sample.T1 1])
    = [Sample.event_line "garbage" 5; Sample.event_line Sample.T1 1] /\
  timestamped (Sample.host true []) (Sample.event_line "garbage" 5)
    = Some (Sample.event "garbage" 5, InvalidDate) /\
  timestamped (Sample.host true []) (Sample.event_line Sample.T1 1)
    = Some (Sample.event Sample.T1 1, Instant 1735690200000) /\
  parseSessionFile (Sample.host true []) Sample.file_garbage_first
    = Some (Sample.event "garbage" 5) /\
  parseSessionFile (Sample.host true []) Sample.file_garbage_first
    <> Some (Sample.event Sample.T1 1).
Proof. repeat split; vm_compute; (reflexivity || discriminate). Qed.

(** The part of C3 that holds on the sample file of the specification:
    three qualifying lines in ascending order and a line that is no JSON
    among them; the record of the last timestamp is returned. *)
Example ascending_file_yields_last :
  Sample.parse_line Sample.broken_line = None /\
  parseSessionFile (Sample.host true []) Sample.file_ascending
    = Some (Sample.event Sample.T3 3).
Proof. split; vm_compute; reflexivity. Qed.

(** C10 at an input on which the code departs from it, by the defect shown
    for C3. Two qualifying lines share the greatest timestamp,
    2025-01-01T00:25:00Z; before them stands a qualifying line whose
    timestamp is no instant. The reader returns neither of the two but the
    record of the first line. *)
Theorem undated_first_line_beats_tie :
  timestamped (Sample.host true []) (Sample.event_line "garbage" 5)
    = Some (Sample.event "garbage" 5, InvalidDate) /\
  timestamped (Sample.host true []) (Sample.event_line Sample.T3 3)
    = Some (Sample.event Sample.T3 3, Instant 1735691100000) /\
  timestamped (Sample.host true []) (Sample.event_line Sample.T3 4)
    = Some (Sample.event Sample.T3 4, Instant 1735691100000) /\
  readFile (Sample.host true []) Sample.file_garbage_tie
    = Some (Sample.lines [Sample.event_line "garbage" 5; Sample.event_line Sample.T3 3;
                          Sample.event_line Sample.T3 4]) /\
  parseSessionFile (Sample.host true []) Sample.file_garbage_tie
    = Some (Sample.event "garbage" 5) /\
  parseSessionFile (Sample.host true []) Sample.file_garbage_tie
    <> Some (Sample.event Sample.T3 3).
Proof. repeat split; vm_compute; (reflexivity || discriminate). Qed.

(** ** Claims about the resolver *)


Section ReadsFacts.

Context (host : Host).








End ReadsFacts.








(** ** The assembly *)

Section AssemblyFacts.

Context (host : Host) (clock : Clock).

(** The record of a line that takes part in the comparison is assembled
    without an exception, and its windows are normalized windows. *)
Lemma assemble_timestamped (f line : string) (record : value) (d : Date) :
  timestamped host line = Some (record, d) ->
  exists result, assemble host clock f record = Some result /\
    file_path result = f /\ record_timestamp result = d /\
    (forall w, primary result = Some w ->
       exists rl, w = normalizeWindow (primaryNow clock) d rl) /\
    (forall w, secondary result = Some w ->
       exists rl, w = normalizeWindow (secondaryNow clock) d rl).
Proof.
  intros Hts. destruct (timestamped_shape host line record d Hts)
    as (fields & payload & text & -> & Hp & Ht & ->).
  unfold assemble. simpl. rewrite Hp, Ht. simpl.
  eexists. split; [reflexivity|]. cbn [file_path record_timestamp primary secondary].
  repeat split; intros w Hw; unfold windowOf in Hw;
    destruct (truthy _); try discriminate; injection Hw as <-; eexists; reflexivity.
Qed.

(** The query has two outcomes: the one reason of failure, or a snapshot of
    the record that the resolver found. *)
Theorem getRateLimitData_outcomes (customPath : option string) :
  (findLatestTokenCountRecord host (nowMs clock) (today clock) (currentDate clock)
     (requestedPath host customPath) = None /\
   getRateLimitData host clock customPath
     = notFound "No token_count events found in session files") \/
  (exists f record result,
     findLatestTokenCountRecord host (nowMs clock) (today clock) (currentDate clock)
       (requestedPath host customPath) = Some (f, record) /\
     getRateLimitData host clock customPath
       = {| found := true; data := Some result; error := None |} /\
     file_path result = f /\
     record_timestamp result = timestamp_of host record /\
     (forall w, primary result = Some w ->
        exists rl, w = normalizeWindow (primaryNow clock) (record_timestamp result) rl) /\
     (forall w, secondary result = Some w ->
        exists rl, w = normalizeWindow (secondaryNow clock) (record_timestamp result) rl)).
Proof.
  unfold getRateLimitData.
  destruct (findLatestTokenCountRecord host _ _ _ _) as [[f record]|] eqn:Hfind;
    [right | left; now split].
  assert (Hyield : parseSessionFile host f = Some record).
  { unfold findLatestTokenCountRecord in Hfind.
    destruct (existsSync host _); [|discriminate]. cbn [negb] in Hfind.
    match type of Hfind with context [scanRecent host ?l ∅] =>
      pose proof (scanRecent_outcome host l ∅) as H1;
      destruct (scanRecent host l ∅) as [[[f1 r1]|] attempted] end.
    - injection Hfind as -> ->. now destruct H1 as (_ & _ & _ & _ & H & _).
    - destruct H1 as [Hnone Hatt].
      match type of Hfind with scanAll host ?l _ = _ =>
        pose proof (scanAll_outcome host l attempted) as H2 end.
      rewrite Hfind in H2. destruct H2 as [(_ & _ & _ & _ & H & _) _]; [|exact H].
      intros f' Hf'. apply Hatt in Hf' as [Hf'|(e & He & <-)]; [set_solver|].
      now apply Hnone. }
  assert (Hline : exists line d, timestamped host line = Some (record, d)).
  { unfold parseSessionFile in Hyield.
    destruct (readFile host f) as [content|] eqn:Hread; [|discriminate].
    destruct (proj1 (parseSessionFile_yields host f content Hread) record)
      as (line & d & _ & H); [|now exists line, d].
    unfold parseSessionFile. now rewrite Hread. }
  destruct Hline as (line & d & Hts).
  destruct (assemble_timestamped f line record d Hts) as (result & Ha & Hf & Hd & Hp & Hs).
  exists f, record, result. rewrite Ha.
  assert (Hd' : d = timestamp_of host record).
  { destruct (timestamped_shape host line record d Hts)
      as (fields & payload & text & -> & _ & Ht & ->).
    unfold timestamp_of, get_opt. simpl. now rewrite Ht. }
  repeat split; try assumption; try congruence; rewrite Hd; assumption.
Qed.

End AssemblyFacts.

(** ** The examples of the specification *)

(** A record of 2025-01-01T00:00:00Z that resets in 3600 seconds, with a
    window of 60 minutes, evaluated half an hour later: the reset is at
    01:00:00Z, the window is not outdated and half of it has passed. *)
Example half_of_the_window :
  reset_time (normalizeWindow half_hour_later (Instant new_year) descriptor_relative)
    = Instant 1735693200000 /\
  outdated (normalizeWindow half_hour_later (Instant new_year) descriptor_relative) = false /\
  same (time_percent (normalizeWindow half_hour_later (Instant new_year)
                        descriptor_relative)) (of_Z 50).
Proof. repeat split. Qed.

(** The same record evaluated at 02:00:00Z is outdated, at 100 percent. *)
Example window_has_passed :
  outdated (normalizeWindow two_hours_later (Instant new_year) descriptor_relative) = true /\
  time_percent (normalizeWindow two_hours_later (Instant new_year) descriptor_relative)
    = of_Z 100.
Proof. repeat split. Qed.

(** A record with a primary window only and no usage section: the query
    succeeds, the snapshot has the primary window and no secondary one, and
    the usage is all zero. *)
Example primary_only :
  found (getRateLimitData (Sample.host true Sample.two_files) Sample.clock None) = true /\
  primary <$> data (getRateLimitData (Sample.host true Sample.two_files) Sample.clock None)
    = Some (Some (normalizeWindow half_hour_later (Instant 1735690200000)
                    {| used_percent := num 1; resets_at := VUndefined;
                       resets_in_seconds := VUndefined; window_minutes := VUndefined |})) /\
  secondary <$> data (getRateLimitData (Sample.host true Sample.two_files) Sample.clock None)
    = Some None /\
  total_usage <$> data (getRateLimitData (Sample.host true Sample.two_files) Sample.clock None)
    = Some createEmptyTokenUsage.
Proof. repeat split; vm_compute; reflexivity. Qed.

(** * Further properties *)

(** ** The normalizer: seconds, range and progress *)

Module MoreNumFacts.

Lemma max_Fin (a b : Q) : max (Fin a) (Fin b) = Fin (Qmax a b).
Proof.
  unfold max, lt, Qlt_bool, Qmax, GenericMinMax.gmax.
  destruct (a ?= b)%Q eqn:Hc.
  - apply Qeq_alt in Hc. replace (Qle_bool b a) with true; [reflexivity|].
    symmetry. apply Qle_bool_iff. rewrite Hc. apply Qle_refl.
  - apply Qlt_alt in Hc. replace (Qle_bool b a) with false; [reflexivity|].
    symmetry. now apply NumFacts.Qle_bool_false.
  - apply Qgt_alt in Hc. replace (Qle_bool b a) with true; [reflexivity|].
    symmetry. apply Qle_bool_iff. now apply Qlt_le_weak.
Qed.

Lemma min_Fin (a b : Q) : min (Fin a) (Fin b) = Fin (Qmin a b).
Proof.
  unfold min, lt, Qlt_bool, Qmin, GenericMinMax.gmin.
  destruct (a ?= b)%Q eqn:Hc.
  - apply Qeq_alt in Hc. replace (Qle_bool a b) with true; [reflexivity|].
    symmetry. apply Qle_bool_iff. rewrite Hc. apply Qle_refl.
  - apply Qlt_alt in Hc. replace (Qle_bool a b) with true; [reflexivity|].
    symmetry. apply Qle_bool_iff. now apply Qlt_le_weak.
  - apply Qgt_alt in Hc. replace (Qle_bool a b) with false; [reflexivity|].
    symmetry. now apply NumFacts.Qle_bool_false.
Qed.

#[export] Instance Qmax_proper : Proper (Qeq ==> Qeq ==> Qeq) Qmax := Q.max_compat.
#[export] Instance Qmin_proper : Proper (Qeq ==> Qeq ==> Qeq) Qmin := Q.min_compat.

(** The floor of a quotient of whole numbers is the quotient of [Z]. *)
Lemma Qfloor_quotient (a b : Z) :
  0 < b -> Qfloor (inject_Z a / inject_Z b) = a / b.
Proof.
  intros Hb. destruct b as [|p|p]; try lia.
  unfold Qdiv, Qinv, Qmult, Qfloor, inject_Z. simpl.
  now rewrite Z.mul_1_r.
Qed.

End MoreNumFacts.

Import MoreNumFacts.

Section MoreNormalizer.

Variable recordTimestamp : Date.
Variable rl : RateLimit.

(** The seconds until a resolved reset: whole seconds, rounded down, never
    below zero. *)
Lemma secondsUntilReset_resolved (now r : Z) :
  candidateResetTime recordTimestamp rl = Some (Instant r) ->
  secondsUntilReset (calculateResetTime now recordTimestamp rl)
    = of_Z (Z.max 0 ((r - now) / 1000)).
Proof.
  intros Hc. unfold calculateResetTime. rewrite Hc.
  cbn [getTime isNaN of_Z secondsUntilReset sub neg add div].
  change (Qeq_bool (inject_Z 1000) 0) with false. cbn [floor].
  assert (E : Qfloor ((inject_Z r + - inject_Z now) / inject_Z 1000) = (r - now) / 1000).
  { rewrite <- (MoreNumFacts.Qfloor_quotient (r - now) 1000) by lia.
    apply Qfloor_comp. unfold Z.sub. now rewrite inject_Z_plus, inject_Z_opp. }
  rewrite E. unfold zero, of_Z. change 0%Q with (inject_Z 0).
  rewrite MoreNumFacts.max_Fin. f_equal.
  unfold Qmax, GenericMinMax.gmax. destruct (Z.max_spec 0 ((r - now) / 1000)) as [[Hlt ->]|[Hle ->]].
  - replace (inject_Z 0 ?= inject_Z ((r - now) / 1000))%Q with Lt; [reflexivity|].
    symmetry. apply (proj1 (Qlt_alt (inject_Z 0) (inject_Z ((r - now) / 1000)))).
    now rewrite <- Zlt_Qlt.
  - destruct (inject_Z 0 ?= inject_Z ((r - now) / 1000))%Q eqn:Hc'; try reflexivity.
    apply (proj2 (Qlt_alt (inject_Z 0) (inject_Z ((r - now) / 1000)))) in Hc'.
    rewrite <- Zlt_Qlt in Hc'. lia.
Qed.

Lemma resolveWindowMinutes_finite :
  window_minutes rl <> VNumber PosInf ->
  resolveWindowMinutes (window_minutes rl) <> PosInf.
Proof.
  intros Hraw Hres. apply Hraw. unfold resolveWindowMinutes in Hres.
  destruct (window_minutes rl) as [| | |n| | |]; try discriminate Hres.
  cbn [typeof_number to_number andb] in Hres.
  destruct (gt n zero); [now subst | discriminate Hres].
Qed.

(** The time percent of a window that is resolved and not yet reset, in
    terms of the seconds left. *)
Lemma time_percent_live (now r : Z) (q : Q) :
  candidateResetTime recordTimestamp rl = Some (Instant r) ->
  now <= r ->
  resolveWindowMinutes (window_minutes rl) = Fin q -> (0 < q)%Q ->
  time_percent (normalizeWindow now recordTimestamp rl)
    = Fin (Qmax 0 (Qmin 100
             (Qmax 0 (Qmin (q * 60) (q * 60 + - inject_Z ((r - now) / 1000)))
              / (q * 60) * 100))).
Proof.
  intros Hc Hle Hq Hpos. unfold normalizeWindow. cbn [time_percent].
  rewrite Hq. cbn [mul of_Z]. unfold rawTimePercent.
  assert (Hws : (0 < q * inject_Z 60)%Q)
    by (apply Qmult_lt_0_compat; [exact Hpos | reflexivity]).
  cbn [le zero].
  replace (Qle_bool (q * inject_Z 60) 0) with false
    by (symmetry; now apply NumFacts.Qle_bool_false).
  destruct (calculateResetTime_resolved now recordTimestamp rl r Hc) as [_ Ho].
  destruct (isOutdated (calculateResetTime now recordTimestamp rl)) eqn:Hout.
  { assert (r < now) by now apply Ho. lia. }
  rewrite (secondsUntilReset_resolved now r Hc).
  rewrite Z.max_r by (apply Z.div_pos; lia).
  cbn [sub neg add of_Z]. rewrite MoreNumFacts.min_Fin.
  unfold zero. rewrite MoreNumFacts.max_Fin. cbn [div].
  replace (Qeq_bool (q * inject_Z 60) 0) with false.
  2:{ symmetry. destruct (Qeq_bool (q * inject_Z 60) 0) eqn:He; [|reflexivity].
      apply Qeq_bool_iff in He. rewrite He in Hws. discriminate Hws. }
  cbn [mul]. unfold of_Z. rewrite MoreNumFacts.min_Fin, MoreNumFacts.max_Fin. reflexivity.
Qed.

End MoreNormalizer.

(** X1. An outdated window of [calculateResetTime] has no seconds left: the
    seconds until reset are 0 whenever the window is outdated, be it because
    the reset could not be resolved or because it lies in the past; and a
    reset that is resolved and not in the past is not outdated and has the
    whole seconds up to it, rounded down. *)
Theorem outdated_has_no_seconds_left (now : Z) (recordTimestamp : Date)
  (rl : RateLimit) :
  (isOutdated (calculateResetTime now recordTimestamp rl) = true ->
   secondsUntilReset (calculateResetTime now recordTimestamp rl) = zero) /\
  (forall r, candidateResetTime recordTimestamp rl = Some (Instant r) -> now <= r ->
     isOutdated (calculateResetTime now recordTimestamp rl) = false /\
     secondsUntilReset (calculateResetTime now recordTimestamp rl)
       = of_Z ((r - now) / 1000)).
Proof.
  split.
  - intros Hout.
    destruct (candidateResetTime recordTimestamp rl) as [[r|]|] eqn:Hc.
    + rewrite (secondsUntilReset_resolved recordTimestamp rl now r Hc).
      apply (calculateResetTime_resolved now recordTimestamp rl r Hc) in Hout.
      rewrite Z.max_l; [reflexivity|].
      assert ((r - now) / 1000 < 0) by (apply Z.div_lt_upper_bound; lia). lia.
    + now rewrite calculateResetTime_invalid.
    + unfold calculateResetTime. now rewrite Hc.
  - intros r Hc Hle. split.
    + destruct (isOutdated _) eqn:Hout; [|reflexivity].
      apply (calculateResetTime_resolved now recordTimestamp rl r Hc) in Hout. lia.
    + rewrite (secondsUntilReset_resolved recordTimestamp rl now r Hc).
      now rewrite Z.max_r by (apply Z.div_pos; lia).
Qed.

Lemma outdated_has_no_seconds_left_witness :
  isOutdated (calculateResetTime two_hours_later (Instant new_year) descriptor_relative)
    = true /\
  secondsUntilReset (calculateResetTime two_hours_later (Instant new_year)
                       descriptor_relative) = zero /\
  candidateResetTime (Instant new_year) descriptor_relative
    = Some (Instant 1735693200000) /\
  half_hour_later <= 1735693200000 /\
  secondsUntilReset (calculateResetTime half_hour_later (Instant new_year)
                       descriptor_relative) = of_Z 1800.
Proof.
  split; [reflexivity|]. split.
  { exact (proj1 (outdated_has_no_seconds_left two_hours_later (Instant new_year)
                    descriptor_relative) eq_refl). }
  split; [reflexivity|].
  assert (Hle : half_hour_later <= 1735693200000) by (vm_compute; discriminate).
  split; [exact Hle|].
  exact (proj2 (proj2 (outdated_has_no_seconds_left half_hour_later (Instant new_year)
                         descriptor_relative) 1735693200000 eq_refl Hle)).
Defined.

(** A window whose seconds do not overflow is not infinite. *)
Lemma windowSeconds_finite_not_infinite (v : value) :
  windowSeconds_finite v -> v <> VNumber PosInf.
Proof. intros H ->. exact H. Qed.

(** X2. When the window seconds do not overflow (the raw [window_minutes]
    is no number, or not positive, or a finite number whose product by 60 is
    at most [Number.MAX_VALUE]), the time percent of the normalized window
    is a number from 0 to 100, whatever the record, the reset data and the
    evaluation instant. *)
Theorem time_percent_within_bounds (now : Z) (recordTimestamp : Date)
  (rl : RateLimit) :
  windowSeconds_finite (window_minutes rl) ->
  between 0 100 (time_percent (normalizeWindow now recordTimestamp rl)).
Proof.
  intros Hraw. apply time_percent_between.
  unfold normalizeWindow. cbn [w_window_minutes].
  apply resolveWindowMinutes_finite.
  now apply windowSeconds_finite_not_infinite.
Qed.

Lemma time_percent_within_bounds_witness :
  windowSeconds_finite (window_minutes descriptor_relative) /\
  between 0 100 (time_percent (normalizeWindow half_hour_later (Instant new_year)
                                 descriptor_relative)).
Proof.
  assert (H : windowSeconds_finite (window_minutes descriptor_relative))
    by (vm_compute; discriminate).
  split; [exact H|].
  exact (time_percent_within_bounds half_hour_later (Instant new_year)
           descriptor_relative H).
Defined.

(** X3. The two ends of the time percent of a window that is resolved and
    not yet reset, with a positive [window_minutes] whose seconds do not
    overflow: when less than a second is left before the reset, no whole
    second is left and the time percent is 100; when the whole seconds left
    are as many as the seconds of the window, or more, the time percent
    is 0. *)
Theorem time_percent_at_the_ends (now r : Z) (recordTimestamp : Date)
  (rl : RateLimit) (minutes : Q) :
  candidateResetTime recordTimestamp rl = Some (Instant r) ->
  now <= r ->
  window_minutes rl = VNumber (Fin minutes) -> (0 < minutes)%Q ->
  windowSeconds_finite (window_minutes rl) ->
  (r - now < 1000 ->
   same (time_percent (normalizeWindow now recordTimestamp rl)) (of_Z 100)) /\
  ((minutes * 60 <= inject_Z ((r - now) / 1000))%Q ->
   same (time_percent (normalizeWindow now recordTimestamp rl)) zero).
Proof.
  intros Hc Hle Hwm Hpos _.
  assert (Hq : resolveWindowMinutes (window_minutes rl) = Fin minutes).
  { apply resolveWindowMinutes_positive. split; [exact Hwm|].
    now apply NumFacts.Qlt_bool_iff. }
  rewrite (time_percent_live recordTimestamp rl now r minutes Hc Hle Hq Hpos).
  set (k := inject_Z ((r - now) / 1000)). set (w := (minutes * 60)%Q).
  assert (Hw : (0 < w)%Q) by (apply Qmult_lt_0_compat; [exact Hpos | reflexivity]).
  unfold same, zero, of_Z. split.
  - intros Hlast.
    assert (Hk : (k == 0)%Q).
    { unfold k. rewrite Z.div_small by lia. reflexivity. }
    assert (E1 : (Qmax 0 (Qmin w (w + - k)) == w)%Q).
    { rewrite Hk. rewrite Q.min_l by lra. rewrite Q.max_r by lra. reflexivity. }
    rewrite E1.
    assert (E2 : (w / w * 100 == 100)%Q) by (field; lra).
    rewrite E2. rewrite Q.min_l by apply Qle_refl.
    rewrite Q.max_r by discriminate. reflexivity.
  - intros Hwk.
    assert (E1 : (Qmax 0 (Qmin w (w + - k)) == 0)%Q).
    { rewrite Q.min_r by lra. rewrite Q.max_l; [reflexivity|]. lra. }
    rewrite E1.
    assert (E2 : (0 / w * 100 == 0)%Q) by (unfold Qdiv; now rewrite !Qmult_0_l).
    rewrite E2. rewrite Q.min_r by discriminate. now rewrite Q.max_l by apply Qle_refl.
Qed.

Lemma time_percent_at_the_ends_witness :
  candidateResetTime (Instant new_year) descriptor_relative
    = Some (Instant 1735693200000) /\
  1735693199500 <= 1735693200000 /\
  windowSeconds_finite (window_minutes descriptor_relative) /\
  1735693200000 - 1735693199500 < 1000 /\
  same (time_percent (normalizeWindow 1735693199500 (Instant new_year)
                        descriptor_relative))
       (of_Z 100).
Proof.
  assert (Hle : 1735693199500 <= 1735693200000) by lia.
  assert (Hw : windowSeconds_finite (window_minutes descriptor_relative))
    by (vm_compute; discriminate).
  assert (Hlast : 1735693200000 - 1735693199500 < 1000) by lia.
  split; [reflexivity|]. split; [exact Hle|]. split; [exact Hw|].
  split; [exact Hlast|].
  exact (proj1 (time_percent_at_the_ends 1735693199500 1735693200000
                  (Instant new_year) descriptor_relative 60 eq_refl Hle eq_refl
                  eq_refl Hw) Hlast).
Defined.

(** X4. Time only moves a window forward: for one descriptor and one record
    timestamp, evaluated at two instants of which the second is not the
    earlier, a window that is outdated at the first is outdated at the
    second, and the time percent at the second is not below the time percent
    at the first, provided the window seconds do not overflow (the raw
    [window_minutes] is no number, or not positive, or a finite number whose
    product by 60 is at most [Number.MAX_VALUE]). *)
Theorem time_percent_never_decreases (now1 now2 : Z) (recordTimestamp : Date)
  (rl : RateLimit) :
  now1 <= now2 ->
  windowSeconds_finite (window_minutes rl) ->
  (outdated (normalizeWindow now1 recordTimestamp rl) = true ->
   outdated (normalizeWindow now2 recordTimestamp rl) = true) /\
  exists p1 p2,
    time_percent (normalizeWindow now1 recordTimestamp rl) = Fin p1 /\
    time_percent (normalizeWindow now2 recordTimestamp rl) = Fin p2 /\
    (p1 <= p2)%Q.
Proof.
  intros Hnow Hraw. apply windowSeconds_finite_not_infinite in Hraw.
  assert (Hrange : forall now, exists p,
            time_percent (normalizeWindow now recordTimestamp rl) = Fin p /\
            (0 <= p /\ p <= 100)%Q).
  { intros now.
    assert (H : between 0 100 (time_percent (normalizeWindow now recordTimestamp rl))).
    { apply time_percent_between. unfold normalizeWindow. cbn [w_window_minutes].
      now apply resolveWindowMinutes_finite. }
    revert H.
    destruct (time_percent (normalizeWindow now recordTimestamp rl)) as [| | |p];
      simpl; try contradiction. intros H. now exists p. }
  destruct (candidateResetTime recordTimestamp rl) as [[r|]|] eqn:Hc.
  - (* resolved *)
    assert (Hout : forall now,
              outdated (normalizeWindow now recordTimestamp rl) = true <-> r < now).
    { intros now. unfold normalizeWindow. cbn [outdated].
      apply (calculateResetTime_resolved now recordTimestamp rl r Hc). }
    split; [rewrite !Hout; lia|].
    destruct (window_minutes_cases (window_minutes rl)) as [Hinv|[n Hn]].
    { exists 0%Q, 0%Q. rewrite !(time_percent_invalid_window _ _ _ Hinv).
      repeat split. apply Qle_refl. }
    destruct (Z.lt_ge_cases r now2) as [Hlt|Hge].
    + (* outdated at the second instant *)
      destruct (Hrange now1) as (p1 & E1 & _ & Hp1).
      exists p1, 100%Q. split; [exact E1|]. split; [|exact Hp1].
      apply time_percent_outdated with (n := n); [exact Hn | now apply Hout].
    + (* live at both instants *)
      pose proof (resolveWindowMinutes_positive _ _ Hn) as Hq. destruct Hn as [Hv Hn].
      destruct n as [| | |q]; try discriminate Hn; [congruence|].
      apply NumFacts.Qlt_bool_iff in Hn.
      rewrite (time_percent_live recordTimestamp rl now1 r q Hc ltac:(lia) Hq Hn).
      rewrite (time_percent_live recordTimestamp rl now2 r q Hc Hge Hq Hn).
      eexists. eexists. split; [reflexivity|]. split; [reflexivity|].
      assert (Hw : (0 < q * 60)%Q) by (apply Qmult_lt_0_compat; [exact Hn | reflexivity]).
      apply Q.max_le_compat_l, Q.min_le_compat_l.
      apply Qmult_le_compat_r; [|discriminate].
      unfold Qdiv. apply Qmult_le_compat_r; [|apply Qlt_le_weak, Qinv_lt_0_compat, Hw].
      apply Q.max_le_compat_l, Q.min_le_compat_l.
      apply Qplus_le_r. apply Qopp_le_compat. rewrite <- Zle_Qle.
      apply Z.div_le_mono; lia.
  - (* an invalid date: the same failure at both instants *)
    assert (E : forall now, normalizeWindow now recordTimestamp rl
                            = normalizeWindow now1 recordTimestamp rl).
    { intros now. unfold normalizeWindow. now rewrite !calculateResetTime_invalid. }
    rewrite (E now2). split; [tauto|].
    destruct (Hrange now1) as (p & Ep & _). exists p, p. repeat split; try exact Ep.
    apply Qle_refl.
  - (* no reset field: the same failure at both instants *)
    assert (E : forall now, normalizeWindow now recordTimestamp rl
                            = normalizeWindow now1 recordTimestamp rl).
    { intros now. unfold normalizeWindow, calculateResetTime. now rewrite Hc. }
    rewrite (E now2). split; [tauto|].
    destruct (Hrange now1) as (p & Ep & _). exists p, p. repeat split; try exact Ep.
    apply Qle_refl.
Qed.

Lemma time_percent_never_decreases_witness :
  half_hour_later <= two_hours_later /\
  windowSeconds_finite (window_minutes descriptor_relative) /\
  exists p1 p2,
    time_percent (normalizeWindow half_hour_later (Instant new_year) descriptor_relative)
      = Fin p1 /\
    time_percent (normalizeWindow two_hours_later (Instant new_year) descriptor_relative)
      = Fin p2 /\
    (p1 <= p2)%Q.
Proof.
  assert (Hle : half_hour_later <= two_hours_later) by (vm_compute; discriminate).
  assert (H : windowSeconds_finite (window_minutes descriptor_relative))
    by (vm_compute; discriminate).
  split; [exact Hle|]. split; [exact H|].
  exact (proj2 (time_percent_never_decreases half_hour_later two_hours_later
                  (Instant new_year) descriptor_relative Hle H)).
Defined.

(** ** The reader: which lines count *)

Section MoreReader.

Context (host : Host).

Lemma foldl_visitLine_filter (lines : list string) (st : Latest) :
  foldl (visitLine host) st lines
  = foldl (visitLine host) st
      (filter (λ line, is_Some (timestamped host line)) lines).
Proof.
  revert st. induction lines as [|line lines IH]; intros st; [reflexivity|].
  rewrite filter_cons. cbn [foldl]. destruct (decide (is_Some (timestamped host line))) as [Hs|Hn].
  - cbn [foldl]. apply IH.
  - rewrite visitLine_timestamped.
    destruct (timestamped host line) as [[record d]|] eqn:Hline.
    + exfalso. apply Hn. now eexists.
    + apply IH.
Qed.

End MoreReader.

(** X5. The reader looks only at the lines that take part in the
    comparison: lines that are no JSON, records that are no [token_count]
    event and events whose timestamp is no string may be struck from a file,
    anywhere, without changing the record that is returned. *)
Theorem reader_ignores_other_lines (host : Host) (lines : list string) :
  latestRecord (scanLines host lines)
  = latestRecord (scanLines host
      (filter (λ line, is_Some (timestamped host line)) lines)).
Proof.
  unfold scanLines. now rewrite foldl_visitLine_filter.
Qed.

(** X6. When the first line of a readable file that takes part in the
    comparison has a timestamp that parses, the reader returns the earliest
    of the records with the greatest timestamp: the record of a line such
    that no line is later and no line before it is as late. *)
Theorem reader_returns_earliest_of_latest (host : Host) (filePath content : string)
  (k i : nat) (first record : value) (t0 t : Z) :
  readFile host filePath = Some content ->
  first_participant host (visited content) k first (Instant t0) ->
  first_latest host (visited content) i record t ->
  parseSessionFile host filePath = Some record.
Proof.
  intros Hread Hfirst Hlatest. unfold parseSessionFile. rewrite Hread.
  fold (visited content).
  exact (scanLines_first_latest host (visited content) k i first record t0 t
           Hfirst Hlatest).
Qed.

Lemma reader_returns_earliest_of_latest_witness :
  readFile (Sample.host true []) Sample.file_ascending
    = Some (Sample.lines [Sample.event_line Sample.T1 1; Sample.broken_line;
                          Sample.event_line Sample.T2 2; Sample.event_line Sample.T3 3]) /\
  parseSessionFile (Sample.host true []) Sample.file_ascending
    = Some (Sample.event Sample.T3 3).
Proof.
  split; [reflexivity|].
  assert (Hv : visited (Sample.lines [Sample.event_line Sample.T1 1; Sample.broken_line;
                          Sample.event_line Sample.T2 2; Sample.event_line Sample.T3 3])
               = [Sample.event_line Sample.T1 1; Sample.broken_line;
                  Sample.event_line Sample.T2 2; Sample.event_line Sample.T3 3])
    by (vm_compute; reflexivity).
  assert (H1 : timestamped (Sample.host true []) (Sample.event_line Sample.T1 1)
               = Some (Sample.event Sample.T1 1, Instant 1735690200000))
    by (vm_compute; reflexivity).
  assert (H2 : timestamped (Sample.host true []) Sample.broken_line = None)
    by (vm_compute; reflexivity).
  assert (H3 : timestamped (Sample.host true []) (Sample.event_line Sample.T2 2)
               = Some (Sample.event Sample.T2 2, Instant 1735690800000))
    by (vm_compute; reflexivity).
  assert (H4 : timestamped (Sample.host true []) (Sample.event_line Sample.T3 3)
               = Some (Sample.event Sample.T3 3, Instant 1735691100000))
    by (vm_compute; reflexivity).
  apply (reader_returns_earliest_of_latest (Sample.host true []) Sample.file_ascending
           (Sample.lines [Sample.event_line Sample.T1 1; Sample.broken_line;
                          Sample.event_line Sample.T2 2; Sample.event_line Sample.T3 3])
           0 3 (Sample.event Sample.T1 1) (Sample.event Sample.T3 3)
           1735690200000 1735691100000 eq_refl); rewrite Hv.
  - split; [exists (Sample.event_line Sample.T1 1); split; [reflexivity | exact H1]|].
    intros j line' Hj. lia.
  - split; [exists (Sample.event_line Sample.T3 3); split; [reflexivity | exact H4]|].
    intros j line' record' t' Hl Ht.
    destruct j as [|[|[|[|j]]]]; cbn [lookup list_lookup] in Hl; try discriminate Hl;
      injection Hl as <-; rewrite ?H1, ?H2, ?H3, ?H4 in Ht; try discriminate Ht;
      injection Ht as _ <-; lia.
Defined.

(** ** The snapshot *)

Section MoreAssembly.

Context (host : Host) (clock : Clock).

(** What the resolver returns is a file and the record that the reader
    yields for it, a record that took part in the comparison. *)
Lemma found_record_takes_part (basePath : option string) (f : string) (record : value) :
  findLatestTokenCountRecord host (nowMs clock) (today clock) (currentDate clock) basePath
    = Some (f, record) ->
  parseSessionFile host f = Some record /\
  exists line, timestamped host line = Some (record, timestamp_of host record).
Proof.
  intros Hfind.
  assert (Hyield : parseSessionFile host f = Some record).
  { unfold findLatestTokenCountRecord in Hfind.
    destruct (existsSync host _); [|discriminate]. cbn [negb] in Hfind.
    match type of Hfind with context [scanRecent host ?l ∅] =>
      pose proof (scanRecent_outcome host l ∅) as H1;
      destruct (scanRecent host l ∅) as [[[f1 r1]|] attempted] end.
    - injection Hfind as -> ->. now destruct H1 as (_ & _ & _ & _ & H & _).
    - destruct H1 as [Hnone Hatt].
      match type of Hfind with scanAll host ?l _ = _ =>
        pose proof (scanAll_outcome host l attempted) as H2 end.
      rewrite Hfind in H2. destruct H2 as [(_ & _ & _ & _ & H & _) _]; [|exact H].
      intros f' Hf'. apply Hatt in Hf' as [Hf'|(e & He & <-)]; [set_solver|].
      now apply Hnone. }
  split; [exact Hyield|].
  pose proof Hyield as Hy. unfold parseSessionFile in Hy.
  destruct (readFile host f) as [content|] eqn:Hread; [|discriminate].
  destruct (proj1 (parseSessionFile_yields host f content Hread) record Hyield)
    as (line & d & _ & Hts).
  exists line. rewrite Hts. do 2 f_equal.
  destruct (timestamped_shape host line record d Hts)
    as (fields & payload & text & -> & _ & Ht & ->).
  unfold timestamp_of, get_opt. simpl. now rewrite Ht.
Qed.

(** The snapshot of a found record, field by field. *)
Lemma assemble_fields (f line : string) (record : value) (d : Date) :
  timestamped host line = Some (record, d) ->
  assemble host clock f record
  = Some {| file_path := f;
            record_timestamp := d;
            current_time := Instant (currentTime clock);
            total_usage := nullish_or (usage_field record "total_token_usage")
                             createEmptyTokenUsage;
            last_usage := nullish_or (usage_field record "last_token_usage")
                            createEmptyTokenUsage;
            primary := windowOf (primaryNow clock) d (window_field record "primary");
            secondary := windowOf (secondaryNow clock) d
                           (window_field record "secondary") |}.
Proof.
  intros Hts. destruct (timestamped_shape host line record d Hts)
    as (fields & payload & text & -> & Hp & Ht & ->).
  unfold assemble, usage_field, window_field, get_opt. simpl. rewrite Hp, Ht. simpl.
  do 2 f_equal.
  - unfold or_else. destruct (default VUndefined (payload !! "rate_limits")) eqn:E;
      try reflexivity; simpl;
      try (destruct b; reflexivity);
      try (destruct n as [| | |q]; try reflexivity; now destruct (Qeq_bool q 0));
      try (destruct (String.eqb s "")%string; reflexivity).
  - unfold or_else. destruct (default VUndefined (payload !! "rate_limits")) eqn:E;
      try reflexivity; simpl;
      try (destruct b; reflexivity);
      try (destruct n as [| | |q]; try reflexivity; now destruct (Qeq_bool q 0));
      try (destruct (String.eqb s "")%string; reflexivity).
Qed.

End MoreAssembly.

(** X7. [getRateLimitData] has two outcomes and no third: either the
    resolver found nothing and the result is [found: false], without data,
    with the one reason [No token_count events found in session files]; or
    it found a file and a record, and the result is [found: true], without
    error, with a snapshot of that file and of that record, taken at the
    reading of the clock. No record that the resolver returns makes the
    assembly throw. *)
Theorem query_has_two_outcomes (host : Host) (clock : Clock)
  (customPath : option string) :
  (findLatestTokenCountRecord host (nowMs clock) (today clock) (currentDate clock)
     (requestedPath host customPath) = None /\
   getRateLimitData host clock customPath
     = {| found := false; data := None;
          error := Some "No token_count events found in session files" |}) \/
  (exists f record snapshot,
     findLatestTokenCountRecord host (nowMs clock) (today clock) (currentDate clock)
       (requestedPath host customPath) = Some (f, record) /\
     parseSessionFile host f = Some record /\
     getRateLimitData host clock customPath
       = {| found := true; data := Some snapshot; error := None |} /\
     file_path snapshot = f /\
     record_timestamp snapshot = timestamp_of host record /\
     current_time snapshot = Instant (currentTime clock)).
Proof.
  unfold getRateLimitData.
  destruct (findLatestTokenCountRecord host _ _ _ _) as [[f record]|] eqn:Hfind;
    [right | left; now split].
  destruct (found_record_takes_part host clock _ f record Hfind) as [Hyield [line Hts]].
  exists f, record. rewrite (assemble_fields host clock f line record _ Hts).
  eexists. repeat split. exact Hyield.
Qed.

(** X8. The usage of a snapshot falls back field by field: the total usage
    is the value of [payload.info.total_token_usage] of the record, as it
    is, unless that is missing or [null] (the whole [info] may be missing or
    [null]), in which case it is the usage of five zeros; the last usage
    does the same with [last_token_usage], independently; the query
    succeeds in every case. *)
Theorem usage_falls_back_to_zero (host : Host) (clock : Clock)
  (customPath : option string) (f : string) (record : value) :
  findLatestTokenCountRecord host (nowMs clock) (today clock) (currentDate clock)
    (requestedPath host customPath) = Some (f, record) ->
  exists snapshot,
    getRateLimitData host clock customPath
      = {| found := true; data := Some snapshot; error := None |} /\
    (nullish (usage_field record "total_token_usage") = true ->
       total_usage snapshot = createEmptyTokenUsage) /\
    (nullish (usage_field record "total_token_usage") = false ->
       total_usage snapshot = usage_field record "total_token_usage") /\
    (nullish (usage_field record "last_token_usage") = true ->
       last_usage snapshot = createEmptyTokenUsage) /\
    (nullish (usage_field record "last_token_usage") = false ->
       last_usage snapshot = usage_field record "last_token_usage").
Proof.
  intros Hfind. unfold getRateLimitData. rewrite Hfind.
  destruct (found_record_takes_part host clock _ f record Hfind) as [_ [line Hts]].
  rewrite (assemble_fields host clock f line record _ Hts).
  eexists. split; [reflexivity|]. cbn [total_usage last_usage].
  repeat split; intros Hn;
    match goal with |- nullish_or ?v _ = _ => destruct v end;
    try reflexivity; discriminate Hn.
Qed.

Lemma usage_falls_back_to_zero_witness :
  findLatestTokenCountRecord (Sample.host true Sample.two_files)
    (nowMs Sample.clock) (today Sample.clock) (currentDate Sample.clock)
    (requestedPath (Sample.host true Sample.two_files) None)
    = Some (Sample.file_a, Sample.event Sample.T1 1) /\
  nullish (usage_field (Sample.event Sample.T1 1) "total_token_usage") = true /\
  exists snapshot,
    getRateLimitData (Sample.host true Sample.two_files) Sample.clock None
      = {| found := true; data := Some snapshot; error := None |} /\
    total_usage snapshot = createEmptyTokenUsage.
Proof.
  assert (Hfind : findLatestTokenCountRecord (Sample.host true Sample.two_files)
    (nowMs Sample.clock) (today Sample.clock) (currentDate Sample.clock)
    (requestedPath (Sample.host true Sample.two_files) None)
    = Some (Sample.file_a, Sample.event Sample.T1 1)) by (vm_compute; reflexivity).
  assert (Hnull : nullish (usage_field (Sample.event Sample.T1 1) "total_token_usage")
                  = true) by (vm_compute; reflexivity).
  split; [exact Hfind|]. split; [exact Hnull|].
  destruct (usage_falls_back_to_zero (Sample.host true Sample.two_files) Sample.clock
              None Sample.file_a (Sample.event Sample.T1 1) Hfind)
    as (snapshot & Hres & Hzero & _).
  exists snapshot. split; [exact Hres | exact (Hzero Hnull)].
Defined.

(** X9. A snapshot has a primary window exactly when
    [payload.rate_limits.primary] of the record is truthy, and the window is
    then the normalization of that descriptor against the timestamp of the
    record; the same holds of the secondary window, and neither depends on
    the other. A missing or falsy [rate_limits] gives no window at all, and
    the query still succeeds. *)
Theorem windows_follow_the_record (host : Host) (clock : Clock)
  (customPath : option string) (f : string) (record : value) :
  findLatestTokenCountRecord host (nowMs clock) (today clock) (currentDate clock)
    (requestedPath host customPath) = Some (f, record) ->
  exists snapshot,
    getRateLimitData host clock customPath
      = {| found := true; data := Some snapshot; error := None |} /\
    (primary snapshot = None <-> truthy (window_field record "primary") = false) /\
    (forall w, primary snapshot = Some w ->
       w = normalizeWindow (primaryNow clock) (timestamp_of host record)
             (as_RateLimit (window_field record "primary"))) /\
    (secondary snapshot = None <-> truthy (window_field record "secondary") = false) /\
    (forall w, secondary snapshot = Some w ->
       w = normalizeWindow (secondaryNow clock) (timestamp_of host record)
             (as_RateLimit (window_field record "secondary"))) /\
    (truthy (get_opt (get_opt record "payload") "rate_limits") = false ->
       primary snapshot = None /\ secondary snapshot = None).
Proof.
  intros Hfind. unfold getRateLimitData. rewrite Hfind.
  destruct (found_record_takes_part host clock _ f record Hfind) as [_ [line Hts]].
  rewrite (assemble_fields host clock f line record _ Hts).
  eexists. split; [reflexivity|]. cbn [primary secondary]. unfold windowOf.
  split; [|split; [|split; [|split]]].
  - destruct (truthy (window_field record "primary"));
      split; intros H; (discriminate H || reflexivity).
  - intros w. destruct (truthy (window_field record "primary")); intros [= <-] || discriminate.
    reflexivity.
  - destruct (truthy (window_field record "secondary"));
      split; intros H; (discriminate H || reflexivity).
  - intros w. destruct (truthy (window_field record "secondary")); intros [= <-] || discriminate.
    reflexivity.
  - unfold window_field. intros Hfalsy.
    assert (Hnone : forall k,
              get_opt (get_opt (get_opt record "payload") "rate_limits") k = VUndefined).
    { intros k. destruct (get_opt (get_opt record "payload") "rate_limits");
        try reflexivity; discriminate Hfalsy. }
    now rewrite !Hnone.
Qed.

Lemma windows_follow_the_record_witness :
  findLatestTokenCountRecord (Sample.host true Sample.two_files)
    (nowMs Sample.clock) (today Sample.clock) (currentDate Sample.clock)
    (requestedPath (Sample.host true Sample.two_files) None)
    = Some (Sample.file_a, Sample.event Sample.T1 1) /\
  truthy (window_field (Sample.event Sample.T1 1) "secondary") = false /\
  exists snapshot,
    getRateLimitData (Sample.host true Sample.two_files) Sample.clock None
      = {| found := true; data := Some snapshot; error := None |} /\
    secondary snapshot = None.
Proof.
  assert (Hfind : findLatestTokenCountRecord (Sample.host true Sample.two_files)
    (nowMs Sample.clock) (today Sample.clock) (currentDate Sample.clock)
    (requestedPath (Sample.host true Sample.two_files) None)
    = Some (Sample.file_a, Sample.event Sample.T1 1)) by (vm_compute; reflexivity).
  assert (Hfalsy : truthy (window_field (Sample.event Sample.T1 1) "secondary") = false)
    by (vm_compute; reflexivity).
  split; [exact Hfind|]. split; [exact Hfalsy|].
  destruct (windows_follow_the_record (Sample.host true Sample.two_files) Sample.clock
              None Sample.file_a (Sample.event Sample.T1 1) Hfind)
    as (snapshot & Hres & _ & _ & Hsec & _).
  exists snapshot. split; [exact Hres | exact (proj2 Hsec Hfalsy)].
Defined.

(** X10. A window descriptor that is truthy and yet holds none of the four
    fields (the value [true], a number, a text, an array, an empty object)
    is normalized to the window of a failed resolution without a window
    length: used percent [undefined], time percent 0, reset at the record
    timestamp, outdated, window minutes 0. *)
Theorem descriptor_without_fields (now : Z) (recordTimestamp : Date) (descriptor : value) :
  (forall key, get_opt descriptor key = VUndefined) ->
  normalizeWindow now recordTimestamp (as_RateLimit descriptor)
    = empty_window recordTimestamp.
Proof.
  intros Hnone. unfold as_RateLimit. rewrite !Hnone. reflexivity.
Qed.

Lemma descriptor_without_fields_witness :
  (forall key, get_opt (VBool true) key = VUndefined) /\
  truthy (VBool true) = true /\
  normalizeWindow half_hour_later (Instant new_year) (as_RateLimit (VBool true))
    = empty_window (Instant new_year).
Proof.
  assert (H : forall key, get_opt (VBool true) key = VUndefined) by reflexivity.
  split; [exact H|]. split; [reflexivity|].
  exact (descriptor_without_fields half_hour_later (Instant new_year) (VBool true) H).
Defined.

(** ** The formatters of token counts *)

Section Formatters.

Implicit Types (digits : list ascii) (n : Z).

Lemma filter_rev {A} (P : A -> Prop) `{forall x, Decision (P x)} (l : list A) :
  filter P (rev l) = rev (filter P l).
Proof.
  induction l as [|x l IH]; [reflexivity|].
  simpl. rewrite filter_app, IH, filter_cons.
  destruct (decide (P x)); simpl.
  - rewrite filter_cons_True by assumption. reflexivity.
  - rewrite filter_cons_False by assumption. apply app_nil_r.
Qed.

Lemma commas_only_adds_commas digits seen :
  filter (λ c, c <> ","%char) (commas digits seen)
  = filter (λ c, c <> ","%char) digits.
Proof.
  revert seen. induction digits as [|c rest IH]; intros seen; [reflexivity|].
  destruct rest as [|c' rest]; [reflexivity|].
  change (commas (c :: c' :: rest) seen)
    with (if (S seen mod 3 =? 0)%nat
          then c :: ","%char :: commas (c' :: rest) (S seen)
          else c :: commas (c' :: rest) (S seen)).
  destruct (S seen mod 3 =? 0)%nat.
  - rewrite !(filter_cons _ c). destruct (decide (c <> ","%char)).
    + f_equal. rewrite filter_cons_False by (intros Hc; now apply Hc).
      apply IH.
    + rewrite filter_cons_False by (intros Hc; now apply Hc). apply IH.
  - rewrite !(filter_cons _ c). destruct (decide (c <> ","%char)).
    + f_equal. apply IH.
    + apply IH.
Qed.

Lemma digits_have_no_comma (d : Decimal.uint) :
  filter (λ c, c <> ","%char)
    (list_ascii_of_string (NilEmpty.string_of_uint d))
  = list_ascii_of_string (NilEmpty.string_of_uint d).
Proof.
  induction d; simpl; [reflexivity|..];
    (rewrite filter_cons_True by discriminate; f_equal; assumption).
Qed.

Lemma without_commas_group (k : N) :
  without_commas (group (digits_of k)) = digits_of k.
Proof.
  unfold without_commas, group, digits_of.
  rewrite list_ascii_of_string_of_list_ascii, filter_rev,
    commas_only_adds_commas, <- filter_rev, rev_involutive,
    digits_have_no_comma.
  apply string_of_list_ascii_of_string.
Qed.

Lemma read_digits_of (k : N) : read_digits (digits_of k) = Some k.
Proof.
  unfold read_digits, digits_of. rewrite NilEmpty.usu. simpl.
  f_equal. apply DecimalN.Unsigned.of_to.
Qed.

Lemma thousands_of_whole n :
  0 <= n ->
  div (of_Z n) (of_Z 1000) = Fin (inject_Z n / inject_Z 1000)
  /\ Math_round (div (of_Z n) (of_Z 1000)) = of_Z ((n + 500) / 1000)
  /\ rounds_to_negative_zero (div (of_Z n) (of_Z 1000)) = false.
Proof.
  intros Hn.
  assert (Hdiv : div (of_Z n) (of_Z 1000) = Fin (inject_Z n / inject_Z 1000))
    by reflexivity.
  rewrite Hdiv. split; [reflexivity|]. split.
  - unfold Math_round. f_equal.
    rewrite <- (Qfloor_quotient (n + 500) 1000) by lia.
    apply Qfloor_comp.
    unfold Qeq, Qdiv, Qmult, Qplus, Qinv, inject_Z. simpl. lia.
  - unfold rounds_to_negative_zero.
    apply andb_false_intro1. apply NumFacts.Qlt_bool_false.
    unfold Qle, Qdiv, Qmult, Qinv, inject_Z. simpl. lia.
Qed.

End Formatters.

(** X11. [formatTokenNumber] of a whole count from 0 to
    [Number.MAX_SAFE_INTEGER] shows the count in thousands, rounded to the
    nearest with a half going upward, in groups of three digits, followed by
    [" K"]. (Up to that bound the quotient by 1000 rounds in binary64 to the
    same whole number as the exact quotient.) *)
Theorem token_number_in_thousands (n : Z) :
  0 <= n <= MAX_SAFE_INTEGER ->
  exists k,
    1000 * k - 500 <= n < 1000 * k + 500
    /\ formatTokenNumber (of_Z n) = group (digits_of (Z.to_N k)) +:+ " K".
Proof.
  intros [Hn _]. exists ((n + 500) / 1000). split.
  - pose proof (Z.div_mod (n + 500) 1000 ltac:(lia)).
    pose proof (Z.mod_pos_bound (n + 500) 1000 ltac:(lia)). lia.
  - destruct (thousands_of_whole n Hn) as (_ & Hround & Hzero).
    unfold formatTokenNumber. cbv zeta. rewrite Hround, Hzero.
    unfold of_Z. rewrite Qfloor_Z. unfold whole_enUS.
    assert (Hk : ((n + 500) / 1000 <? 0) = false)
      by (apply Z.ltb_ge, Z.div_pos; lia).
    rewrite Hk. reflexivity.
Qed.

Lemma token_number_in_thousands_witness :
  0 <= 1234567 <= MAX_SAFE_INTEGER
  /\ exists k,
       1000 * k - 500 <= 1234567 < 1000 * k + 500
       /\ formatTokenNumber (of_Z 1234567)
          = group (digits_of (Z.to_N k)) +:+ " K".
Proof.
  assert (H : 0 <= 1234567 <= MAX_SAFE_INTEGER) by (unfold MAX_SAFE_INTEGER; lia).
  split; [exact H|]. exact (token_number_in_thousands 1234567 H).
Defined.

(** X12. The text of [formatTokenNumber] can be read back: for a whole count
    from 0 to [Number.MAX_SAFE_INTEGER], the text without its [" K"] and its
    commas is the decimal numeral of the count in thousands. *)
Theorem token_number_reads_back (n : Z) :
  0 <= n <= MAX_SAFE_INTEGER ->
  exists body,
    formatTokenNumber (of_Z n) = body +:+ " K"
    /\ read_digits (without_commas body) = Some (Z.to_N ((n + 500) / 1000)).
Proof.
  intros [Hn _]. exists (group (digits_of (Z.to_N ((n + 500) / 1000)))). split.
  - destruct (thousands_of_whole n Hn) as (_ & Hround & Hzero).
    unfold formatTokenNumber. cbv zeta. rewrite Hround, Hzero.
    unfold of_Z. rewrite Qfloor_Z. unfold whole_enUS.
    assert (Hk : ((n + 500) / 1000 <? 0) = false)
      by (apply Z.ltb_ge, Z.div_pos; lia).
    rewrite Hk. reflexivity.
  - rewrite without_commas_group. apply read_digits_of.
Qed.

Lemma token_number_reads_back_witness :
  0 <= 999500 <= MAX_SAFE_INTEGER
  /\ exists body,
       formatTokenNumber (of_Z 999500) = body +:+ " K"
       /\ read_digits (without_commas body)
          = Some (Z.to_N ((999500 + 500) / 1000)).
Proof.
  assert (H : 0 <= 999500 <= MAX_SAFE_INTEGER) by (unfold MAX_SAFE_INTEGER; lia).
  split; [exact H|]. exact (token_number_reads_back 999500 H).
Defined.

(** ** The tiers of a percentage *)

Section Tiers.

Lemma le_transitive (a b c : number) :
  le a b = true -> le b c = true -> le a c = true.
Proof.
  destruct a as [| | |x], b as [| | |y], c as [| | |z]; simpl;
    try discriminate; try reflexivity.
  rewrite !Qle_bool_iff. apply Qle_trans.
Qed.

Lemma filledWidth_between (percentage : number) :
  between 0 100 percentage ->
  exists pixels, filledWidth percentage = of_Z pixels /\ 0 <= pixels <= 200.
Proof.
  destruct percentage as [| | |q]; simpl; try contradiction.
  intros [Hlo Hhi]. exists (Qfloor (q / inject_Z 100 * inject_Z 200 + (1 # 2))).
  split; [reflexivity|].
  assert (E : (q / inject_Z 100 * inject_Z 200 == q * 2)%Q) by field.
  split.
  - change 0 with (Qfloor (inject_Z 0)). apply Qfloor_resp_le.
    rewrite E. change (inject_Z 0) with 0%Q. lra.
  - change 200 with (Qfloor (401 # 2)). apply Qfloor_resp_le.
    rewrite E. lra.
Qed.

End Tiers.

(** X13. The status bar, the tooltip and the panel put a percentage in the
    same tier: where the panel has the class [high] the bar of the tooltip
    is filled with the critical colour and the status bar, with colours
    enabled, takes it; the same for [medium] and the warning colour; and
    where the panel has [low] the bar is green and the status bar keeps its
    foreground colour. *)
Theorem usage_tiers_agree (config : ColorConfig) (percentage : number) :
  colorsEnabled config = true ->
  (_getUsageClass config percentage false = "high"
   /\ fillColor config percentage UsageBar false = criticalColor config
   /\ getStatusBarColor config percentage = Css (criticalColor config))
  \/ (_getUsageClass config percentage false = "medium"
      /\ fillColor config percentage UsageBar false = warningColor config
      /\ getStatusBarColor config percentage = Css (warningColor config))
  \/ (_getUsageClass config percentage false = "low"
      /\ fillColor config percentage UsageBar false = "#4CAF50"
      /\ getStatusBarColor config percentage
         = ThemeColor "statusBarItem.foreground").
Proof.
  intros Henabled.
  unfold _getUsageClass, fillColor, getStatusBarColor. rewrite Henabled.
  cbn [negb].
  destruct (ge percentage (criticalThreshold config));
    [left; repeat split|].
  destruct (ge percentage (warningThreshold config));
    [right; left; repeat split | right; right; repeat split].
Qed.

Lemma usage_tiers_agree_witness :
  colorsEnabled defaultColors = true
  /\ ((_getUsageClass defaultColors (of_Z 75) false = "high"
       /\ fillColor defaultColors (of_Z 75) UsageBar false
          = criticalColor defaultColors
       /\ getStatusBarColor defaultColors (of_Z 75)
          = Css (criticalColor defaultColors))
      \/ (_getUsageClass defaultColors (of_Z 75) false = "medium"
          /\ fillColor defaultColors (of_Z 75) UsageBar false
             = warningColor defaultColors
          /\ getStatusBarColor defaultColors (of_Z 75)
             = Css (warningColor defaultColors))
      \/ (_getUsageClass defaultColors (of_Z 75) false = "low"
          /\ fillColor defaultColors (of_Z 75) UsageBar false = "#4CAF50"
          /\ getStatusBarColor defaultColors (of_Z 75)
             = ThemeColor "statusBarItem.foreground")).
Proof.
  split; [reflexivity|].
  exact (usage_tiers_agree defaultColors (of_Z 75) eq_refl).
Defined.

(** X14. A higher percentage never falls to a lower tier, whatever the
    thresholds: above a percentage of the class [high] all are [high], and
    above one of the class [medium] all are [medium] or [high]. *)
Theorem tiers_rise_with_the_percentage (config : ColorConfig)
  (lower higher : number) :
  le lower higher = true ->
  (_getUsageClass config lower false = "high" ->
   _getUsageClass config higher false = "high")
  /\ (_getUsageClass config lower false = "medium" ->
      _getUsageClass config higher false = "medium"
      \/ _getUsageClass config higher false = "high").
Proof.
  intros Hle. unfold _getUsageClass, ge.
  destruct (le (criticalThreshold config) lower) eqn:Hc.
  - rewrite (le_transitive _ _ _ Hc Hle). split; [reflexivity|discriminate].
  - destruct (le (warningThreshold config) lower) eqn:Hw.
    + rewrite (le_transitive _ _ _ Hw Hle). split; [discriminate|].
      intros _. destruct (le (criticalThreshold config) higher); auto.
    + split; discriminate.
Qed.

Lemma tiers_rise_with_the_percentage_witness :
  le (of_Z 92) (of_Z 97) = true
  /\ (_getUsageClass defaultColors (of_Z 92) false = "high" ->
      _getUsageClass defaultColors (of_Z 97) false = "high")
  /\ (_getUsageClass defaultColors (of_Z 92) false = "medium" ->
      _getUsageClass defaultColors (of_Z 97) false = "medium"
      \/ _getUsageClass defaultColors (of_Z 97) false = "high").
Proof.
  split; [reflexivity|].
  exact (tiers_rise_with_the_percentage defaultColors (of_Z 92) (of_Z 97)
           eq_refl).
Defined.

(** X15. When the warning threshold is not below the critical one, the
    warning tier is empty: the panel never has the class [medium], and the
    status bar has the critical colour or its foreground colour. *)
Theorem warning_tier_needs_room (config : ColorConfig) (percentage : number)
  (outdated : bool) :
  ge (warningThreshold config) (criticalThreshold config) = true ->
  _getUsageClass config percentage outdated <> "medium"
  /\ (getStatusBarColor config percentage = Css (criticalColor config)
      \/ getStatusBarColor config percentage
         = ThemeColor "statusBarItem.foreground").
Proof.
  unfold ge. intros Hroom.
  assert (Hnone : le (criticalThreshold config) percentage = false ->
                  le (warningThreshold config) percentage = false).
  { intros Hc. destruct (le (warningThreshold config) percentage) eqn:Hw;
      [|reflexivity].
    rewrite (le_transitive _ _ _ Hroom Hw) in Hc. discriminate. }
  unfold _getUsageClass, getStatusBarColor, ge. split.
  - destruct outdated; [discriminate|].
    destruct (le (criticalThreshold config) percentage); [discriminate|].
    rewrite Hnone by reflexivity. discriminate.
  - destruct (colorsEnabled config); cbn [negb]; [|now right].
    destruct (le (criticalThreshold config) percentage); [now left|].
    rewrite Hnone by reflexivity. now right.
Qed.

Lemma warning_tier_needs_room_witness :
  ge (of_Z 90) (of_Z 80) = true
  /\ _getUsageClass
       {| colorsEnabled := true; warningThreshold := of_Z 90;
          warningColor := "#f3d898"; criticalThreshold := of_Z 80;
          criticalColor := "#eca7a7" |} (of_Z 85) false <> "medium"
  /\ (getStatusBarColor
        {| colorsEnabled := true; warningThreshold := of_Z 90;
           warningColor := "#f3d898"; criticalThreshold := of_Z 80;
           criticalColor := "#eca7a7" |} (of_Z 85) = Css "#eca7a7"
      \/ getStatusBarColor
           {| colorsEnabled := true; warningThreshold := of_Z 90;
              warningColor := "#f3d898"; criticalThreshold := of_Z 80;
              criticalColor := "#eca7a7" |} (of_Z 85)
         = ThemeColor "statusBarItem.foreground").
Proof.
  split; [reflexivity|].
  exact (warning_tier_needs_room
           {| colorsEnabled := true; warningThreshold := of_Z 90;
              warningColor := "#f3d898"; criticalThreshold := of_Z 80;
              criticalColor := "#eca7a7" |} (of_Z 85) false eq_refl).
Defined.

(** X16. The time bar of the tooltip fits its track: when the window
    seconds do not overflow (the raw [window_minutes] is no number, or not
    positive, or a finite number whose product by 60 is at most
    [Number.MAX_VALUE]), the filled width of the bar of a normalized window
    is a whole number of pixels from 0 to 200. *)
Theorem time_bar_fits_the_track (now : Z) (recordTimestamp : Date)
  (rl : RateLimit) :
  windowSeconds_finite (window_minutes rl) ->
  exists pixels,
    filledWidth (timePercent (normalizeWindow now recordTimestamp rl))
    = of_Z pixels
    /\ 0 <= pixels <= 200.
Proof.
  intros Hraw. apply filledWidth_between. unfold timePercent.
  destruct (outdated (normalizeWindow now recordTimestamp rl)).
  - simpl. split; [apply Qle_refl | discriminate].
  - apply time_percent_between.
    unfold normalizeWindow. cbn [w_window_minutes].
    apply resolveWindowMinutes_finite.
    now apply windowSeconds_finite_not_infinite.
Qed.

Lemma time_bar_fits_the_track_witness :
  windowSeconds_finite (window_minutes descriptor_relative)
  /\ exists pixels,
       filledWidth (timePercent (normalizeWindow half_hour_later
                                   (Instant new_year) descriptor_relative))
       = of_Z pixels
       /\ 0 <= pixels <= 200.
Proof.
  assert (H : windowSeconds_finite (window_minutes descriptor_relative))
    by (vm_compute; discriminate).
  split; [exact H|].
  exact (time_bar_fits_the_track half_hour_later (Instant new_year)
           descriptor_relative H).
Defined.

(** ** The two views of a query *)

Section Views.

Context (host : Host) (clock : Clock).

(** What a query gives the views: a reason that is not empty, or a
    snapshot. *)
Lemma getRateLimitData_shape :
  (exists reason,
     getRateLimitData host clock None = notFound reason
     /\ (reason = "No token_count events found in session files"
         \/ reason = typeErrorMessage))
  \/ (exists snapshot,
        getRateLimitData host clock None
        = {| found := true; data := Some snapshot; error := None |}).
Proof.
  unfold getRateLimitData.
  destruct (findLatestTokenCountRecord host (nowMs clock) (today clock)
              (currentDate clock) (requestedPath host None))
    as [[f record]|].
  - destruct (assemble host clock f record) as [snapshot|].
    + right. exists snapshot. reflexivity.
    + left. exists typeErrorMessage. split; [reflexivity | now right].
  - left. eexists. split; [reflexivity | now left].
Qed.

End Views.



(** X18. The fallback texts of the views are never shown: the status bar
    never shows [Unknown error occurred], the panel never shows
    [No rate limit data found], and neither shows
    [Rate limit data is undefined], the error page of a rendering that
    throws included. *)
Theorem fallback_texts_are_never_shown (host : Host) (clock : Clock) :
  updateStats host clock <> showErrorState "Unknown error occurred"
  /\ updateStats host clock <> showErrorState "Rate limit data is undefined"
  /\ _update host clock <> _getErrorHtml "No rate limit data found"
  /\ _update host clock <> _getErrorHtml "Rate limit data is undefined".
Proof.
  unfold updateStats, _update.
  destruct (getRateLimitData_shape host clock)
    as [(reason & -> & [-> | ->]) | (snapshot & ->)];
    cbn [found data negb];
    try destruct (renders (primary snapshot) && renders (secondary snapshot));
    repeat split; discriminate.
Qed.

(** ** The refresh timer *)

Section TimerFacts.

Lemma stopRefreshTimer_clears (s : Timers) :
  one_interval s ->
  refreshTimer (stopRefreshTimer s) = None
  /\ intervals (stopRefreshTimer s) = ∅
  /\ isWindowFocused (stopRefreshTimer s) = isWindowFocused s
  /\ refreshInterval (stopRefreshTimer s) = refreshInterval s
  /\ updates (stopRefreshTimer s) = updates s.
Proof.
  intros [delay Hone]. unfold stopRefreshTimer.
  destruct (refreshTimer s) as [handle|] eqn:Htimer; simpl.
  - rewrite Hone. split; [reflexivity|]. split; [|repeat split].
    apply delete_singleton_eq.
  - rewrite Htimer. split; [reflexivity|]. split; [exact Hone|repeat split].
Qed.

Lemma startRefreshTimer_invariant (s : Timers) :
  one_interval s -> timers_invariant (startRefreshTimer s).
Proof.
  intros Hone.
  destruct (stopRefreshTimer_clears s Hone) as (Ht & Hi & Hf & Hr & _).
  unfold startRefreshTimer. cbv zeta.
  destruct (isWindowFocused (stopRefreshTimer s)) eqn:Hfocus; cbn [negb].
  - split;
      cbn [intervals refreshTimer isWindowFocused refreshInterval handles
           updated].
    + rewrite Hi. apply insert_empty.
    + intros Hno. rewrite Hfocus in Hno. discriminate.
  - split; [now rewrite Ht, Hi | intros _; exact Ht].
Qed.

Lemma stopRefreshTimer_invariant (s : Timers) :
  one_interval s -> timers_invariant (stopRefreshTimer s).
Proof.
  intros Hone.
  destruct (stopRefreshTimer_clears s Hone) as (Ht & Hi & _).
  split; [now rewrite Ht, Hi | intros _; exact Ht].
Qed.

Lemma invariant_one_interval (s : Timers) :
  timers_invariant s -> one_interval s.
Proof. intros [Hi _]. eexists. exact Hi. Qed.

Lemma handle_event_invariant (s : Timers) (e : Event) :
  timers_invariant s -> timers_invariant (handle_event s e).
Proof.
  intros Hinv. pose proof (invariant_one_interval s Hinv) as [delay Hone].
  destruct e as [focused|setting| | |handle|]; simpl.
  - unfold setWindowFocused.
    destruct focused.
    + apply startRefreshTimer_invariant. exists delay. exact Hone.
    + apply stopRefreshTimer_invariant. exists delay. exact Hone.
  - apply startRefreshTimer_invariant. exists delay. exact Hone.
  - exact Hinv.
  - exact Hinv.
  - unfold elapsed. destruct (intervals s !! handle); [|exact Hinv].
    destruct (isWindowFocused s); exact Hinv.
  - apply stopRefreshTimer_invariant. exists delay. exact Hone.
Qed.

Lemma session_invariant (setting : number) (events : list Event) :
  timers_invariant (session setting events).
Proof.
  unfold session. induction events as [|e events IH] using rev_ind.
  - apply startRefreshTimer_invariant. exists zero. reflexivity.
  - rewrite foldl_snoc. now apply handle_event_invariant.
Qed.

Lemma getRefreshIntervalMs_floor (setting : number) :
  isNaN setting = false -> le (of_Z 5000) (getRefreshIntervalMs setting) = true.
Proof.
  unfold getRefreshIntervalMs.
  destruct setting as [| | |q]; [discriminate|reflexivity|reflexivity|].
  intros _. unfold of_Z. rewrite MoreNumFacts.max_Fin.
  change (mul (Fin (Qmax q (inject_Z 5))) (Fin (inject_Z 1000)))
    with (Fin (Qmax q (inject_Z 5) * inject_Z 1000)).
  simpl. apply Qle_bool_iff.
  pose proof (Q.le_max_r q (inject_Z 5)) as Hmax.
  change (inject_Z 5000) with (5000 # 1)%Q.
  change (inject_Z 1000) with (1000 # 1)%Q.
  change (inject_Z 5) with (5 # 1)%Q in *. lra.
Qed.

End TimerFacts.

(** X19. However the window state, the setting and the timer change after
    the activation, at most one interval is alive: the one that
    [refreshTimer] holds, set with the delay of the current setting; and
    none is alive while the window is not focused. *)
Theorem one_refresh_timer (setting : number) (events : list Event) :
  intervals (session setting events)
  = match refreshTimer (session setting events) with
    | Some handle =>
        {[ handle :=
             getRefreshIntervalMs (refreshInterval (session setting events)) ]}
    | None => ∅
    end
  /\ (isWindowFocused (session setting events) = false ->
      intervals (session setting events) = ∅).
Proof.
  destruct (session_invariant setting events) as [Hi Hf].
  split; [exact Hi|]. intros Hfocus. rewrite Hi, (Hf Hfocus). reflexivity.
Qed.

(** X20. An interval that is alive always updates when it elapses: the
    test of the focus in its callback never fails. *)
Theorem live_interval_always_updates (setting : number) (events : list Event)
  (handle : nat) (delay : number) :
  intervals (session setting events) !! handle = Some delay ->
  updates (elapsed handle (session setting events))
  = S (updates (session setting events)).
Proof.
  intros Hlive. destruct (session_invariant setting events) as [Hi Hf].
  unfold elapsed. rewrite Hlive.
  destruct (isWindowFocused (session setting events)); [reflexivity|].
  rewrite Hi, (Hf eq_refl) in Hlive. discriminate.
Qed.

Lemma live_interval_always_updates_witness :
  intervals (session (of_Z 10) [WindowStateChanged false; WindowStateChanged true])
    !! 1%nat = Some (of_Z 10000)
  /\ updates (elapsed 1 (session (of_Z 10)
                [WindowStateChanged false; WindowStateChanged true]))
     = S (updates (session (of_Z 10)
                     [WindowStateChanged false; WindowStateChanged true])).
Proof.
  assert (H : intervals (session (of_Z 10)
                [WindowStateChanged false; WindowStateChanged true])
              !! 1%nat = Some (of_Z 10000)) by (vm_compute; reflexivity).
  split; [exact H|].
  exact (live_interval_always_updates (of_Z 10)
           [WindowStateChanged false; WindowStateChanged true] 1 (of_Z 10000) H).
Defined.

(** X21. The delay the refresh timer runs with, in every state reached
    after the activation. With a setting that is a number of at most
    2147483 seconds, the interval that is alive keeps the delay it was set
    with, five seconds at least. With a setting of 2147484 seconds or
    more the delay handed to [setInterval] exceeds [2 ^ 31 - 1], and with a
    setting that is no number it is no number: in both cases the timer
    keeps a delay of one millisecond. *)
Theorem refresh_delay_within_bounds (setting : number)
  (events : list Event) (handle : nat) (delay : number) :
  intervals (session setting events) !! handle = Some delay ->
  (le (refreshInterval (session setting events)) (of_Z 2147483) = true ->
   idleTimeout delay = delay /\ le (of_Z 5000) delay = true)
  /\ (isNaN (refreshInterval (session setting events)) = true
      \/ le (of_Z 2147484) (refreshInterval (session setting events)) = true ->
      idleTimeout delay = of_Z 1).
Proof.
  intros Hlive. destruct (session_invariant setting events) as [Hi _].
  rewrite Hi in Hlive.
  destruct (refreshTimer (session setting events)) as [h|];
    [|rewrite lookup_empty in Hlive; discriminate].
  apply lookup_singleton_Some in Hlive as [_ <-].
  unfold idleTimeout, getRefreshIntervalMs, ge.
  destruct (refreshInterval (session setting events)) as [| | |q].
  - split; [discriminate | reflexivity].
  - split; [discriminate | reflexivity].
  - split; [intros _; split; reflexivity | intros [H|H]; discriminate H].
  - unfold of_Z. rewrite MoreNumFacts.max_Fin.
    change (mul (Fin (Qmax q (inject_Z 5))) (Fin (inject_Z 1000)))
      with (Fin (Qmax q (inject_Z 5) * inject_Z 1000)).
    pose proof (Q.le_max_r q (inject_Z 5)) as Hmax5.
    pose proof (Q.le_max_l q (inject_Z 5)) as Hmaxq.
    change (inject_Z 1000) with (1000 # 1)%Q.
    change (inject_Z 5) with (5 # 1)%Q in *.
    cbn [le]. split.
    + intros Hle. apply Qle_bool_iff in Hle.
      change (inject_Z 2147483) with (2147483 # 1)%Q in Hle.
      assert (Hhi : (Qmax q (5 # 1) <= 2147483 # 1)%Q)
        by (apply Q.max_lub; [exact Hle | discriminate]).
      assert (H1 : Qle_bool (inject_Z 1) (Qmax q (5 # 1) * (1000 # 1)) = true).
      { apply Qle_bool_iff. change (inject_Z 1) with (1 # 1)%Q. lra. }
      assert (H2 : Qle_bool (Qmax q (5 # 1) * (1000 # 1)) (inject_Z 2147483647) = true).
      { apply Qle_bool_iff. change (inject_Z 2147483647) with (2147483647 # 1)%Q. lra. }
      assert (H3 : Qle_bool (inject_Z 5000) (Qmax q (5 # 1) * (1000 # 1)) = true).
      { apply Qle_bool_iff. change (inject_Z 5000) with (5000 # 1)%Q. lra. }
      rewrite H1, H2. split; [reflexivity | exact H3].
    + intros [H|Hle]; [discriminate H|]. apply Qle_bool_iff in Hle.
      change (inject_Z 2147484) with (2147484 # 1)%Q in Hle.
      assert (H2 : Qle_bool (Qmax q (5 # 1) * (1000 # 1)) (inject_Z 2147483647) = false).
      { apply NumFacts.Qle_bool_false.
        change (inject_Z 2147483647) with (2147483647 # 1)%Q. lra. }
      rewrite H2. now rewrite andb_false_r.
Qed.

Lemma refresh_delay_within_bounds_witness :
  intervals (session (of_Z 10) [RefreshIntervalChanged (of_Z 1)]) !! 1%nat
  = Some (of_Z 5000)
  /\ le (refreshInterval (session (of_Z 10) [RefreshIntervalChanged (of_Z 1)]))
        (of_Z 2147483) = true
  /\ idleTimeout (of_Z 5000) = of_Z 5000
  /\ le (of_Z 5000) (of_Z 5000) = true.
Proof.
  assert (H1 : intervals (session (of_Z 10) [RefreshIntervalChanged (of_Z 1)])
               !! 1%nat = Some (of_Z 5000)) by (vm_compute; reflexivity).
  assert (H2 : le (refreshInterval
                     (session (of_Z 10) [RefreshIntervalChanged (of_Z 1)]))
                  (of_Z 2147483) = true) by reflexivity.
  split; [exact H1|]. split; [exact H2|].
  exact (proj1 (refresh_delay_within_bounds (of_Z 10)
                  [RefreshIntervalChanged (of_Z 1)] 1 (of_Z 5000) H1) H2).
Defined.

(** ** The logger *)

Section LoggerFacts.

Lemma suffix_snoc {A} (l k : list A) (x : A) :
  l `suffix_of` k -> (l ++ [x]) `suffix_of` (k ++ [x]).
Proof. intros [k' ->]. exists k'. now rewrite app_assoc. Qed.

Lemma logger_call_suffix (s : Logger) (c : LoggerCall) :
  (forall channel, outputChannel s = Some channel ->
     channel_lines channel `suffix_of` (snd <$> console s)) ->
  forall channel, outputChannel (logger_call s c) = Some channel ->
    channel_lines channel `suffix_of` (snd <$> console (logger_call s c)).
Proof.
  intros Hs channel.
  destruct c as [|enableLogging timestamp message isError|]; simpl.
  - unfold initializeLogging.
    destruct (outputChannel s) as [old|] eqn:Hold.
    + rewrite Hold. apply Hs.
    + simpl. intros [= <-]. simpl. apply suffix_nil.
  - unfold log.
    destruct (negb enableLogging && negb isError
              && negb (mentions message "Manual refresh")
              && negb (mentions message "Extension activation"));
      [apply Hs|].
    cbn [outputChannel console].
    destruct (outputChannel s) as [old|]; [|discriminate].
    intros [= <-]. cbn [channel_lines]. rewrite fmap_app.
    apply suffix_snoc. now apply Hs.
  - discriminate.
Qed.

End LoggerFacts.

(** X22. Whatever calls the logger gets, the lines of the output channel are
    the last lines of the console, in the same order: the channel never
    holds a line that the console lacks, and it misses none of the lines
    written since its first. *)
Theorem channel_shows_the_end_of_the_console (calls : list LoggerCall)
  (channel : Channel) :
  outputChannel (logged calls) = Some channel ->
  channel_lines channel `suffix_of` (snd <$> console (logged calls)).
Proof.
  revert channel. unfold logged.
  induction calls as [|c calls IH] using rev_ind; [discriminate|].
  rewrite foldl_snoc. now apply logger_call_suffix.
Qed.

Lemma channel_shows_the_end_of_the_console_witness :
  outputChannel
    (logged [call_log false "T0" "Extension activation started" false;
             call_initializeLogging;
             call_log false "T1" "Creating status bar item..." false;
             call_log false "T2" "Manual refresh triggered" true])
  = Some {| channel_lines := ["[T2] Manual refresh triggered"];
            channel_shown := true |}
  /\ ["[T2] Manual refresh triggered"]
     `suffix_of`
     (snd <$> console
        (logged [call_log false "T0" "Extension activation started" false;
                 call_initializeLogging;
                 call_log false "T1" "Creating status bar item..." false;
                 call_log false "T2" "Manual refresh triggered" true])).
Proof.
  assert (H : outputChannel
    (logged [call_log false "T0" "Extension activation started" false;
             call_initializeLogging;
             call_log false "T1" "Creating status bar item..." false;
             call_log false "T2" "Manual refresh triggered" true])
  = Some {| channel_lines := ["[T2] Manual refresh triggered"];
            channel_shown := true |}) by (vm_compute; reflexivity).
  split; [exact H|].
  exact (channel_shows_the_end_of_the_console _ _ H).
Defined.

(** ** The session root and the search *)

Section MoreResolver.

Context (host : Host).

Lemma String_replace_absent (pattern replacement s : string) :
  mentions s pattern = false -> String_replace pattern replacement s = s.
Proof.
  induction s as [|c rest IH]; simpl.
  - rewrite orb_false_r. now intros ->.
  - intros H. apply orb_false_iff in H as [Hprefix Hrest].
    rewrite Hprefix. f_equal. now apply IH.
Qed.

Lemma listed_whatever_the_age (keep : Q -> bool) (dir : string)
  (entry : SessionFile) :
  listed host keep dir entry -> listed host (λ _, true) dir entry.
Proof.
  intros (Hdir & files & Hglob & Hin & Hstat & _).
  split; [exact Hdir|]. exists files. repeat split; assumption.
Qed.

Lemma first_yielding_member (files : list SessionFile) (f : string)
  (record : value) :
  first_yielding host files f record ->
  parseSessionFile host f = Some record
  /\ exists entry, entry ∈ files /\ file entry = f.
Proof.
  intros (i & entry & Hi & Hf & Hp & _). split; [exact Hp|].
  exists entry. split; [|exact Hf]. now apply list_elem_of_lookup_2 in Hi.
Qed.

End MoreResolver.

(** X23. A custom session path that holds no tilde is resolved as it is,
    whatever the home directory; the empty path stands for the default
    root. *)
Theorem custom_path_without_tilde (host : Host) (custom : string) :
  mentions custom "~" = false ->
  getSessionBasePath host (Some custom)
  = if String.eqb custom "" then getSessionBasePath host None
    else path_resolve host custom.
Proof.
  intros Hno. unfold getSessionBasePath.
  destruct (String.eqb custom ""); cbn [negb]; [reflexivity|].
  now rewrite String_replace_absent.
Qed.

Lemma custom_path_without_tilde_witness :
  mentions "/data/sessions" "~" = false
  /\ getSessionBasePath (Sample.host true []) (Some "/data/sessions")
     = if String.eqb "/data/sessions" ""
       then getSessionBasePath (Sample.host true []) None
       else path_resolve (Sample.host true []) "/data/sessions".
Proof.
  split; [reflexivity|].
  exact (custom_path_without_tilde (Sample.host true []) "/data/sessions"
           eq_refl).
Defined.

(** X24. When the two readings of the clock fall on the same day, the
    search of the last hour finds nothing that the search of the seven days
    lacks: the file found is one of the files of the seven days and yields
    the record found, and there is no result exactly when none of the files
    of the seven days yields a record. *)
Theorem search_stays_within_the_week (host : Host)
  (nowMs today currentDate : Z) (basePath : option string) :
  existsSync host (getSessionBasePath host basePath) = true ->
  datePath host (getSessionBasePath host basePath) today
  = datePath host (getSessionBasePath host basePath)
      (searchDate host currentDate 0) ->
  match findLatestTokenCountRecord host nowMs today currentDate basePath with
  | Some (f, record) =>
      parseSessionFile host f = Some record
      /\ exists entry,
           entry ∈ getSessionFilesWithMtime host
                     (getSessionBasePath host basePath) currentDate
           /\ file entry = f
  | None =>
      none_yields host
        (getSessionFilesWithMtime host (getSessionBasePath host basePath)
           currentDate)
  end
  /\ (none_yields host
        (getSessionFilesWithMtime host (getSessionBasePath host basePath)
           currentDate) ->
      findLatestTokenCountRecord host nowMs today currentDate basePath = None).
Proof.
  intros Hroot Hday.
  pose proof (findLatestTokenCountRecord_outcome host nowMs today currentDate
                basePath Hroot) as Hout.
  assert (Hfirst :
    match findLatestTokenCountRecord host nowMs today currentDate basePath with
    | Some (f, record) =>
        parseSessionFile host f = Some record
        /\ exists entry,
             entry ∈ getSessionFilesWithMtime host
                       (getSessionBasePath host basePath) currentDate
             /\ file entry = f
    | None =>
        none_yields host
          (getSessionFilesWithMtime host (getSessionBasePath host basePath)
             currentDate)
    end).
  { destruct (findLatestTokenCountRecord host nowMs today currentDate basePath)
      as [[f record]|]; [|exact (proj2 Hout)].
    destruct Hout as [Hrecent | [_ Hweek]].
    - apply first_yielding_member in Hrecent as [Hp (entry & Hin & Hf)].
      split; [exact Hp|]. exists entry. split; [|exact Hf].
      unfold recentFiles in Hin.
      apply sortByMtimeDesc_elem, filesOfDay_listed in Hin.
      apply getSessionFilesWithMtime_listed. exists 0%nat. split; [lia|].
      rewrite <- Hday. exact (listed_whatever_the_age host _ _ _ Hin).
    - now apply first_yielding_member in Hweek. }
  split; [exact Hfirst|]. intros Hnone.
  destruct (findLatestTokenCountRecord host nowMs today currentDate basePath)
    as [[f record]|]; [|reflexivity].
  destruct Hfirst as [Hp (entry & Hin & <-)].
  rewrite (Hnone entry Hin) in Hp. discriminate.
Qed.

Lemma search_stays_within_the_week_witness :
  existsSync (Sample.host true Sample.two_files)
    (getSessionBasePath (Sample.host true Sample.two_files) None) = true
  /\ datePath (Sample.host true Sample.two_files)
       (getSessionBasePath (Sample.host true Sample.two_files) None)
       half_hour_later
     = datePath (Sample.host true Sample.two_files)
         (getSessionBasePath (Sample.host true Sample.two_files) None)
         (searchDate (Sample.host true Sample.two_files) half_hour_later 0)
  /\ (match findLatestTokenCountRecord (Sample.host true Sample.two_files)
              half_hour_later half_hour_later half_hour_later None with
      | Some (f, record) =>
          parseSessionFile (Sample.host true Sample.two_files) f = Some record
          /\ exists entry,
               entry ∈ getSessionFilesWithMtime
                         (Sample.host true Sample.two_files)
                         (getSessionBasePath
                            (Sample.host true Sample.two_files) None)
                         half_hour_later
               /\ file entry = f
      | None =>
          none_yields (Sample.host true Sample.two_files)
            (getSessionFilesWithMtime (Sample.host true Sample.two_files)
               (getSessionBasePath (Sample.host true Sample.two_files) None)
               half_hour_later)
      end
      /\ (none_yields (Sample.host true Sample.two_files)
            (getSessionFilesWithMtime (Sample.host true Sample.two_files)
               (getSessionBasePath (Sample.host true Sample.two_files) None)
               half_hour_later) ->
          findLatestTokenCountRecord (Sample.host true Sample.two_files)
            half_hour_later half_hour_later half_hour_later None = None)).
Proof.
  assert (H1 : existsSync (Sample.host true Sample.two_files)
    (getSessionBasePath (Sample.host true Sample.two_files) None) = true)
    by (vm_compute; reflexivity).
  assert (H2 : datePath (Sample.host true Sample.two_files)
       (getSessionBasePath (Sample.host true Sample.two_files) None)
       half_hour_later
     = datePath (Sample.host true Sample.two_files)
         (getSessionBasePath (Sample.host true Sample.two_files) None)
         (searchDate (Sample.host true Sample.two_files) half_hour_later 0))
    by (vm_compute; reflexivity).
  split; [exact H1|]. split; [exact H2|].
  exact (search_stays_within_the_week (Sample.host true Sample.two_files)
           half_hour_later half_hour_later half_hour_later None H1 H2).
Defined.
